(** * The publish-event synchronisation pipeline of arxiv-browse

    A shallow embedding of [script/sync_prod_to_gcp/submissions_to_gcp.py]:
    the file-state resolver ([SubmissionFilesState]), the artifact ensuring
    step ([submission_message_to_file_state]), the reconciler
    ([sync_to_gcp]) and the message callback ([submission_callback]).

    Conventions of the embedding.
    - Python exceptions are the constructors of [exn]; a computation that
      may raise returns a [result].
    - Text is a [string] of one-byte characters; a character stands for
      the code point of the same number (0 to 255).
    - The legacy filesystem, the worker hosts, the broker message and the
      object store are explicit values: what the code reads from them is a
      field of [FileSystem] or [Env], what it changes is a field of
      [World]. *)

From Stdlib Require Import ZArith Ascii String List Bool Lia.
From stdpp Require Import base option list gmap strings pretty fin_maps.

Open Scope string_scope.
Open Scope Z_scope.
Open Scope list_scope.

(** ** Exceptions and results *)

Inductive exn : Type :=
| InvalidVersion          (* class InvalidVersion(Exception) *)
| MissingGeneratedFile    (* class MissingGeneratedFile(Exception) *)
| AttributeError
| TypeError
| AssertionError
| ZeroDivisionError
| UnicodeDecodeError
| External (what : string). (* raised inside a collaborator: the name says which *)

Inductive result (A : Type) : Type :=
| Ok (a : A)
| Raise (e : exn).
Arguments Ok {A} a.
Arguments Raise {A} e.

Definition rbind {A B} (m : result A) (f : A → result B) : result B :=
  match m with
  | Ok a => f a
  | Raise e => Raise e
  end.

(** [try: body except: handler] with a bare [except]. *)
Definition try_except {A} (body : result A) (handler : exn → result A) : result A :=
  match body with
  | Ok a => Ok a
  | Raise e => handler e
  end.

#[global] Instance result_ret : MRet result := @Ok.
#[global] Instance result_bind : MBind result := fun A B f m => rbind m f.

(** ** Python string primitives *)

Module Py.

(** [str.isspace] on the code points below 256; the same characters are
    what [\s] matches in a [str] pattern and what [str.strip()] removes. *)
Definition isspace (c : ascii) : bool :=
  let n := nat_of_ascii c in
  ((9 <=? n) && (n <=? 13) || (28 <=? n) && (n <=? 32)
   || (n =? 133) || (n =? 160))%nat.

Definition isdigit (c : ascii) : bool :=
  let n := nat_of_ascii c in ((48 <=? n) && (n <=? 57))%nat.

Definition digit_value (c : ascii) : Z := Z.of_nat (nat_of_ascii c) - 48.

Fixpoint lstrip (s : string) : string :=
  match s with
  | String c s' => if isspace c then lstrip s' else s
  | EmptyString => s
  end.

Definition rstrip (s : string) : string := String.rev (lstrip (String.rev s)).

(** [s.strip()] *)
Definition strip (s : string) : string := rstrip (lstrip s).

(** [s.startswith(p)] *)
Definition startswith (s p : string) : bool := String.prefix p s.

(** [c in s] for a one-character [c]. *)
Fixpoint char_in (c : ascii) (s : string) : bool :=
  match s with
  | String d s' => if Ascii.eqb c d then true else char_in c s'
  | EmptyString => false
  end.

(** [s.split(sep)] for a one-character separator. *)
Fixpoint split (sep : ascii) (s : string) : list string :=
  match s with
  | EmptyString => [EmptyString]
  | String c s' =>
      if Ascii.eqb c sep then EmptyString :: split sep s'
      else match split sep s' with
           | w :: ws => String c w :: ws
           | [] => [String c EmptyString]
           end
  end.

(** [sep.join(parts)] *)
Fixpoint join (sep : string) (parts : list string) : string :=
  match parts with
  | [] => EmptyString
  | [w] => w
  | w :: ws => w +:+ sep +:+ join sep ws
  end.

(** [x in l] for a list of strings. *)
Definition str_in (x : string) (l : list string) : bool :=
  existsb (String.eqb x) l.

(** [l.remove(x)]: drops the first occurrence (the callers test
    membership first, so the [ValueError] of an absent [x] never
    arises). *)
Fixpoint list_remove (x : string) (l : list string) : list string :=
  match l with
  | [] => []
  | y :: l' => if String.eqb x y then l' else y :: list_remove x l'
  end.

(** The values a JSON scalar field can decode to, as far as [int()] and
    string formatting see them.  A float is kept as what [int()] makes of
    it ([None] for nan and the infinities) and as its formatted text; any
    other value (an array, an object) as its formatted text. *)
Inductive value : Type :=
| VNone
| VBool (b : bool)
| VInt (z : Z)
| VStr (s : string)
| VFloat (trunc : option Z) (repr : string)
| VOther (repr : string).

(** The digits of a decimal literal: single underscores may separate
    digits.  Returns the value and the number of digits. *)
Fixpoint int_digits (s : string) (acc : Z) (ndigits : nat) (after_digit : bool)
  : option (Z * nat) :=
  match s with
  | EmptyString => if after_digit then Some (acc, ndigits) else None
  | String c s' =>
      if isdigit c then int_digits s' (acc * 10 + digit_value c) (S ndigits) true
      else if Ascii.eqb c "_" then
             (if after_digit then int_digits s' acc ndigits false else None)
           else None
  end.

(** The white space that [int()] skips around a literal: the white space
    of C ([\t], [\n], [\v], [\f], [\r] and the space) and, of the other
    code points below 256, NEL and the no-break space.  The separators 28
    to 31, which [str.isspace] counts and [str.strip()] removes, are not
    skipped: [int("1\x1c")] raises [ValueError]. *)
Definition int_isspace (c : ascii) : bool :=
  let n := nat_of_ascii c in
  ((9 <=? n) && (n <=? 13) || (n =? 32) || (n =? 133) || (n =? 160))%nat.

Fixpoint int_lstrip (s : string) : string :=
  match s with
  | String c s' => if int_isspace c then int_lstrip s' else s
  | EmptyString => s
  end.

Definition int_strip (s : string) : string :=
  String.rev (int_lstrip (String.rev (int_lstrip s))).

(** [int(s)] for a string, base 10.  [max_str_digits] is the
    interpreter's limit on the number of digits ([0]: no limit). *)
Definition int_of_str (max_str_digits : nat) (s : string) : option Z :=
  let body := int_strip s in
  let '(neg, digits) :=
    match body with
    | String "-" r => (true, r)
    | String "+" r => (false, r)
    | _ => (false, body)
    end in
  match int_digits digits 0 0 false with
  | Some (z, n) =>
      if (negb (max_str_digits =? 0)%nat && (max_str_digits <? n)%nat)
      then None
      else Some (if neg : bool then - z else z)
  | None => None
  end.

(** [int(v)]; [None] stands for the [TypeError], [ValueError] or
    [OverflowError] it raises. *)
Definition int (max_str_digits : nat) (v : value) : option Z :=
  match v with
  | VNone => None
  | VBool b => Some (if b then 1 else 0)
  | VInt z => Some z
  | VStr s => int_of_str max_str_digits s
  | VFloat t _ => t
  | VOther _ => None
  end.

(** [f"{v}"] *)
Definition format (v : value) : string :=
  match v with
  | VNone => "None"
  | VBool b => if b then "True" else "False"
  | VInt z => pretty z
  | VStr s => s
  | VFloat _ r => r
  | VOther r => r
  end.

(** [f"{x}"] for a value that is a string or [None]. *)
Definition format_opt (x : option string) : string :=
  match x with
  | Some s => s
  | None => "None"
  end.

(** Truth value of a string or [None]: [if x:]. *)
Definition truthy (x : option string) : bool :=
  match x with
  | Some s => negb (String.eqb s EmptyString)
  | None => false
  end.

(** *** A [.gz] read as ASCII text

    What a file opened with [gzip.open(p, 'rt', encoding='ascii')] gives
    its reader.  The text layer asks the decompressor for one chunk of
    bytes at a time ([read1], of up to 8192 bytes): a call returns some
    decompressed bytes, or none at the end of the data, or it raises (not
    a gzip file, a truncated or a corrupt one).  How the data falls into
    chunks is the decompressor's business. *)
Inductive gz_stream : Type :=
| GzEnd                                        (* read1 returns b'' *)
| GzFail                                       (* read1 raises *)
| GzChunk (bytes : string) (rest : gz_stream). (* read1 returns bytes *)


(** All bytes below 128: what the [ascii] codec decodes. *)
Definition is_ascii (s : string) : bool :=
  forallb (fun c => (nat_of_ascii c <? 128)%nat) (list_ascii_of_string s).

Definition CR : ascii := "013".
Definition LF : ascii := "010".

(** Universal newlines: every [\r\n] and every other [\r] reads as
    [\n]. *)
Fixpoint translate_newlines (s : string) : string :=
  match s with
  | EmptyString => EmptyString
  | String c r =>
      if Ascii.eqb c CR then
        match r with
        | String d r' =>
            if Ascii.eqb d LF then String LF (translate_newlines r')
            else String LF (translate_newlines r)
        | EmptyString => String LF EmptyString
        end
      else String c (translate_newlines r)
  end.

(** A [\r] at the end of a chunk is held back until the next chunk shows
    whether a [\n] follows: the text without it, and whether there was
    one. *)
Fixpoint hold_back_cr (s : string) : string * bool :=
  match s with
  | EmptyString => (EmptyString, false)
  | String c r =>
      match r with
      | EmptyString => if Ascii.eqb c CR then (EmptyString, true) else (s, false)
      | String _ _ => let '(r', held) := hold_back_cr r in (String c r', held)
      end
  end.

(** The characters that a chunk of ASCII bytes adds to the text, and
    whether a [\r] is held back after it. *)
Definition decode_chunk (pendingcr : bool) (chunk : string) : string * bool :=
  let output := if pendingcr then String CR chunk else chunk in
  let '(output, pendingcr) := hold_back_cr output in
  (translate_newlines output, pendingcr).

(** [f.read(n)] while [n] characters are still wanted: chunks are read
    and decoded until there are [n] characters or the data ends.  A chunk
    is decoded as a whole, so a byte that is not ASCII anywhere in a chunk
    that is read raises [UnicodeDecodeError], also behind the characters
    asked for. *)
Fixpoint read_chunks (s : gz_stream) (pendingcr : bool) (n : nat) : result string :=
  match s with
  | GzFail => Raise (External "gzip")
  | GzEnd | GzChunk EmptyString _ =>
      Ok (String.substring 0 n (if pendingcr then String LF EmptyString else EmptyString))
  | GzChunk chunk rest =>
      if is_ascii chunk then
        let '(text, pendingcr) := decode_chunk pendingcr chunk in
        if (n <=? String.length text)%nat then Ok (String.substring 0 n text)
        else
          match read_chunks rest pendingcr (n - String.length text) with
          | Ok more => Ok (text +:+ more)
          | Raise e => Raise e
          end
      else Raise UnicodeDecodeError
  end.

(** [f.read(n)] on the file just opened. *)
Definition read_text (s : gz_stream) (n : nat) : result string :=
  if (n =? 0)%nat then Ok EmptyString else read_chunks s false n.

End Py.

(** ** The regular expressions the module uses

    A backtracking matcher with Python's priorities: a greedy repetition
    tries the longest run first, a lazy one the shortest, an alternative
    its left branch first; a named group keeps its last capture. *)

Module Re.

Inductive regex : Type :=
| Begin                                       (* ^ *)
| End_                                        (* $ *)
| Lit (s : string)
| Star (greedy : bool) (cls : ascii → bool)   (* c* and c*? *)
| Plus (cls : ascii → bool)                   (* c+ *)
| Seq (r1 r2 : regex)
| Alt (r1 r2 : regex)
| Opt (r : regex)                             (* (?:r)? *)
| Group (name : string) (r : regex).          (* (?P<name>r) *)

Definition groups := list (string * string).
Definition cont := nat → string → groups → option groups.

Definition or_else (a : option groups) (b : option groups) : option groups :=
  match a with
  | Some g => Some g
  | None => b
  end.

Fixpoint strip_prefix (p s : string) : option string :=
  match p, s with
  | EmptyString, _ => Some s
  | String a p', String b s' => if Ascii.eqb a b then strip_prefix p' s' else None
  | String _ _, EmptyString => None
  end.

Fixpoint star (greedy : bool) (cls : ascii → bool)
         (pos : nat) (s : string) (g : groups) (k : cont) : option groups :=
  match s with
  | String c s' =>
      if cls c then
        if greedy
        then or_else (star greedy cls (S pos) s' g k) (k pos s g)
        else or_else (k pos s g) (star greedy cls (S pos) s' g k)
      else k pos s g
  | EmptyString => k pos s g
  end.

Fixpoint run (r : regex) (pos : nat) (s : string) (g : groups) (k : cont)
  : option groups :=
  match r with
  | Begin => if (pos =? 0)%nat then k pos s g else None
  | End_ =>
      (* end of the string, or just before a final newline *)
      if String.eqb s EmptyString || String.eqb s (String "010" EmptyString) then k pos s g else None
  | Lit l =>
      match strip_prefix l s with
      | Some s' => k (pos + String.length l)%nat s' g
      | None => None
      end
  | Star greedy cls => star greedy cls pos s g k
  | Plus cls =>
      match s with
      | String c s' => if cls c then star true cls (S pos) s' g k else None
      | EmptyString => None
      end
  | Seq r1 r2 => run r1 pos s g (fun pos' s' g' => run r2 pos' s' g' k)
  | Alt r1 r2 => or_else (run r1 pos s g k) (run r2 pos s g k)
  | Opt r' => or_else (run r' pos s g k) (k pos s g)
  | Group name r' =>
      run r' pos s g
          (fun pos' s' g' => k pos' s' ((name, String.substring 0 (pos' - pos) s) :: g'))
  end.

(** [pattern.match(s)]: anchored at the start, the end is free. *)
Definition match_ (r : regex) (s : string) : option groups :=
  run r 0 s [] (fun _ _ g => Some g).

(** [m.group(name)]: [None] when the group took no part in the match. *)
Fixpoint group (name : string) (g : groups) : option string :=
  match g with
  | [] => None
  | (n, v) :: g' => if String.eqb n name then Some v else group name g'
  end.

Definition any_char (c : ascii) : bool := negb (Ascii.eqb c "010").

End Re.

Notation "r1 ⋅ r2" := (Re.Seq r1 r2) (at level 41, right associativity).

(** [RE_DATE_COMPONENTS].  The pattern, with a space between its parts:
      ^ Date \s* (?: : | \( revised \s* (?P<version> .*? ) \) : )
      \s* (?P<date> .*? )
      (?: \s+ \( (?P<size_kilobytes> \d+ ) kb ,? (?P<source_type> .* ) \) )? $ *)
Definition RE_DATE_COMPONENTS : Re.regex :=
  Re.Begin ⋅ Re.Lit "Date" ⋅ Re.Star true Py.isspace
  ⋅ Re.Alt (Re.Lit ":")
           (Re.Lit "(revised" ⋅ Re.Star true Py.isspace
            ⋅ Re.Group "version" (Re.Star false Re.any_char) ⋅ Re.Lit "):")
  ⋅ Re.Star true Py.isspace
  ⋅ Re.Group "date" (Re.Star false Re.any_char)
  ⋅ Re.Opt (Re.Plus Py.isspace ⋅ Re.Lit "("
            ⋅ Re.Group "size_kilobytes" (Re.Plus Py.isdigit)
            ⋅ Re.Lit "kb" ⋅ Re.Opt (Re.Lit ",")
            ⋅ Re.Group "source_type" (Re.Star true Re.any_char)
            ⋅ Re.Lit ")")
  ⋅ Re.End_.


(** ** Collaborators

    [identifier.py] and [sync_published_to_gcp.py] are imported by the
    module and are not part of it: what the module uses of them is a field
    of [Env]. *)

Module Identifier.
(** The attributes of an [Identifier] that the module reads. *)
Record t : Type := mk {
  ids : string;          (* the id as given *)
  idv : string;          (* the id with its version *)
  filename : string;
  yymm : string;
  archive : string;
  has_version : bool;
  is_old_id : bool;
}.
End Identifier.

(** What an entry's ["cit"] key holds: a path, or a method object of the
    file state (the method's name). *)
Inductive cit_value : Type :=
| CitPath (p : string)
| CitBoundMethod (name : string).

(** The legacy filesystem, as far as the module reads it.  [None] is a
    raised exception. *)
Record FileSystem : Type := {
  fs_exists : string → bool;                     (* os.path.exists(p), Path(p).exists() *)
  fs_readlines : string → option (list string);  (* open(p, "r", encoding="utf-8").readlines() *)
  fs_tar_getnames : string → option (list string); (* tarfile.open(p, 'r:gz').getnames() *)
  fs_gunzip : string → option Py.gz_stream;      (* gzip.open(p, 'rt', encoding='ascii'):
                                                    what its reader gets *)
  fs_read_bytes : string → option string;        (* the content of a regular file *)
}.

(** [gzip.open(p, 'rt', encoding='ascii').read(n)] *)
Definition fs_gzip_read (fs : FileSystem) (p : string) (n : nat) : result string :=
  match fs_gunzip fs p with
  | Some stream => Py.read_text stream n
  | None => Raise (External "open")
  end.
Arguments fs_gzip_read : simpl never.

(** The keys of a message that the module reads with [data.get], at the
    types of the message schema: [type], [paper_id], [version], [src_ext]
    and [source_format].  A key that is absent reads as [None]
    ([source_format]: as the empty string). *)
Record SubmissionData : Type := {
  d_type : option string;           (* cross | jref | new | rep | wdr *)
  d_paper_id : string;
  d_version : Py.value;
  d_src_ext : option string;
  d_source_format : option string;
}.

(** What [json.loads] returns: [None] for [null], a dict for an object,
    or another value (a number, a string, a boolean, a list). *)
Inductive json_value : Type :=
| JNone
| JDict (d : SubmissionData)
| JOther.

Record Message : Type := {
  message_id : string;
  data : list Byte.byte;
}.

Record Env : Type := {
  FTP_PREFIX : string;
  ORIG_PREFIX : string;
  PS_CACHE_PREFIX : string;
  (* path_to_bucket_key(cit); None: it raised *)
  path_to_bucket_key : cit_value → option string;
  (* (host, parallelism) *)
  CONCURRENCY_PER_WEBNODE : list (string * nat);
  (* Identifier(s); None: it raised *)
  new_Identifier : string → option Identifier.t;
  (* ensure_pdf(session, host, vxid, timeout=2, protocol=protocol) on a
     filesystem: the exception it raised if any, and the filesystem after
     the call *)
  ensure_pdf : FileSystem → string → Identifier.t → string → option string * FileSystem;
  ensure_html : FileSystem → string → Identifier.t → string → option string * FileSystem;
  (* data.decode('utf-8'); None: UnicodeDecodeError *)
  bytes_decode_utf8 : list Byte.byte → option string;
  (* json.loads(s) *)
  json_loads : string → result json_value;
  (* the checksum of a content, where the store has one *)
  checksum : string → option N;
  (* sys.get_int_max_str_digits() *)
  int_max_str_digits : nat;
}.

(** A call into a collaborator that may raise. *)
Definition external {A} (what : string) (o : option A) : result A :=
  match o with
  | Some a => Ok a
  | None => Raise (External what)
  end.

(** [int(v)] as a computation: [TypeError] for a value that is no number
    and no string, [ValueError] otherwise (an infinite float raises
    [OverflowError]; every caller catches all of them alike). *)
Definition py_int (env : Env) (v : Py.value) : result Z :=
  match Py.int (int_max_str_digits env) v with
  | Some z => Ok z
  | None =>
      match v with
      | Py.VNone | Py.VOther _ => Raise TypeError
      | _ => Raise (External "ValueError")
      end
  end.

(** ** SubmissionFilesState *)

Definition flag_to_source_format : list (ascii * string) :=
  [("D"%char, "pdftex"); ("H"%char, "html"); ("I"%char, "withdrawn");
   ("O"%char, "odf"); ("P"%char, "ps"); ("X"%char, "docx")].

Fixpoint flag_lookup (c : ascii) (table : list (ascii * string)) : option string :=
  match table with
  | [] => None
  | (k, v) :: table' => if Ascii.eqb c k then Some v else flag_lookup c table'
  end.

(** A value of [src_ext_to_source_format]: a format, or a dict from the
    format found so far to a format. *)
Inductive format_choice : Type :=
| Format (f : string)
| FormatBy (d : list (option string * string)).

Definition opt_str_eqb (a b : option string) : bool :=
  match a, b with
  | Some x, Some y => String.eqb x y
  | None, None => true
  | _, _ => false
  end.

(** [d.get(k)] and [k in d] for a dict whose keys are strings or [None]. *)
Fixpoint dict_get {V} (k : option string) (d : list (option string * V)) : option V :=
  match d with
  | [] => None
  | (k', v) :: d' => if opt_str_eqb k k' then Some v else dict_get k d'
  end.

Definition src_ext_to_source_format : list (option string * format_choice) :=
  [(Some ".html.gz", Format "html");
   (Some ".ps.gz", Format "ps");
   (Some ".pdf", Format "pdf");
   (Some ".gz", FormatBy [(Some "pdftex", "pdftex"); (None, "tex")]);
   (None, Format "tex")].

Definition tex_submisson_exts : list string := [".tar.gz"; ".gz"].
Definition submission_exts : list string := [".tar.gz"; ".gz"; ".pdf"; ".html.gz"].

Record SubmissionFilesState : Type := mkState {
  xid : Identifier.t;             (* paper id *)
  vxid : Identifier.t;            (* versioned paper id *)
  src_ext : option string;        (* publishing file format; None or a str *)
  source_format : option string;  (* submission source format; None or a str *)
  source_flags : string;
  single_source : bool;
  archive : string;
  publish_type : option string;
  version : Py.value;
  ext_candidates : list string;
  prev_version : Z;
  top_levels : list string;       (* the keys of _top_levels *)
}.

Definition set_src_ext (x : option string) (s : SubmissionFilesState) :=
  mkState (xid s) (vxid s) x (source_format s) (source_flags s) (single_source s)
          (archive s) (publish_type s) (version s) (ext_candidates s) (prev_version s)
          (top_levels s).
Definition set_source_format (x : option string) (s : SubmissionFilesState) :=
  mkState (xid s) (vxid s) (src_ext s) x (source_flags s) (single_source s)
          (archive s) (publish_type s) (version s) (ext_candidates s) (prev_version s)
          (top_levels s).
Definition set_source_flags (x : string) (s : SubmissionFilesState) :=
  mkState (xid s) (vxid s) (src_ext s) (source_format s) x (single_source s)
          (archive s) (publish_type s) (version s) (ext_candidates s) (prev_version s)
          (top_levels s).
Definition set_single_source (x : bool) (s : SubmissionFilesState) :=
  mkState (xid s) (vxid s) (src_ext s) (source_format s) (source_flags s) x
          (archive s) (publish_type s) (version s) (ext_candidates s) (prev_version s)
          (top_levels s).
Definition set_top_levels (x : list string) (s : SubmissionFilesState) :=
  mkState (xid s) (vxid s) (src_ext s) (source_format s) (source_flags s) (single_source s)
          (archive s) (publish_type s) (version s) (ext_candidates s) (prev_version s)
          x.

(** [SubmissionFilesState.__init__] *)
Definition SubmissionFilesState_init (env : Env)
           (arxiv_id_str : string) (version : Py.value) (publish_type : option string)
           (src_ext : option string) (source_format : option string)
  : result SubmissionFilesState :=
  _ ← try_except
        (n ← py_int env version;
         if n <=? 0 then Raise InvalidVersion else Ok tt)
        (fun _ => Raise InvalidVersion);
  xid ← external "Identifier" (new_Identifier env arxiv_id_str);
  vxid ← (if Identifier.has_version xid then Ok xid
          else external "Identifier"
                 (new_Identifier env (arxiv_id_str +:+ "v" +:+ Py.format version)));
  let ext_candidates :=
    match src_ext with
    | Some ext =>
        if Py.truthy src_ext then
          ext :: (if Py.str_in ext (tail submission_exts)
                  then Py.list_remove ext submission_exts
                  else submission_exts)
        else submission_exts
    | None => submission_exts
    end in
  let archive :=
    if negb (Identifier.is_old_id xid) then "arxiv" else Identifier.archive xid in
  let prev_version :=
    match py_int env version with
    | Ok n => Z.max 1 (n - 1)
    | Raise _ => 1
    end in
  Ok {| xid := xid; vxid := vxid; src_ext := src_ext; source_format := source_format;
        source_flags := EmptyString; single_source := false; archive := archive;
        publish_type := publish_type; version := version;
        ext_candidates := ext_candidates; prev_version := prev_version;
        top_levels := [] |}.

Section Paths.
Context (env : Env) (self : SubmissionFilesState).

Definition latest_dir : string :=
  FTP_PREFIX env +:+ archive self +:+ "/papers/" +:+ Identifier.yymm (xid self).

Definition gz_source : string :=
  FTP_PREFIX env +:+ archive self +:+ "/papers/" +:+ Identifier.yymm (xid self)
  +:+ "/" +:+ Identifier.filename (xid self) +:+ ".gz".

Definition tgz_source : string :=
  FTP_PREFIX env +:+ archive self +:+ "/papers/" +:+ Identifier.yymm (xid self)
  +:+ "/" +:+ Identifier.filename (xid self) +:+ ".tar.gz".

Definition ps_cache_pdf_file : string :=
  PS_CACHE_PREFIX env +:+ archive self +:+ "/pdf/" +:+ Identifier.yymm (xid self)
  +:+ "/" +:+ Identifier.idv (vxid self) +:+ ".pdf".

(** [html_file(self, files)], a method and not a property *)
Definition html_file (files : list string) : string :=
  PS_CACHE_PREFIX env +:+ archive self +:+ "/html/" +:+ Identifier.yymm (xid self)
  +:+ "/" +:+ Identifier.idv (vxid self) +:+ "/".

Definition versioned_parent : string :=
  ORIG_PREFIX env +:+ archive self +:+ "/papers/" +:+ Identifier.yymm (xid self).

Definition source_path (dotext : string) : string :=
  latest_dir +:+ "/" +:+ Identifier.filename (xid self) +:+ dotext.

Definition prev_source_path (dotext : string) : string :=
  versioned_parent +:+ "/" +:+ Identifier.filename (xid self) +:+ "v"
  +:+ pretty (prev_version self) +:+ dotext.
End Paths.

(** *** maybe_update_metadata *)

(** The loop over [abs_fd.readlines()]: stop at the first blank line, keep
    the stripped lines that start with [Date]. *)
Fixpoint collect_dates (lines : list string) : list string :=
  match lines with
  | [] => []
  | line :: rest =>
      let sline := Py.strip line in
      if String.eqb sline EmptyString then []
      else if Py.startswith sline "Date" then sline :: collect_dates rest
           else collect_dates rest
  end.

(** Both [except] clauses only log: a file that cannot be read gives no
    dates. *)
Definition read_dates (fs : FileSystem) (abs_path : string) : list string :=
  match fs_readlines fs abs_path with
  | Some lines => collect_dates lines
  | None => []
  end.

(** [flags.append(flag)] where [flags] is a [str]: a [str] has no
    attribute [append]. *)
Definition str_append (flags : string) (flag : ascii) : result string :=
  Raise AttributeError.

(** [for source_flag in source_type: ...] *)
Fixpoint scan_source_type (source_type : string) (self : SubmissionFilesState)
  : result SubmissionFilesState :=
  match source_type with
  | EmptyString => Ok self
  | String source_flag rest =>
      match flag_lookup source_flag flag_to_source_format with
      | Some fmt => scan_source_type rest (set_source_format (Some fmt) self)
      | None =>
          if Py.char_in source_flag "SAB" then
            flags ← str_append (source_flags self) source_flag;
            scan_source_type rest (set_source_flags flags self)
          else scan_source_type rest self
      end
  end.

(** The source-type code of the last [Date] line:
    [None] when there is no date line or it does not match,
    [Some None] when it matches without the size group. *)
Definition last_source_type (dates : list string) : option (option string) :=
  match last dates with
  | Some d =>
      match Re.match_ RE_DATE_COMPONENTS d with
      | Some parsed => Some (Re.group "source_type" parsed)
      | None => None
      end
  | None => None
  end.

Definition probe_src_ext (env : Env) (fs : FileSystem) (self : SubmissionFilesState)
  : SubmissionFilesState :=
  if negb (Py.truthy (src_ext self)) then
    match List.find (fun ext => fs_exists fs (source_path env self ext))
                    (ext_candidates self) with
    | Some ext => set_src_ext (Some ext) self
    | None => self
    end
  else self.

Definition format_from_src_ext (self : SubmissionFilesState) : result SubmissionFilesState :=
  let self := set_single_source (negb (opt_str_eqb (src_ext self) (Some ".tar.gz"))) self in
  if negb (single_source self) then
    if negb (Py.truthy (source_format self))
    then Ok (set_source_format (Some "tex") self)
    else Ok self
  else
    match dict_get (src_ext self) src_ext_to_source_format with
    | Some (FormatBy d) =>
        match dict_get (source_format self) d with
        | None =>
            f ← external "KeyError" (dict_get None d);
            Ok (set_source_format (Some f) self)
        | Some f => Ok (set_source_format (Some f) self)
        end
    | Some (Format f) => Ok (set_source_format (Some f) self)
    | None => Ok self
    end.

Definition maybe_update_metadata (env : Env) (fs : FileSystem) (self : SubmissionFilesState)
  : result SubmissionFilesState :=
  let self := probe_src_ext env fs self in
  if negb (Py.truthy (source_format self)) then
    let abs_path := source_path env self ".abs" in
    let dates := read_dates fs abs_path in
    self ← match last_source_type dates with
           | Some (Some source_type) => scan_source_type source_type self
           | Some None => Raise TypeError       (* for ... in None *)
           | None => Ok self
           end;
    format_from_src_ext self
  else Ok self.

(** *** The properties and predicates of the file state *)

Definition opt_str_in (x : option string) (l : list string) : bool :=
  match x with
  | Some s => Py.str_in s l
  | None => false
  end.

Definition is_tex_submission (self : SubmissionFilesState) : result bool :=
  if negb (Py.truthy (src_ext self)) then Raise AssertionError
  else if negb (Py.truthy (source_format self)) then Raise AssertionError
       else Ok (opt_str_in (source_format self) ["tex"; "pdftex"]).

Definition is_html_submission (self : SubmissionFilesState) : result bool :=
  if negb (Py.truthy (src_ext self)) then Raise AssertionError
  else if negb (Py.truthy (source_format self)) then Raise AssertionError
       else Ok (opt_str_eqb (source_format self) (Some "html")).

(** [get_tgz_top_levels]: the names are read once and kept; a tarball that
    cannot be opened is logged and leaves the cache as it is. *)
Definition get_tgz_top_levels (env : Env) (fs : FileSystem) (self : SubmissionFilesState)
  : list string * SubmissionFilesState :=
  match top_levels self with
  | [] =>
      if fs_exists fs (tgz_source env self) then
        match fs_tar_getnames fs (tgz_source env self) with
        | Some names => (names, set_top_levels names self)
        | None => (top_levels self, self)
        end
      else (top_levels self, self)
  | _ :: _ => (top_levels self, self)
  end.

Definition is_removed (env : Env) (fs : FileSystem) (self : SubmissionFilesState)
  : bool * SubmissionFilesState :=
  let '(names, self) := get_tgz_top_levels env fs self in
  (Py.str_in "removed.txt" names, self).

Definition needle : string := "%auto-ignore".

(** [is_ignored]: a [.gz] that cannot be read is logged and the exception
    raised again. *)
Definition is_ignored (env : Env) (fs : FileSystem) (self : SubmissionFilesState)
  : result bool :=
  if fs_exists fs (gz_source env self) then
    content ← fs_gzip_read fs (gz_source env self) (String.length needle);
    if Py.startswith content needle then Ok true else Ok false
  else Ok false.

(** *** get_expected_files *)

Inductive entry_type : Type := abstract | submission | pdf_cache | html_cache.
Inductive entry_status : Type := current | obsolete.

(** An entry as [current(t, cit)] and [obsolete(t, cit)] build it. *)
Record entry : Type := mkEntry {
  e_type : entry_type;
  e_cit : cit_value;
  e_status : entry_status;
}.

(** An entry of the returned list: with its ["gcp"] key. *)
Record file_entry : Type := mkFileEntry {
  fe_entry : entry;
  gcp : string;
}.

Definition fe_type (e : file_entry) : entry_type := e_type (fe_entry e).
Definition cit (e : file_entry) : cit_value := e_cit (fe_entry e).
Definition status (e : file_entry) : entry_status := e_status (fe_entry e).

#[global] Instance entry_type_eq_dec : EqDecision entry_type.
Proof. solve_decision. Defined.
#[global] Instance entry_status_eq_dec : EqDecision entry_status.
Proof. solve_decision. Defined.
#[global] Instance cit_value_eq_dec : EqDecision cit_value.
Proof. solve_decision. Defined.

(** The entries of the published version. *)
Definition current_entries (env : Env) (fs : FileSystem) (self : SubmissionFilesState)
  : result (list entry * SubmissionFilesState) :=
  let files := [mkEntry abstract (CitPath (source_path env self ".abs")) current] in
  let '(removed, self) := is_removed env fs self in
  if removed then
    Ok (files ++ [mkEntry submission (CitPath (tgz_source env self)) current], self)
  else
    ignored ← is_ignored env fs self;
    if ignored : bool then
      Ok (files ++ [mkEntry submission (CitPath (gz_source env self)) current], self)
    else
      self ← maybe_update_metadata env fs self;
      let files :=
        files ++ [mkEntry submission
                          (CitPath (source_path env self (Py.format_opt (src_ext self))))
                          current] in
      tex ← is_tex_submission self;
      if tex : bool then
        Ok (files ++ [mkEntry pdf_cache (CitPath (ps_cache_pdf_file env self)) current], self)
      else
        html ← is_html_submission self;
        if html : bool then
          (* [self.html_file], without a call *)
          Ok (files ++ [mkEntry html_cache (CitBoundMethod "html_file") current], self)
        else Ok (files, self).

(** The entries of the previous version, for [rep] and [wdr]. *)
Definition obsolete_entries (env : Env) (fs : FileSystem) (self : SubmissionFilesState)
  : list entry :=
  if opt_str_in (publish_type self) ["rep"; "wdr"] then
    [mkEntry abstract (CitPath (prev_source_path env self ".abs")) obsolete;
     match List.find (fun dotext => fs_exists fs (prev_source_path env self dotext))
                     submission_exts with
     | Some dotext => mkEntry submission (CitPath (prev_source_path env self dotext)) obsolete
     | None =>
         mkEntry submission
                 (CitPath (prev_source_path env self (Py.format_opt (src_ext self))))
                 obsolete
     end]
  else [].

(** [for file_entry in files: file_entry["gcp"] = path_to_bucket_key(file_entry["cit"])] *)
Fixpoint assign_gcp (env : Env) (files : list entry) : result (list file_entry) :=
  match files with
  | [] => Ok []
  | e :: rest =>
      key ← external "path_to_bucket_key" (path_to_bucket_key env (e_cit e));
      rest' ← assign_gcp env rest;
      Ok (mkFileEntry e key :: rest')
  end.

Definition get_expected_files (env : Env) (fs : FileSystem) (self : SubmissionFilesState)
  : result (list file_entry * SubmissionFilesState) :=
  '(files, self) ← current_entries env fs self;
  let files := files ++ obsolete_entries env fs self in
  files ← assign_gcp env files;
  Ok (files, self).

(** ** The world the pipeline acts on *)

Inductive bucket_op : Type :=
| OpUpload (key : string) (nbytes : nat)   (* bytes written to a key *)
| OpRename (src dst : string).             (* bucket.rename_blob *)

Inductive reply : Type := Ack | Nack.

Record World : Type := mkWorld {
  w_fs : FileSystem;                 (* the legacy filesystem *)
  WEBNODE_REQUEST_COUNT : Z;         (* the module's global counter *)
  w_bucket : gmap string string;     (* GS_BUCKET: key to content *)
  w_ops : list bucket_op;            (* what was done to the bucket, latest first *)
  w_requests : list (string * string); (* (kind, host) asked of the web nodes, latest first *)
  w_replies : list reply;            (* message.ack() and message.nack(), latest first *)
}.

Definition set_fs (x : FileSystem) (w : World) : World :=
  mkWorld x (WEBNODE_REQUEST_COUNT w) (w_bucket w) (w_ops w) (w_requests w) (w_replies w).
Definition set_count (x : Z) (w : World) : World :=
  mkWorld (w_fs w) x (w_bucket w) (w_ops w) (w_requests w) (w_replies w).
Definition set_bucket (x : gmap string string) (op : bucket_op) (w : World) : World :=
  mkWorld (w_fs w) (WEBNODE_REQUEST_COUNT w) x (op :: w_ops w) (w_requests w) (w_replies w).
Definition add_request (x : string * string) (w : World) : World :=
  mkWorld (w_fs w) (WEBNODE_REQUEST_COUNT w) (w_bucket w) (w_ops w) (x :: w_requests w)
          (w_replies w).
Definition add_reply (x : reply) (w : World) : World :=
  mkWorld (w_fs w) (WEBNODE_REQUEST_COUNT w) (w_bucket w) (w_ops w) (w_requests w)
          (x :: w_replies w).

(** A command: it may raise, and what it did to the world before stays. *)
Definition cmd (A : Type) : Type := World → result A * World.

Definition cret {A} (a : A) : cmd A := fun w => (Ok a, w).
Definition craise {A} (e : exn) : cmd A := fun w => (Raise e, w).
Definition cbind {A B} (m : cmd A) (f : A → cmd B) : cmd B :=
  fun w =>
    match m w with
    | (Ok a, w') => f a w'
    | (Raise e, w') => (Raise e, w')
    end.
Definition lift {A} (r : result A) : cmd A := fun w => (r, w).

(** [try: body except Exception: handler] *)
Definition ctry {A} (body : cmd A) (handler : exn → cmd A) : cmd A :=
  fun w =>
    match body w with
    | (Ok a, w') => (Ok a, w')
    | (Raise e, w') => handler e w'
    end.

#[global] Instance cmd_ret : MRet cmd := @cret.
#[global] Instance cmd_bind : MBind cmd := fun A B f m => cbind m f.

(** ** Artifact ensuring: submission_message_to_file_state *)

(** [Path(cit)]: a method object is no path. *)
Definition as_path (c : cit_value) : result string :=
  match c with
  | CitPath p => Ok p
  | CitBoundMethod _ => Raise TypeError
  end.

(** A read of the legacy filesystem as it is now. *)
Definition reading_fs {A} (f : FileSystem → result A) : cmd A :=
  fun w => (f (w_fs w), w).

(** [Path(p).exists()] *)
Definition path_exists (p : string) : cmd bool :=
  reading_fs (fun fs => Ok (fs_exists fs p)).

(** [CONCURRENCY_PER_WEBNODE[min(n_webnodes - 1, max(0, my_tag))]] *)
Definition select_webnode (env : Env) (my_tag : Z) : option (string * nat) :=
  let n_webnodes := Z.of_nat (length (CONCURRENCY_PER_WEBNODE env)) in
  CONCURRENCY_PER_WEBNODE env !! Z.to_nat (Z.min (n_webnodes - 1) (Z.max 0 my_tag)).

Definition protocol_for (host : string) : string :=
  if Py.startswith host "localhost:" then "http" else "https".

(** The request to a web node when the file is absent: advance the global
    counter, pick the host of this call's tag, and call [ensure]. *)
Definition ask_webnode_for (env : Env) (kind : string)
           (ensure : FileSystem → string → Identifier.t → string → option string * FileSystem)
           (my_tag : Z) (vxid : Identifier.t) : cmd unit :=
  fun w =>
    let n_webnodes := Z.of_nat (length (CONCURRENCY_PER_WEBNODE env)) in
    if n_webnodes =? 0 then (Raise ZeroDivisionError, w)
    else
      let w := set_count ((WEBNODE_REQUEST_COUNT w + 1) mod n_webnodes) w in
      match select_webnode env my_tag with
      | None => (Raise (External "IndexError"), w)
      | Some (host, n_para) =>
          let protocol := protocol_for host in
          let '(raised, fs') := ensure (w_fs w) host vxid protocol in
          let w := add_request (kind, host) (set_fs fs' w) in
          match raised with
          | Some e => (Raise (External e), w)   (* logged, then [raise] *)
          | None => (Ok tt, w)
          end
      end.

(** The body of [for entry in file_state.get_expected_files()]. *)
Definition ensure_entry (env : Env) (my_tag : Z) (file_state : SubmissionFilesState)
           (e : file_entry) : cmd unit :=
  _ ← (if decide (fe_type e = pdf_cache) then
         pdf_path ← lift (as_path (cit e));
         present ← path_exists pdf_path;
         _ ← (if negb present
              then ask_webnode_for env "pdf" (ensure_pdf env) my_tag (vxid file_state)
              else cret tt);
         present ← path_exists pdf_path;
         if negb present then craise MissingGeneratedFile else cret tt
       else cret tt);
  if decide (fe_type e = html_cache) then
    html_path ← lift (as_path (cit e));
    present ← path_exists html_path;
    _ ← (if negb present
         then ask_webnode_for env "html" (ensure_html env) my_tag (vxid file_state)
         else cret tt);
    present ← path_exists html_path;
    if negb present then craise MissingGeneratedFile else cret tt
  else cret tt.

Fixpoint ensure_entries (env : Env) (my_tag : Z) (file_state : SubmissionFilesState)
         (entries : list file_entry) : cmd unit :=
  match entries with
  | [] => cret tt
  | e :: rest =>
      _ ← ensure_entry env my_tag file_state e;
      ensure_entries env my_tag file_state rest
  end.

Definition submission_message_to_file_state (env : Env) (d : SubmissionData)
           (ask_webnode : bool) : cmd SubmissionFilesState :=
  fun w =>
    let my_tag := WEBNODE_REQUEST_COUNT w in
    (file_state ← lift (SubmissionFilesState_init env (d_paper_id d) (d_version d)
                                                  (d_type d) (d_src_ext d)
                                                  (d_source_format d));
     if ask_webnode then
       '(entries, file_state) ← reading_fs (fun fs => get_expected_files env fs file_state);
       _ ← ensure_entries env my_tag file_state entries;
       cret file_state
     else cret file_state) w.

(** ** The object store *)

(** Modelled from the spec: the test of [upload] (defined in
    sync_published_to_gcp.py, which is not part of the sources at hand) for
    an object that need not be written again: "an object already exists at
    the destination with matching size (and, where available, checksum)". *)
Definition unchanged (env : Env) (content blob : string) : bool :=
  (String.length content =? String.length blob)%nat
  && match checksum env content, checksum env blob with
     | Some a, Some b => (a =? b)%N
     | _, _ => true
     end.

(** Modelled from the spec: [upload] (defined in sync_published_to_gcp.py,
    which is not part of the sources at hand).  "Upload is a
    skip-if-unchanged operation: if an object already exists at the
    destination with matching size (and, where available, checksum), no
    bytes are transferred."  Otherwise the content of the legacy file is
    written to the key; a legacy file that cannot be read makes the upload
    fail ("any upload ... failure ... propagates to the caller"). *)
Definition upload (env : Env) (localpath : string) (key : string) : cmd unit :=
  fun w =>
    match fs_read_bytes (w_fs w) localpath with
    | None => (Raise (External "upload"), w)
    | Some content =>
        let write := set_bucket (<[key := content]> (w_bucket w))
                                (OpUpload key (String.length content)) w in
        match w_bucket w !! key with
        | Some blob => if unchanged env content blob then (Ok tt, w) else (Ok tt, write)
        | None => (Ok tt, write)
        end
    end.

(** [bucket.list_blobs(prefix=...)], as the names of the blobs. *)
Definition list_bucket_objects (bucket : gmap string string) (gcp_path : string)
  : list string :=
  List.filter (fun name => Py.startswith name gcp_path) (map fst (map_to_list bucket)).

(** [bucket.rename_blob(bucket.blob(obj), new_name)]: the client copies
    the blob to the new name and then deletes the old one. *)
Definition rename_blob (obj new_name : string) : cmd unit :=
  fun w =>
    match w_bucket w !! obj with
    | None => (Raise (External "NotFound"), w)
    | Some content =>
        let copied := <[new_name := content]> (w_bucket w) in
        let bucket := if String.eqb obj new_name then copied else delete obj copied in
        (Ok tt, set_bucket bucket (OpRename obj new_name) w)
    end.

Definition trashed_blob (obj : string) : string :=
  Py.join "/" ("trash" :: Py.split "/" obj).

Fixpoint trash_bucket_objects (objects : list string) : cmd unit :=
  match objects with
  | [] => cret tt
  | obj :: rest =>
      _ ← rename_blob obj (trashed_blob obj);
      trash_bucket_objects rest
  end.

(** ** Reconciliation: sync_to_gcp *)

(** [for entry in desired_state: ...]; the listing is threaded through. *)
Fixpoint sync_entries (env : Env) (desired_state : list file_entry)
         (bucket_objects : list string) : cmd (list string) :=
  match desired_state with
  | [] => cret bucket_objects
  | e :: rest =>
      let remote := gcp e in
      localpath ← lift (as_path (cit e));
      _ ← upload env localpath remote;
      (* Uploaded files are good ones. *)
      let bucket_objects :=
        if Py.str_in remote bucket_objects
        then Py.list_remove remote bucket_objects
        else bucket_objects in
      sync_entries env rest bucket_objects
  end.

Definition sync_to_gcp (env : Env) (state : SubmissionFilesState) : cmd unit :=
  '(desired_state, state) ← reading_fs (fun fs => get_expected_files env fs state);
  (* Existing blobs on GCP *)
  let cit_source_root_path := source_path env state EmptyString in
  root_key ← lift (external "path_to_bucket_key"
                     (path_to_bucket_key env (CitPath cit_source_root_path)));
  bucket_objects ← (fun w => (Ok (list_bucket_objects (w_bucket w) root_key), w));
  (* Objects synced to GCP *)
  bucket_objects ← sync_entries env desired_state bucket_objects;
  (* If extra exists, needs to move them to trash *)
  match bucket_objects with
  | [] => cret tt
  | _ :: _ => trash_bucket_objects bucket_objects
  end.

(** ** The callback *)

Definition decode_utf8 (env : Env) (b : list Byte.byte) : result string :=
  match bytes_decode_utf8 env b with
  | Some s => Ok s
  | None => Raise UnicodeDecodeError
  end.

(** [decode_message]: the decoded value, or [None]. *)
Definition decode_message (env : Env) (message : Message) : result json_value :=
  match decode_utf8 env (data message) with
  | Ok json_str =>
      (* except Exception: return None *)
      try_except (json_loads env json_str) (fun _ => Ok JNone)
  | Raise UnicodeDecodeError => Ok JNone
  | Raise e => Raise e
  end.

(** What [decode_message] returns, read off the two library calls. *)
Definition decoded (env : Env) (message : Message) : json_value :=
  match bytes_decode_utf8 env (data message) with
  | Some json_str =>
      match json_loads env json_str with
      | Ok v => v
      | Raise _ => JNone
      end
  | None => JNone
  end.

Definition ack : cmd unit := fun w => (Ok tt, add_reply Ack w).
Definition nack : cmd unit := fun w => (Ok tt, add_reply Nack w).

(** [data.get(...)]: only a dict has [get]. *)
Definition data_get (v : json_value) : result SubmissionData :=
  match v with
  | JDict d => Ok d
  | _ => Raise AttributeError
  end.

Definition submission_callback (env : Env) (message : Message) : cmd unit :=
  v ← lift (decode_message env message);
  match v with
  | JNone => nack
  | _ =>
      d ← lift (data_get v);
      resolved ←
        ctry (state ← submission_message_to_file_state env d true;
              '(desired_state, state) ←
                reading_fs (fun fs => get_expected_files env fs state);
              match desired_state with
              | [] => _ ← nack; cret None
              | _ :: _ => cret (Some state)
              end)
             (fun _ => _ ← nack; cret None);
      match resolved with
      | None => cret tt
      | Some state =>
          ctry (_ ← sync_to_gcp env state; ack)
               (fun _ => nack)
      end
  end.

(** ** The rest of the module *)

Module SourceFlag.
(** [SourceFlag]: the internal code for the source type; the properties
    guard against a code that is [None]. *)
Record t : Type := mk { code : option string }.

Definition is_not_none (self : t) : bool :=
  match code self with Some _ => true | None => false end.

(** [self.code is not None and c in self.code] *)
Definition flag (c : ascii) (self : t) : bool :=
  match code self with
  | Some s => Py.char_in c s
  | None => false
  end.

Definition ignore := flag "I".
Definition source_encrypted := flag "S".
Definition ps_only := flag "P".
Definition pdflatex := flag "D".
Definition html := flag "H".
Definition includes_ancillary_files := flag "A".
Definition dc_pilot_data := flag "B".
Definition docx := flag "X".
Definition odf := flag "O".
Definition pdf_only := flag "F".
Definition is_single_file := flag "1".

(** [self.code is not None and self.html or self.odf or self.docx]:
    [and] binds tighter than [or]. *)
Definition cannot_pdf (self : t) : bool :=
  (is_not_none self && html self) || odf self || docx self.
End SourceFlag.

(** [SubmissionFilesState.to_payloads] *)
Definition to_payloads (env : Env) (fs : FileSystem) (self : SubmissionFilesState)
  : result (list (cit_value * string) * SubmissionFilesState) :=
  '(files, self) ← get_expected_files env fs self;
  Ok (map (fun e => (cit e, gcp e)) files, self).

(** [test_callback]: the stand-in callback of [--test].  [sys.exit(0)]
    raises [SystemExit]. *)
Definition test_callback (env : Env) (message : Message) : cmd unit :=
  v ← lift (decode_message env message);
  match v with
  | JNone => nack
  | _ =>
      d ← lift (data_get v);   (* data.get in submission_message_to_file_state *)
      state ← submission_message_to_file_state env d true;
      _ ← reading_fs (fun fs => get_expected_files env fs state);
      _ ← nack;
      craise (External "SystemExit")
  end.

(** ** Vocabulary of the statements *)

(** What a resolution never changes of a file state. *)
Definition same_paper (a b : SubmissionFilesState) : Prop :=
  xid a = xid b ∧ vxid a = vxid b ∧ archive a = archive b
  ∧ publish_type a = publish_type b ∧ version a = version b
  ∧ prev_version a = prev_version b.



(** The entries of a kind and status. *)
Definition entries_of (t : entry_type) (s : entry_status) (files : list file_entry)
  : list entry :=
  List.filter (fun e => bool_decide (e_type e = t ∧ e_status e = s)) (map fe_entry files).

Definition with_status (s : entry_status) (files : list file_entry) : list entry :=
  List.filter (fun e => bool_decide (e_status e = s)) (map fe_entry files).

(** The cache entry of a live submission, by its resolved format. *)
Inductive cache_entries (env : Env) (self : SubmissionFilesState) : list entry → Prop :=
| cache_tex :
    is_tex_submission self = Ok true →
    cache_entries env self [mkEntry pdf_cache (CitPath (ps_cache_pdf_file env self)) current]
| cache_html :
    is_tex_submission self = Ok false → is_html_submission self = Ok true →
    cache_entries env self [mkEntry html_cache (CitBoundMethod "html_file") current]
| cache_none :
    is_tex_submission self = Ok false → is_html_submission self = Ok false →
    cache_entries env self [].

(** The three ways [current_entries] returns. *)
Inductive current_shape (env : Env) (fs : FileSystem) (self self' : SubmissionFilesState)
  : list entry → Prop :=
| shape_removed :
    fst (is_removed env fs self) = true →
    self' = snd (is_removed env fs self) →
    current_shape env fs self self'
      [mkEntry abstract (CitPath (source_path env self ".abs")) current;
       mkEntry submission (CitPath (tgz_source env self)) current]
| shape_ignored :
    fst (is_removed env fs self) = false →
    is_ignored env fs self = Ok true →
    self' = snd (is_removed env fs self) →
    current_shape env fs self self'
      [mkEntry abstract (CitPath (source_path env self ".abs")) current;
       mkEntry submission (CitPath (gz_source env self)) current]
| shape_live (cache : list entry) :
    fst (is_removed env fs self) = false →
    is_ignored env fs self = Ok false →
    maybe_update_metadata env fs (snd (is_removed env fs self)) = Ok self' →
    cache_entries env self' cache →
    current_shape env fs self self'
      (mkEntry abstract (CitPath (source_path env self ".abs")) current
       :: mkEntry submission
                  (CitPath (source_path env self (Py.format_opt (src_ext self')))) current
       :: cache).

(** The constructor applied to the fields of a message. *)
Definition file_state_of (env : Env) (d : SubmissionData) : result SubmissionFilesState :=
  SubmissionFilesState_init env (d_paper_id d) (d_version d) (d_type d)
                            (d_src_ext d) (d_source_format d).

(** The sentence on transport failures, as the specification has it: when
    a cache file of the expected set is absent and every request to a web
    node fails, the caller sees [MissingGeneratedFile]. *)
Definition transport_failure_is_missing_file : Prop :=
  ∀ (env : Env) (d : SubmissionData) (w : World) (self self' : SubmissionFilesState)
    (files : list file_entry) (e : file_entry) (p err : string),
    file_state_of env d = Ok self →
    get_expected_files env (w_fs w) self = Ok (files, self') →
    In e files →
    fe_type e = pdf_cache ∨ fe_type e = html_cache →
    cit e = CitPath p →
    fs_exists (w_fs w) p = false →
    (∀ fs host protocol, fst (ensure_pdf env fs host (vxid self') protocol) = Some err) →
    (∀ fs host protocol, fst (ensure_html env fs host (vxid self') protocol) = Some err) →
    fst (submission_message_to_file_state env d true w) = Raise MissingGeneratedFile.



(** The format that the loop over a source-type code leaves: that of its
    last character found in [flag_to_source_format], if there is one. *)
Fixpoint last_format (code : string) (found : option string) : option string :=
  match code with
  | EmptyString => found
  | String c rest =>
      match flag_lookup c flag_to_source_format with
      | Some fmt => last_format rest (Some fmt)
      | None => last_format rest found
      end
  end.

(** No [S], [A] or [B] in a code. *)
Definition plain_code (code : string) : Prop :=
  ∀ c, In c (list_ascii_of_string code) → Py.char_in c "SAB" = false.

Definition is_cache (f : file_entry) : bool :=
  bool_decide (fe_type f = pdf_cache ∨ fe_type f = html_cache).

(** Two worlds that differ in the bucket and its trace at most. *)
Definition same_outside_bucket (w w' : World) : Prop :=
  w_fs w' = w_fs w ∧ WEBNODE_REQUEST_COUNT w' = WEBNODE_REQUEST_COUNT w
  ∧ w_requests w' = w_requests w ∧ w_replies w' = w_replies w.

(** What reconciliation may do to the bucket for an expected set and a
    listing: write an expected key, or move a listed key that is not
    expected to its trashed name. *)
Definition reconciling_op (desired_state : list file_entry) (listing : list string)
           (op : bucket_op) : Prop :=
  match op with
  | OpUpload key _ => In key (map gcp desired_state)
  | OpRename src dst =>
      In src listing ∧ ¬ In src (map gcp desired_state) ∧ dst = "trash/" +:+ src
  end.

(** ** An example installation

    A concrete filesystem, configuration and bucket, on which the
    definitions above are run in the examples below. *)

Module Fixture.

Inductive file : Type :=
| Text (lines : list string)     (* a text file, as readlines() gives it *)
| Tarball (names : list string)  (* a .tar.gz and its member names *)
| Gzipped (bytes : string)       (* a .gz of these bytes, fewer than a chunk *)
| Raw (content : string).        (* any other file; no gzip data *)

Fixpoint lookup_file (p : string) (files : list (string * file)) : option file :=
  match files with
  | [] => None
  | (q, f) :: files' => if String.eqb p q then Some f else lookup_file p files'
  end.

Definition content_of (f : file) : string :=
  match f with
  | Text lines => String.concat EmptyString lines
  | Tarball names => String.concat " " names
  | Gzipped bytes => bytes
  | Raw content => content
  end.

(** What the gzip reader gets of a file.  The bytes of a [Gzipped] come in
    one chunk; a file of no bytes at all reads as empty data; any other
    text or raw file is no gzip data, and the first read raises.  The
    table does not describe the archive bytes of a [Tarball]: it stands at
    a [.tar.gz] path, which the module never opens this way, and reading
    it is made to raise. *)
Definition gz_stream_of (f : file) : Py.gz_stream :=
  match f with
  | Gzipped bytes => Py.GzChunk bytes Py.GzEnd
  | Text _ | Raw _ =>
      if String.eqb (content_of f) EmptyString then Py.GzEnd else Py.GzFail
  | Tarball _ => Py.GzFail
  end.

Definition make_fs (files : list (string * file)) : FileSystem :=
  {| fs_exists p := bool_decide (is_Some (lookup_file p files));
     fs_readlines p :=
       match lookup_file p files with Some (Text lines) => Some lines | _ => None end;
     fs_tar_getnames p :=
       match lookup_file p files with Some (Tarball names) => Some names | _ => None end;
     fs_gunzip p := gz_stream_of <$> lookup_file p files;
     fs_read_bytes p := content_of <$> lookup_file p files |}.

(** Identifiers of the form [yymm.number] and [yymm.numbervN]. *)
Definition identifier (s : string) : option Identifier.t :=
  match Py.split "v" s with
  | [base] =>
      Some (Identifier.mk s s base (String.substring 0 4 base) "arxiv" false false)
  | [base; _] =>
      Some (Identifier.mk s s base (String.substring 0 4 base) "arxiv" true false)
  | _ => None
  end.

(** Keys are the paths below [/data/] and [/cache/]. *)
Definition bucket_key (c : cit_value) : option string :=
  match c with
  | CitPath p =>
      match Re.strip_prefix "/data/" p, Re.strip_prefix "/cache/" p with
      | Some k, _ => Some k
      | None, Some k => Some k
      | None, None => None
      end
  | CitBoundMethod _ => None
  end.

(** A web node that cannot be reached, and one that renders the file. *)
Definition unreachable (fs : FileSystem) (host : string) (vxid : Identifier.t)
           (protocol : string) : option string * FileSystem :=
  (Some "ConnectionError", fs).

Definition renders (path : string) (fs : FileSystem) (host : string)
           (vxid : Identifier.t) (protocol : string) : option string * FileSystem :=
  (None,
   {| fs_exists p := String.eqb p path || fs_exists fs p;
      fs_readlines := fs_readlines fs;
      fs_tar_getnames := fs_tar_getnames fs;
      fs_gunzip := fs_gunzip fs;
      fs_read_bytes p := if String.eqb p path then Some "%PDF" else fs_read_bytes fs p |}).

(** Payloads of ASCII bytes decode to themselves. *)
Definition decode_ascii (b : list Byte.byte) : option string :=
  if forallb (fun x => (Byte.to_nat x <? 128)%nat) b
  then Some (string_of_list_byte b)
  else None.

Definition rep_event : SubmissionData :=
  {| d_type := Some "rep"; d_paper_id := "1208.9998"; d_version := Py.VInt 2;
     d_src_ext := Some ".pdf"; d_source_format := Some EmptyString |}.

Definition tex_event : SubmissionData :=
  {| d_type := Some "new"; d_paper_id := "1208.9998"; d_version := Py.VInt 1;
     d_src_ext := Some ".tar.gz"; d_source_format := Some "tex" |}.

Definition bare_event : SubmissionData :=
  {| d_type := Some "new"; d_paper_id := "1208.9998"; d_version := Py.VInt 1;
     d_src_ext := None; d_source_format := Some EmptyString |}.

(** The payloads the examples send. *)
Definition loads (s : string) : result json_value :=
  if String.eqb s "null" then Ok JNone
  else if String.eqb s "[]" then Ok JOther
  else if String.eqb s "{rep}" then Ok (JDict rep_event)
  else Raise (External "JSONDecodeError").

Definition env (ensure : FileSystem → string → Identifier.t → string
                         → option string * FileSystem) : Env :=
  {| FTP_PREFIX := "/data/ftp/";
     ORIG_PREFIX := "/data/orig/";
     PS_CACHE_PREFIX := "/cache/ps_cache/";
     path_to_bucket_key := bucket_key;
     CONCURRENCY_PER_WEBNODE := [("localhost:8080", 1%nat); ("web2.example.org", 2%nat)];
     new_Identifier := identifier;
     ensure_pdf := ensure;
     ensure_html := ensure;
     bytes_decode_utf8 := decode_ascii;
     json_loads := loads;
     checksum := fun _ => None;
     int_max_str_digits := 4300 |}.

Definition date_line (code : string) : string :=
  "Date: Fri, 31 Aug 2012 19:17:18 GMT   (10kb" +:+ code +:+ ")" +:+ String "010" EmptyString.

Definition abs_file (code : string) : file :=
  Text ["------" +:+ String "010" EmptyString;
        "arXiv:1208.9998" +:+ String "010" EmptyString;
        "From: A. Author" +:+ String "010" EmptyString;
        date_line code;
        String "010" EmptyString;
        "Title: Example" +:+ String "010" EmptyString].

(** Version 2 of a PDF-only paper, version 1 kept under orig. *)
Definition pdf_fs : FileSystem :=
  make_fs [("/data/ftp/arxiv/papers/1208/1208.9998.abs", abs_file EmptyString);
           ("/data/ftp/arxiv/papers/1208/1208.9998.pdf", Raw "%PDF-2");
           ("/data/orig/arxiv/papers/1208/1208.9998v1.abs", abs_file EmptyString);
           ("/data/orig/arxiv/papers/1208/1208.9998v1.pdf", Raw "%PDF-1")].

(** A TeX paper whose PDF has not been rendered. *)
Definition tex_fs : FileSystem :=
  make_fs [("/data/ftp/arxiv/papers/1208/1208.9998.abs", abs_file EmptyString);
           ("/data/ftp/arxiv/papers/1208/1208.9998.tar.gz", Tarball ["main.tex"])].

(** A multi-file HTML paper: the code [H] in the abstract. *)
Definition html_fs : FileSystem :=
  make_fs [("/data/ftp/arxiv/papers/1208/1208.9998.abs", abs_file ",H");
           ("/data/ftp/arxiv/papers/1208/1208.9998.tar.gz", Tarball ["index.html"])].

(** A TeX paper with ancillary files: the code [A] in the abstract. *)
Definition anc_fs : FileSystem :=
  make_fs [("/data/ftp/arxiv/papers/1208/1208.9998.abs", abs_file ",A");
           ("/data/ftp/arxiv/papers/1208/1208.9998.tar.gz", Tarball ["main.tex"; "anc/data.csv"])].


Definition ignored_fs : FileSystem :=
  make_fs [("/data/ftp/arxiv/papers/1208/1208.9998.abs", abs_file EmptyString);
           ("/data/ftp/arxiv/papers/1208/1208.9998.gz", Gzipped "%auto-ignore")].

(** The file state that [__init__] builds for [bare_event]. *)
Definition bare_state : SubmissionFilesState :=
  {| xid := Identifier.mk "1208.9998" "1208.9998" "1208.9998" "1208" "arxiv" false false;
     vxid := Identifier.mk "1208.9998v1" "1208.9998v1" "1208.9998" "1208" "arxiv" true false;
     src_ext := None; source_format := Some EmptyString; source_flags := EmptyString;
     single_source := false; archive := "arxiv"; publish_type := Some "new";
     version := Py.VInt 1; ext_candidates := submission_exts; prev_version := 1;
     top_levels := [] |}.

(** A first version announced with [src_ext] [.pdf], and its file state. *)
Definition pdf_event : SubmissionData :=
  {| d_type := Some "new"; d_paper_id := "1208.9998"; d_version := Py.VInt 1;
     d_src_ext := Some ".pdf"; d_source_format := None |}.

Definition pdf_state : SubmissionFilesState :=
  {| xid := Identifier.mk "1208.9998" "1208.9998" "1208.9998" "1208" "arxiv" false false;
     vxid := Identifier.mk "1208.9998v1" "1208.9998v1" "1208.9998" "1208" "arxiv" true false;
     src_ext := Some ".pdf"; source_format := None; source_flags := EmptyString;
     single_source := false; archive := "arxiv"; publish_type := Some "new";
     version := Py.VInt 1; ext_candidates := [".pdf"; ".tar.gz"; ".gz"; ".html.gz"];
     prev_version := 1; top_levels := [] |}.

(** The file state of [rep_event], and the expected set on [pdf_fs]. *)
Definition rep_state : SubmissionFilesState :=
  {| xid := Identifier.mk "1208.9998" "1208.9998" "1208.9998" "1208" "arxiv" false false;
     vxid := Identifier.mk "1208.9998v2" "1208.9998v2" "1208.9998" "1208" "arxiv" true false;
     src_ext := Some ".pdf"; source_format := Some EmptyString;
     source_flags := EmptyString;
     single_source := false; archive := "arxiv"; publish_type := Some "rep";
     version := Py.VInt 2; ext_candidates := [".pdf"; ".tar.gz"; ".gz"; ".html.gz"];
     prev_version := 1; top_levels := [] |}.

Definition rep_files : list file_entry :=
  [mkFileEntry (mkEntry abstract (CitPath "/data/ftp/arxiv/papers/1208/1208.9998.abs")
                        current)
               "ftp/arxiv/papers/1208/1208.9998.abs";
   mkFileEntry (mkEntry submission (CitPath "/data/ftp/arxiv/papers/1208/1208.9998.pdf")
                        current)
               "ftp/arxiv/papers/1208/1208.9998.pdf";
   mkFileEntry (mkEntry abstract (CitPath "/data/orig/arxiv/papers/1208/1208.9998v1.abs")
                        obsolete)
               "orig/arxiv/papers/1208/1208.9998v1.abs";
   mkFileEntry (mkEntry submission (CitPath "/data/orig/arxiv/papers/1208/1208.9998v1.pdf")
                        obsolete)
               "orig/arxiv/papers/1208/1208.9998v1.pdf"].

(** The file state of [tex_event], and the expected set on [tex_fs]. *)
Definition tex_state : SubmissionFilesState :=
  {| xid := Identifier.mk "1208.9998" "1208.9998" "1208.9998" "1208" "arxiv" false false;
     vxid := Identifier.mk "1208.9998v1" "1208.9998v1" "1208.9998" "1208" "arxiv" true false;
     src_ext := Some ".tar.gz"; source_format := Some "tex"; source_flags := EmptyString;
     single_source := false; archive := "arxiv"; publish_type := Some "new";
     version := Py.VInt 1; ext_candidates := [".tar.gz"; ".tar.gz"; ".gz"; ".pdf"; ".html.gz"];
     prev_version := 1; top_levels := [] |}.

Definition tex_pdf_entry : file_entry :=
  mkFileEntry (mkEntry pdf_cache (CitPath "/cache/ps_cache/arxiv/pdf/1208/1208.9998v1.pdf")
                       current)
              "ps_cache/arxiv/pdf/1208/1208.9998v1.pdf".

Definition tex_files : list file_entry :=
  [mkFileEntry (mkEntry abstract (CitPath "/data/ftp/arxiv/papers/1208/1208.9998.abs")
                        current)
               "ftp/arxiv/papers/1208/1208.9998.abs";
   mkFileEntry (mkEntry submission (CitPath "/data/ftp/arxiv/papers/1208/1208.9998.tar.gz")
                        current)
               "ftp/arxiv/papers/1208/1208.9998.tar.gz";
   tex_pdf_entry].

Definition world (fs : FileSystem) (bucket : gmap string string) : World :=
  {| w_fs := fs; WEBNODE_REQUEST_COUNT := 0; w_bucket := bucket;
     w_ops := []; w_requests := []; w_replies := [] |}.

(** An abstract whose date line has no size part. *)
Definition sizeless_fs : FileSystem :=
  make_fs [("/data/ftp/arxiv/papers/1208/1208.9998.abs",
            Text ["Date: Fri, 31 Aug 2012 19:17:18 GMT" +:+ String "010" EmptyString]);
           ("/data/ftp/arxiv/papers/1208/1208.9998.tar.gz", Tarball ["main.tex"])].

(** Only the abstract is there. *)
Definition abs_only_fs : FileSystem :=
  make_fs [("/data/ftp/arxiv/papers/1208/1208.9998.abs", abs_file EmptyString)].

(** A single-file PDFLaTeX paper: the code [D] in the abstract. *)
Definition pdftex_fs : FileSystem :=
  make_fs [("/data/ftp/arxiv/papers/1208/1208.9998.abs", abs_file ",D");
           ("/data/ftp/arxiv/papers/1208/1208.9998.gz", Gzipped "\\documentclass")].

(** A DOCX paper: the code [X] in the abstract, and the file state of a
    message that names the extension. *)
Definition docx_fs : FileSystem :=
  make_fs [("/data/ftp/arxiv/papers/1208/1208.9998.abs", abs_file ",X");
           ("/data/ftp/arxiv/papers/1208/1208.9998.docx", Raw "PK")].

Definition docx_event : SubmissionData :=
  {| d_type := Some "new"; d_paper_id := "1208.9998"; d_version := Py.VInt 1;
     d_src_ext := Some ".docx"; d_source_format := Some EmptyString |}.

Definition docx_state : SubmissionFilesState :=
  {| xid := Identifier.mk "1208.9998" "1208.9998" "1208.9998" "1208" "arxiv" false false;
     vxid := Identifier.mk "1208.9998v1" "1208.9998v1" "1208.9998" "1208" "arxiv" true false;
     src_ext := Some ".docx"; source_format := Some EmptyString;
     source_flags := EmptyString;
     single_source := false; archive := "arxiv"; publish_type := Some "new";
     version := Py.VInt 1;
     ext_candidates := [".docx"; ".tar.gz"; ".gz"; ".pdf"; ".html.gz"];
     prev_version := 1; top_levels := [] |}.

(** A TeX paper whose PDF is in the cache. *)
Definition rendered_fs : FileSystem :=
  make_fs [("/data/ftp/arxiv/papers/1208/1208.9998.abs", abs_file EmptyString);
           ("/data/ftp/arxiv/papers/1208/1208.9998.tar.gz", Tarball ["main.tex"]);
           ("/cache/ps_cache/arxiv/pdf/1208/1208.9998v1.pdf", Raw "%PDF")].

(** An installation with no web node. *)
Definition env_without_webnodes : Env :=
  {| FTP_PREFIX := "/data/ftp/";
     ORIG_PREFIX := "/data/orig/";
     PS_CACHE_PREFIX := "/cache/ps_cache/";
     path_to_bucket_key := bucket_key;
     CONCURRENCY_PER_WEBNODE := [];
     new_Identifier := identifier;
     ensure_pdf := unreachable;
     ensure_html := unreachable;
     bytes_decode_utf8 := decode_ascii;
     json_loads := loads;
     checksum := fun _ => None;
     int_max_str_digits := 4300 |}.

(** An installation that also receives the message for [tex_event], and
    whose web nodes cannot be reached. *)
Definition loads_more (s : string) : result json_value :=
  if String.eqb s "{tex}" then Ok (JDict tex_event) else loads s.

Definition env_more : Env :=
  {| FTP_PREFIX := "/data/ftp/";
     ORIG_PREFIX := "/data/orig/";
     PS_CACHE_PREFIX := "/cache/ps_cache/";
     path_to_bucket_key := bucket_key;
     CONCURRENCY_PER_WEBNODE := [("localhost:8080", 1%nat); ("web2.example.org", 2%nat)];
     new_Identifier := identifier;
     ensure_pdf := unreachable;
     ensure_html := unreachable;
     bytes_decode_utf8 := decode_ascii;
     json_loads := loads_more;
     checksum := fun _ => None;
     int_max_str_digits := 4300 |}.

(** A paper whose [.gz] is there and cannot be decompressed. *)
Definition corrupt_gz_fs : FileSystem :=
  make_fs [("/data/ftp/arxiv/papers/1208/1208.9998.abs", abs_file EmptyString);
           ("/data/ftp/arxiv/papers/1208/1208.9998.gz", Raw "not a gzip")].

(** An ignored paper whose marker line is followed by a Latin-1 byte. *)
Definition marked_latin1_fs : FileSystem :=
  make_fs [("/data/ftp/arxiv/papers/1208/1208.9998.abs", abs_file EmptyString);
           ("/data/ftp/arxiv/papers/1208/1208.9998.gz",
            Gzipped ("%auto-ignore" +:+ String "010" (String "233" EmptyString)))].

(** A replacement whose new PDF is not on disk yet. *)
Definition unpublished_fs : FileSystem :=
  make_fs [("/data/ftp/arxiv/papers/1208/1208.9998.abs", abs_file EmptyString);
           ("/data/orig/arxiv/papers/1208/1208.9998v1.abs", abs_file EmptyString);
           ("/data/orig/arxiv/papers/1208/1208.9998v1.pdf", Raw "%PDF-1")].

(** A bucket that still holds the tarball of an earlier version. *)
Definition stale_bucket : gmap string string :=
  {[ "ftp/arxiv/papers/1208/1208.9998.tar.gz" := "old source" ]}.

Definition message (payload : string) : Message :=
  {| message_id := "1"; data := list_byte_of_string payload |}.

End Fixture.


(** * Properties *)

(** ** The model at work *)

Example date_line_with_code :
  last_source_type ["Date: Fri, 31 Aug 2012 19:17:18 GMT   (10kb,SD)"] = Some (Some "SD").
Proof. vm_compute. reflexivity. Qed.

Example date_line_revised :
  last_source_type ["Date: Fri, 31 Aug 2012 19:17:18 GMT   (10kb)";
                    "Date (revised v2): Mon, 3 Sep 2012 08:00:00 GMT   (12kb,H)"]
  = Some (Some "H").
Proof. vm_compute. reflexivity. Qed.

Example date_line_without_size :
  last_source_type ["Date: Fri, 31 Aug 2012 19:17:18 GMT"] = Some None.
Proof. vm_compute. reflexivity. Qed.

Example not_a_date_line : last_source_type ["Dated: 2012"] = None.
Proof. vm_compute. reflexivity. Qed.

Example int_of_padded_string : Py.int 4300 (Py.VStr " +1_000 ") = Some 1000.
Proof. vm_compute. reflexivity. Qed.

Example int_of_bad_string : Py.int 4300 (Py.VStr "1__0") = None.
Proof. vm_compute. reflexivity. Qed.

(** A file separator is white space for [strip] and not for [int]. *)
Example int_of_separated_string :
  Py.strip (String "1" (String "028" EmptyString)) = "1"
  ∧ Py.int 4300 (Py.VStr (String "1" (String "028" EmptyString))) = None.
Proof. split; vm_compute; reflexivity. Qed.

(** Twelve characters are read of a [.gz] of ASCII text; a byte that is
    not ASCII in the chunk raises, also behind the twelve characters. *)
Example read_of_ascii_chunk :
  Py.read_text (Py.GzChunk "%auto-ignore and more" Py.GzEnd) 12 = Ok "%auto-ignore"
  ∧ Py.read_text (Py.GzChunk ("%auto-ignore" +:+ String "010" (String "233" EmptyString))
                             Py.GzEnd) 12
    = Raise UnicodeDecodeError
  ∧ Py.read_text Py.GzFail 12 = Raise (External "gzip").
Proof. repeat split; vm_compute; reflexivity. Qed.

Example candidates_put_src_ext_first :
  ext_candidates Fixture.pdf_state = [".pdf"; ".tar.gz"; ".gz"; ".html.gz"].
Proof. reflexivity. Qed.

(** The scenario of the specification: paper 1208.9998, [rep], version 2,
    [src_ext] [.pdf]. *)
Example replacement_of_a_pdf :
  (st ← file_state_of (Fixture.env Fixture.unreachable) Fixture.rep_event;
   '(files, _) ← get_expected_files (Fixture.env Fixture.unreachable) Fixture.pdf_fs st;
   Ok (map (fun f => (fe_type f, status f, gcp f)) files))
  = Ok [(abstract, current, "ftp/arxiv/papers/1208/1208.9998.abs");
        (submission, current, "ftp/arxiv/papers/1208/1208.9998.pdf");
        (abstract, obsolete, "orig/arxiv/papers/1208/1208.9998v1.abs");
        (submission, obsolete, "orig/arxiv/papers/1208/1208.9998v1.pdf")].
Proof. vm_compute. reflexivity. Qed.

Example ignored_submission_is_the_gz :
  (st ← file_state_of (Fixture.env Fixture.unreachable) Fixture.pdf_event;
   '(files, _) ← get_expected_files (Fixture.env Fixture.unreachable) Fixture.ignored_fs st;
   Ok (entries_of submission current files))
  = Ok [mkEntry submission (CitPath "/data/ftp/arxiv/papers/1208/1208.9998.gz") current].
Proof. vm_compute. reflexivity. Qed.

(** A web node that renders the PDF: the ensure step returns the file
    state, and the counter has moved to the next host. *)
Example rendered_pdf_is_accepted :
  let env := Fixture.env (Fixture.renders "/cache/ps_cache/arxiv/pdf/1208/1208.9998v1.pdf") in
  let r := submission_message_to_file_state env Fixture.tex_event true
                                            (Fixture.world Fixture.tex_fs ∅) in
  fst r = Ok (set_top_levels ["main.tex"] Fixture.tex_state)
  ∧ WEBNODE_REQUEST_COUNT (snd r) = 1
  ∧ w_requests (snd r) = [("pdf", "localhost:8080")].
Proof. vm_compute. repeat split. Qed.

(** A message for the PDF-only paper, end to end: four uploads, the stale
    tarball moved to the trash, and an [ack]. *)
Example callback_acks_the_replacement :
  let r := submission_callback (Fixture.env Fixture.unreachable) (Fixture.message "{rep}")
                               (Fixture.world Fixture.pdf_fs Fixture.stale_bucket) in
  fst r = Ok tt
  ∧ w_replies (snd r) = [Ack]
  ∧ w_ops (snd r)
    = [OpRename "ftp/arxiv/papers/1208/1208.9998.tar.gz"
                "trash/ftp/arxiv/papers/1208/1208.9998.tar.gz";
       OpUpload "orig/arxiv/papers/1208/1208.9998v1.pdf" 6;
       OpUpload "orig/arxiv/papers/1208/1208.9998v1.abs" 100;
       OpUpload "ftp/arxiv/papers/1208/1208.9998.pdf" 6;
       OpUpload "ftp/arxiv/papers/1208/1208.9998.abs" 100].
Proof. vm_compute. repeat split. Qed.

(** ** Version validation *)

Lemma init_checks_version (env : Env) (arxiv_id_str : string) (version : Py.value)
      (publish_type src_ext source_format : option string) :
  (∀ n, Py.int (int_max_str_digits env) version = Some n → n ≤ 0) →
  SubmissionFilesState_init env arxiv_id_str version publish_type src_ext source_format
  = Raise InvalidVersion.
Proof.
  intros Hbad. unfold SubmissionFilesState_init, py_int.
  destruct (Py.int (int_max_str_digits env) version) as [n|] eqn:Hint.
  - specialize (Hbad n eq_refl). cbn.
    destruct (Z.leb_spec n 0) as [_|Hlt]; [reflexivity | lia].
  - destruct version; reflexivity.
Qed.

Lemma init_accepts_version (env : Env) (arxiv_id_str : string) (version : Py.value)
      (publish_type src_ext source_format : option string) (n : Z) :
  Py.int (int_max_str_digits env) version = Some n → 0 < n →
  SubmissionFilesState_init env arxiv_id_str version publish_type src_ext source_format
  ≠ Raise InvalidVersion.
Proof.
  intros Hint Hpos. unfold SubmissionFilesState_init, py_int. rewrite Hint. cbn.
  destruct (Z.leb_spec n 0) as [Hle|_]; [lia|]. cbn.
  destruct (new_Identifier env arxiv_id_str) as [x|]; cbn; [|discriminate].
  destruct (Identifier.has_version x); cbn; [discriminate|].
  destruct (new_Identifier env _); cbn; discriminate.
Qed.

(** C6.  A version that [int()] rejects or that is not positive makes the
    constructor raise [InvalidVersion], and only such a version does; the
    caller [submission_message_to_file_state] then raises it with the world
    as it was: nothing has been read or asked. *)
Theorem version_validation (env : Env) (d : SubmissionData) (ask_webnode : bool)
        (w : World) :
  let v := Py.int (int_max_str_digits env) (d_version d) in
  let construct :=
    SubmissionFilesState_init env (d_paper_id d) (d_version d) (d_type d)
                              (d_src_ext d) (d_source_format d) in
  (construct = Raise InvalidVersion ↔ ∀ n, v = Some n → n ≤ 0)
  ∧ ((∀ n, v = Some n → n ≤ 0) →
     submission_message_to_file_state env d ask_webnode w = (Raise InvalidVersion, w)).
Proof.
  cbn zeta. split; [split|].
  - intros Hraise n Hn.
    destruct (Z.le_gt_cases n 0) as [|Hpos]; [assumption|].
    exfalso. eapply init_accepts_version; eauto.
  - apply init_checks_version.
  - intros Hbad. unfold submission_message_to_file_state.
    unfold mbind, cmd_bind, cbind, lift.
    rewrite init_checks_version by assumption. reflexivity.
Qed.

Lemma version_validation_witness :
  SubmissionFilesState_init (Fixture.env Fixture.unreachable) "1208.9998" (Py.VStr "two")
                            (Some "new") None None = Raise InvalidVersion
  ∧ SubmissionFilesState_init (Fixture.env Fixture.unreachable) "1208.9998"
                              (Py.VStr (String "1" (String "028" EmptyString)))
                              (Some "new") None None = Raise InvalidVersion
  ∧ SubmissionFilesState_init (Fixture.env Fixture.unreachable) "1208.9998"
                              (Py.VStr " 2 ") (Some "new") None None
    ≠ Raise InvalidVersion
  ∧ submission_message_to_file_state
      (Fixture.env Fixture.unreachable)
      {| d_type := Some "new"; d_paper_id := "1208.9998"; d_version := Py.VInt 0;
         d_src_ext := None; d_source_format := None |}
      true (Fixture.world Fixture.tex_fs ∅)
    = (Raise InvalidVersion, Fixture.world Fixture.tex_fs ∅).
Proof.
  split; [|split; [|split]].
  - apply (proj1 (version_validation
                    (Fixture.env Fixture.unreachable)
                    {| d_type := Some "new"; d_paper_id := "1208.9998";
                       d_version := Py.VStr "two";
                       d_src_ext := None; d_source_format := None |}
                    true (Fixture.world Fixture.tex_fs ∅))).
    intros n Hn. vm_compute in Hn. discriminate.
  - apply (proj1 (version_validation
                    (Fixture.env Fixture.unreachable)
                    {| d_type := Some "new"; d_paper_id := "1208.9998";
                       d_version := Py.VStr (String "1" (String "028" EmptyString));
                       d_src_ext := None; d_source_format := None |}
                    true (Fixture.world Fixture.tex_fs ∅))).
    intros n Hn. vm_compute in Hn. discriminate.
  - intros Hraise.
    pose proof (proj1 (proj1 (version_validation
                                (Fixture.env Fixture.unreachable)
                                {| d_type := Some "new"; d_paper_id := "1208.9998";
                                   d_version := Py.VStr " 2 ";
                                   d_src_ext := None; d_source_format := None |}
                                true (Fixture.world Fixture.tex_fs ∅)))
                      Hraise 2 eq_refl) as Hle.
    lia.
  - apply (proj2 (version_validation
                    (Fixture.env Fixture.unreachable)
                    {| d_type := Some "new"; d_paper_id := "1208.9998";
                       d_version := Py.VInt 0;
                       d_src_ext := None; d_source_format := None |}
                    true (Fixture.world Fixture.tex_fs ∅))).
    intros n Hn. vm_compute in Hn. injection Hn as <-. lia.
Defined.


(** ** Decoding a message *)

Lemma decode_utf8_raises_only_unicode (env : Env) (b : list Byte.byte) (e : exn) :
  decode_utf8 env b = Raise e → e = UnicodeDecodeError.
Proof.
  unfold decode_utf8. destruct (bytes_decode_utf8 env b); [discriminate|].
  intros [= <-]. reflexivity.
Qed.

Lemma decode_message_returns (env : Env) (message : Message) :
  decode_message env message = Ok (decoded env message).
Proof.
  unfold decode_message, decoded.
  destruct (decode_utf8 env (data message)) as [s|e] eqn:Hd.
  - unfold decode_utf8 in Hd.
    destruct (bytes_decode_utf8 env (data message)); [|discriminate].
    injection Hd as ->. destruct (json_loads env s); reflexivity.
  - pose proof (decode_utf8_raises_only_unicode _ _ _ Hd) as ->.
    unfold decode_utf8 in Hd.
    destruct (bytes_decode_utf8 env (data message)); [discriminate|reflexivity].
Qed.

(** C10.  [decode_message] never raises: it returns what [json.loads]
    made of the decoded text and [None] when the bytes are not UTF-8 or the
    text is not JSON; on [None] the callback nacks and does nothing else:
    the filesystem, the counter, the bucket and the requests to the web
    nodes are as before. *)
Theorem decode_message_total (env : Env) (message : Message) :
  (∃ v, decode_message env message = Ok v
        ∧ match bytes_decode_utf8 env (data message) with
          | Some json_str =>
              match json_loads env json_str with
              | Ok parsed => v = parsed
              | Raise _ => v = JNone
              end
          | None => v = JNone
          end)
  ∧ (∀ w, decode_message env message = Ok JNone →
          submission_callback env message w = (Ok tt, add_reply Nack w)).
Proof.
  split.
  - exists (decoded env message). split; [apply decode_message_returns|].
    unfold decoded. destruct (bytes_decode_utf8 env (data message)) as [s|]; [|reflexivity].
    destruct (json_loads env s); reflexivity.
  - intros w Hnone. unfold submission_callback, mbind, cmd_bind, cbind, lift.
    rewrite Hnone. reflexivity.
Qed.

Lemma decode_message_total_witness :
  submission_callback (Fixture.env Fixture.unreachable) (Fixture.message "{oops")
                      (Fixture.world Fixture.pdf_fs ∅)
  = (Ok tt, add_reply Nack (Fixture.world Fixture.pdf_fs ∅)).
Proof.
  apply (proj2 (decode_message_total (Fixture.env Fixture.unreachable)
                                     (Fixture.message "{oops"))).
  vm_compute. reflexivity.
Defined.

(** ** The callback *)

(** C9, at a payload that is valid JSON and no object.  [decode_message]
    returns the value, [data.get] raises [AttributeError] before the first
    [try], and the callback ends with neither [ack] nor [nack]. *)
Theorem callback_on_non_object (env : Env) (message : Message) (w : World) :
  decode_message env message = Ok JOther →
  submission_callback env message w = (Raise AttributeError, w).
Proof.
  intros Hd. unfold submission_callback, mbind, cmd_bind, cbind, lift.
  rewrite Hd. reflexivity.
Qed.

Lemma callback_on_non_object_witness :
  let w := Fixture.world Fixture.pdf_fs ∅ in
  submission_callback (Fixture.env Fixture.unreachable) (Fixture.message "[]") w
  = (Raise AttributeError, w)
  ∧ w_replies w = [].
Proof.
  split; [|reflexivity].
  apply (callback_on_non_object (Fixture.env Fixture.unreachable) (Fixture.message "[]")).
  vm_compute. reflexivity.
Defined.


(** ** Reading the source type off the abstract *)

Lemma bare_state_is_built :
  SubmissionFilesState_init (Fixture.env Fixture.unreachable) "1208.9998" (Py.VInt 1)
                            (Some "new") None (Some EmptyString)
  = Ok Fixture.bare_state.
Proof. vm_compute. reflexivity. Qed.

Lemma special_flag_is_not_a_format (c : ascii) :
  (c = "S" ∨ c = "A" ∨ c = "B")%char →
  flag_lookup c flag_to_source_format = None ∧ Py.char_in c "SAB" = true.
Proof. intros [-> | [-> | ->]]; split; reflexivity. Qed.

Lemma scan_source_type_raises (code : string) (c : ascii) :
  In c (list_ascii_of_string code) → (c = "S" ∨ c = "A" ∨ c = "B")%char →
  ∀ self, scan_source_type code self = Raise AttributeError.
Proof.
  intros Hin Hc. induction code as [|a code IH]; [destruct Hin|].
  intros self. cbn [scan_source_type].
  destruct (flag_lookup a flag_to_source_format) as [fmt|] eqn:Hfmt.
  - apply IH. destruct Hin as [->|Hin]; [|assumption].
    destruct (special_flag_is_not_a_format _ Hc) as [Hnone _]. congruence.
  - destruct (Py.char_in a "SAB") eqn:Hsab; [reflexivity|].
    apply IH. destruct Hin as [->|Hin]; [|assumption].
    destruct (special_flag_is_not_a_format _ Hc) as [_ Htrue]. congruence.
Qed.

Lemma probe_src_ext_source_format (env : Env) (fs : FileSystem) (self : SubmissionFilesState) :
  source_format (probe_src_ext env fs self) = source_format self.
Proof.
  unfold probe_src_ext. destruct (negb _); [|reflexivity].
  destruct (List.find _ _); reflexivity.
Qed.

Lemma probe_src_ext_source_path (env : Env) (fs : FileSystem) (self : SubmissionFilesState)
      (dotext : string) :
  source_path env (probe_src_ext env fs self) dotext = source_path env self dotext.
Proof.
  unfold probe_src_ext. destruct (negb _); [|reflexivity].
  destruct (List.find _ _); reflexivity.
Qed.

(** C3, as the code has it.  With no source format given, when the last
    [Date] line of the abstract carries a source-type code in which [S],
    [A] or [B] occurs, [maybe_update_metadata] raises [AttributeError] at
    that character: [source_flags] is a [str] and has no [append]. *)
Theorem special_source_flag_raises (env : Env) (fs : FileSystem)
        (self : SubmissionFilesState) (code : string) (c : ascii) :
  Py.truthy (source_format self) = false →
  last_source_type (read_dates fs (source_path env self ".abs")) = Some (Some code) →
  In c (list_ascii_of_string code) →
  (c = "S" ∨ c = "A" ∨ c = "B")%char →
  maybe_update_metadata env fs self = Raise AttributeError.
Proof.
  intros Hfmt Hlast Hin Hc. unfold maybe_update_metadata. cbn zeta.
  rewrite probe_src_ext_source_format, Hfmt. cbn [negb].
  rewrite probe_src_ext_source_path, Hlast.
  rewrite (scan_source_type_raises code c Hin Hc). reflexivity.
Qed.

Lemma special_source_flag_raises_witness :
  maybe_update_metadata (Fixture.env Fixture.unreachable) Fixture.anc_fs Fixture.bare_state
  = Raise AttributeError
  ∧ get_expected_files (Fixture.env Fixture.unreachable) Fixture.anc_fs Fixture.bare_state
    = Raise AttributeError.
Proof.
  split; [|vm_compute; reflexivity].
  apply (special_source_flag_raises (Fixture.env Fixture.unreachable) Fixture.anc_fs
                                    Fixture.bare_state "A" "A"%char).
  - reflexivity.
  - vm_compute. reflexivity.
  - cbn. left. reflexivity.
  - right. left. reflexivity.
Defined.


(** ** What a resolution keeps of the file state *)

Lemma same_paper_refl (a : SubmissionFilesState) : same_paper a a.
Proof. repeat split. Qed.

Lemma same_paper_trans (a b c : SubmissionFilesState) :
  same_paper a b → same_paper b c → same_paper a c.
Proof.
  intros (?&?&?&?&?&?) (?&?&?&?&?&?). repeat split; congruence.
Qed.

Lemma same_paper_sym (a b : SubmissionFilesState) : same_paper a b → same_paper b a.
Proof. intros (?&?&?&?&?&?). repeat split; congruence. Qed.

Lemma same_paper_paths (env : Env) (a b : SubmissionFilesState) :
  same_paper a b →
  (∀ dotext, source_path env a dotext = source_path env b dotext)
  ∧ (∀ dotext, prev_source_path env a dotext = prev_source_path env b dotext)
  ∧ tgz_source env a = tgz_source env b
  ∧ gz_source env a = gz_source env b
  ∧ ps_cache_pdf_file env a = ps_cache_pdf_file env b.
Proof.
  intros (Hx & Hv & Ha & _ & _ & Hp).
  unfold source_path, prev_source_path, tgz_source, gz_source, ps_cache_pdf_file,
    latest_dir, versioned_parent.
  rewrite Hx, Hv, Ha, Hp. repeat split.
Qed.

Lemma probe_src_ext_same (env : Env) (fs : FileSystem) (self : SubmissionFilesState) :
  same_paper self (probe_src_ext env fs self).
Proof.
  unfold probe_src_ext. destruct (negb _); [|apply same_paper_refl].
  destruct (List.find _ _); repeat split.
Qed.

Lemma scan_source_type_same (code : string) :
  ∀ self self', scan_source_type code self = Ok self' → same_paper self self'.
Proof.
  induction code as [|a code IH]; intros self self'; cbn [scan_source_type].
  - intros [= <-]. apply same_paper_refl.
  - destruct (flag_lookup a flag_to_source_format) as [fmt|].
    + intros H. apply IH in H. eapply same_paper_trans; [|exact H]. repeat split.
    + destruct (Py.char_in a "SAB"); [discriminate|]. apply IH.
Qed.

Lemma format_from_src_ext_same (self self' : SubmissionFilesState) :
  format_from_src_ext self = Ok self' → same_paper self self'.
Proof.
  unfold format_from_src_ext. cbn zeta.
  destruct (negb (single_source _)).
  - destruct (negb (Py.truthy _)); intros [= <-]; repeat split.
  - destruct (dict_get _ src_ext_to_source_format) as [[f|d]|].
    + intros [= <-]. repeat split.
    + destruct (dict_get _ d) as [f|].
      * intros [= <-]. repeat split.
      * destruct (dict_get None d); cbn; [|discriminate]. intros [= <-]. repeat split.
    + intros [= <-]. repeat split.
Qed.

Lemma maybe_update_metadata_same (env : Env) (fs : FileSystem)
      (self self' : SubmissionFilesState) :
  maybe_update_metadata env fs self = Ok self' → same_paper self self'.
Proof.
  unfold maybe_update_metadata. cbn zeta.
  pose proof (probe_src_ext_same env fs self) as Hprobe.
  destruct (negb (Py.truthy _)).
  - destruct (last_source_type _) as [[code|]|]; cbn.
    + destruct (scan_source_type code _) as [s|] eqn:Hscan; cbn; [|discriminate].
      intros H. apply format_from_src_ext_same in H. apply scan_source_type_same in Hscan.
      eauto using same_paper_trans.
    + discriminate.
    + intros H. apply format_from_src_ext_same in H. eauto using same_paper_trans.
  - intros [= <-]. exact Hprobe.
Qed.

Lemma is_removed_same (env : Env) (fs : FileSystem) (self : SubmissionFilesState) :
  same_paper self (snd (is_removed env fs self)).
Proof.
  unfold is_removed, get_tgz_top_levels.
  destruct (top_levels self); [|apply same_paper_refl].
  destruct (fs_exists fs _); [|apply same_paper_refl].
  destruct (fs_tar_getnames fs _); cbn; repeat split.
Qed.

Lemma is_ignored_same_paper (env : Env) (fs : FileSystem) (a b : SubmissionFilesState) :
  same_paper a b → is_ignored env fs a = is_ignored env fs b.
Proof.
  intros H. unfold is_ignored.
  destruct (same_paper_paths env a b H) as (_ & _ & _ & -> & _). reflexivity.
Qed.


(** ** The shape of the expected set *)

Lemma current_entries_shape (env : Env) (fs : FileSystem) (self self' : SubmissionFilesState)
      (entries : list entry) :
  current_entries env fs self = Ok (entries, self') →
  current_shape env fs self self' entries.
Proof.
  unfold current_entries. cbn zeta.
  pose proof (is_removed_same env fs self) as Hsame.
  destruct (is_removed env fs self) as [removed self1] eqn:Hrem. cbn [snd] in Hsame.
  destruct (same_paper_paths env self self1 Hsame) as (Hsp & _ & Htgz & Hgz & _).
  rewrite <- (is_ignored_same_paper env fs self self1 Hsame).
  destruct removed.
  - intros [= <- <-]. rewrite <- Htgz. apply shape_removed; rewrite Hrem; reflexivity.
  - destruct (is_ignored env fs self) as [[|]|] eqn:Hign; cbn; [| |discriminate].
    + intros [= <- <-]. rewrite <- Hgz. apply shape_ignored; rewrite ?Hrem; auto.
    + destruct (maybe_update_metadata env fs self1) as [self2|] eqn:Hmeta; cbn;
        [|discriminate].
      pose proof (maybe_update_metadata_same _ _ _ _ Hmeta) as Hsame2.
      destruct (same_paper_paths env self self2 (same_paper_trans _ _ _ Hsame Hsame2))
        as (Hsp2 & _).
      rewrite <- Hsp2.
      destruct (is_tex_submission self2) as [[|]|] eqn:Htex; cbn; [| |discriminate].
      * intros [= <- <-]. apply shape_live; rewrite ?Hrem; auto. apply cache_tex; assumption.
      * destruct (is_html_submission self2) as [[|]|] eqn:Hhtml; cbn; [| |discriminate].
        -- intros [= <- <-]. apply shape_live; rewrite ?Hrem; auto. apply cache_html; assumption.
        -- intros [= <- <-]. apply shape_live; rewrite ?Hrem; auto. apply cache_none; assumption.
Qed.

Lemma current_entries_same (env : Env) (fs : FileSystem) (self self' : SubmissionFilesState)
      (entries : list entry) :
  current_entries env fs self = Ok (entries, self') → same_paper self self'.
Proof.
  intros H. apply current_entries_shape in H.
  pose proof (is_removed_same env fs self) as Hsame.
  destruct H as [_ -> | _ _ -> | cache _ _ Hmeta _]; try assumption.
  apply maybe_update_metadata_same in Hmeta. eauto using same_paper_trans.
Qed.

Lemma current_entries_status (env : Env) (fs : FileSystem) (self self' : SubmissionFilesState)
      (entries : list entry) :
  current_entries env fs self = Ok (entries, self') →
  Forall (fun e => e_status e = current) entries.
Proof.
  intros H. apply current_entries_shape in H.
  destruct H as [| |cache _ _ _ Hcache]; repeat constructor.
  destruct Hcache; repeat constructor.
Qed.

Lemma assign_gcp_entries (env : Env) (entries : list entry) :
  ∀ files, assign_gcp env entries = Ok files →
           map fe_entry files = entries
           ∧ Forall (fun f => path_to_bucket_key env (cit f) = Some (gcp f)) files.
Proof.
  induction entries as [|e entries IH]; intros files; cbn [assign_gcp].
  - intros [= <-]. split; constructor.
  - destruct (path_to_bucket_key env (e_cit e)) as [key|] eqn:Hkey; cbn; [|discriminate].
    destruct (assign_gcp env entries) as [rest|]; cbn; [|discriminate].
    intros [= <-]. destruct (IH rest eq_refl) as [Hmap Hall]. split.
    + cbn. rewrite Hmap. reflexivity.
    + constructor; [exact Hkey | exact Hall].
Qed.

Lemma get_expected_files_entries (env : Env) (fs : FileSystem)
      (self self' : SubmissionFilesState) (files : list file_entry) :
  get_expected_files env fs self = Ok (files, self') →
  ∃ entries, current_entries env fs self = Ok (entries, self')
             ∧ map fe_entry files = entries ++ obsolete_entries env fs self'
             ∧ Forall (fun f => path_to_bucket_key env (cit f) = Some (gcp f)) files.
Proof.
  unfold get_expected_files.
  destruct (current_entries env fs self) as [[entries self1]|] eqn:Hcur; cbn; [|discriminate].
  destruct (assign_gcp env _) as [files1|] eqn:Hgcp; cbn; [|discriminate].
  intros [= <- <-]. exists entries. apply assign_gcp_entries in Hgcp as [Hmap Hall].
  auto.
Qed.

Lemma get_expected_files_same (env : Env) (fs : FileSystem)
      (self self' : SubmissionFilesState) (files : list file_entry) :
  get_expected_files env fs self = Ok (files, self') → same_paper self self'.
Proof.
  intros H. apply get_expected_files_entries in H as (entries & Hcur & _).
  eapply current_entries_same; eassumption.
Qed.

Lemma obsolete_entries_status (env : Env) (fs : FileSystem) (self : SubmissionFilesState) :
  Forall (fun e => e_status e = obsolete) (obsolete_entries env fs self).
Proof.
  unfold obsolete_entries. destruct (opt_str_in _ _); [|constructor].
  constructor; [reflexivity|]. constructor; [|constructor].
  destruct (List.find _ _); reflexivity.
Qed.

(** ** Filtering entries *)

Lemma filter_none {A} (f : A → bool) (l : list A) :
  Forall (fun x => f x = false) l → List.filter f l = [].
Proof.
  induction 1 as [|x l Hx _ IH]; [reflexivity|]. cbn. rewrite Hx. exact IH.
Qed.

Lemma filter_all {A} (f : A → bool) (l : list A) :
  Forall (fun x => f x = true) l → List.filter f l = l.
Proof.
  induction 1 as [|x l Hx _ IH]; [reflexivity|]. cbn. rewrite Hx, IH. reflexivity.
Qed.

Lemma str_in_In (x : string) (l : list string) : Py.str_in x l = true ↔ In x l.
Proof.
  unfold Py.str_in. rewrite existsb_exists. split.
  - intros (y & Hy & Heq). apply String.eqb_eq in Heq. subst. exact Hy.
  - intros H. exists x. split; [exact H | apply String.eqb_refl].
Qed.

Lemma with_status_obsolete (env : Env) (fs : FileSystem) (self self' : SubmissionFilesState)
      (files : list file_entry) :
  get_expected_files env fs self = Ok (files, self') →
  with_status obsolete files = obsolete_entries env fs self'.
Proof.
  intros H. apply get_expected_files_entries in H as (entries & Hcur & Hmap & _).
  unfold with_status. rewrite Hmap, List.filter_app.
  rewrite filter_none, filter_all; [reflexivity | |].
  - eapply Forall_impl; [apply obsolete_entries_status|].
    intros e He. cbn in *. rewrite He. reflexivity.
  - eapply Forall_impl; [eapply current_entries_status; eassumption|].
    intros e He. cbn in *. rewrite He. reflexivity.
Qed.

Lemma entries_of_current (env : Env) (fs : FileSystem) (self self' : SubmissionFilesState)
      (files : list file_entry) (entries : list entry) (t : entry_type) :
  get_expected_files env fs self = Ok (files, self') →
  current_entries env fs self = Ok (entries, self') →
  entries_of t current files
  = List.filter (fun e => bool_decide (e_type e = t ∧ e_status e = current)) entries.
Proof.
  intros H Hcur'. apply get_expected_files_entries in H as (entries' & Hcur & Hmap & _).
  rewrite Hcur in Hcur'. injection Hcur' as ->.
  unfold entries_of. rewrite Hmap, List.filter_app.
  rewrite (filter_none _ (obsolete_entries _ _ _)); [apply app_nil_r|].
  eapply Forall_impl; [apply obsolete_entries_status|].
  intros e He. cbn in *. rewrite He. apply bool_decide_eq_false. intros [_ ?]. discriminate.
Qed.

(** ** A fresh file state *)

Lemma file_state_of_fresh (env : Env) (d : SubmissionData) (self : SubmissionFilesState) :
  file_state_of env d = Ok self →
  top_levels self = []
  ∧ publish_type self = d_type d
  ∧ src_ext self = d_src_ext d
  ∧ source_format self = d_source_format d
  ∧ ∃ v, Py.int (int_max_str_digits env) (d_version d) = Some v
         ∧ 0 < v ∧ prev_version self = Z.max 1 (v - 1).
Proof.
  unfold file_state_of, SubmissionFilesState_init, py_int.
  destruct (Py.int (int_max_str_digits env) (d_version d)) as [v|] eqn:Hint.
  - cbn. destruct (Z.leb_spec v 0) as [|Hpos]; cbn; [discriminate|].
    destruct (new_Identifier env (d_paper_id d)) as [x|]; cbn; [|discriminate].
    destruct (Identifier.has_version x); cbn.
    + intros [= <-]. cbn. repeat split. exists v. auto.
    + destruct (new_Identifier env _); cbn; [|discriminate].
      intros [= <-]. cbn. repeat split. exists v. auto.
  - destruct (d_version d); cbn; discriminate.
Qed.


(** *** The text read of a [.gz] *)















(** ** Removed and ignored submissions *)





(** ** The previous version *)

Lemma find_pointwise {A} (f g : A → bool) (l : list A) :
  (∀ x, f x = g x) → List.find f l = List.find g l.
Proof.
  intros Hfg. induction l as [|x l IH]; [reflexivity|].
  cbn. rewrite Hfg, IH. reflexivity.
Qed.

(** C7.  For the file state of a message with version [v]: on [rep] and
    [wdr] the obsolete entries are the abstract and one submission of
    version [max 1 (v - 1)], the submission with the first extension of
    [.tar.gz], [.gz], [.pdf], [.html.gz] whose path exists, and with the
    resolved [src_ext] when none does; on [new], [cross] and [jref] there
    is no obsolete entry. *)
Theorem obsolete_entries_of_event (env : Env) (fs : FileSystem) (d : SubmissionData)
        (self self' : SubmissionFilesState) (files : list file_entry) :
  file_state_of env d = Ok self →
  get_expected_files env fs self = Ok (files, self') →
  ∃ v, Py.int (int_max_str_digits env) (d_version d) = Some v ∧
       let prev (dotext : string) :=
         (ORIG_PREFIX env +:+ archive self +:+ "/papers/" +:+ Identifier.yymm (xid self))
         +:+ "/" +:+ Identifier.filename (xid self) +:+ "v"
         +:+ pretty (Z.max 1 (v - 1)) +:+ dotext in
       (d_type d = Some "rep" ∨ d_type d = Some "wdr" →
        with_status obsolete files
        = [mkEntry abstract (CitPath (prev ".abs")) obsolete;
           mkEntry submission
                   (CitPath (prev match List.find (fun dotext => fs_exists fs (prev dotext))
                                                  [".tar.gz"; ".gz"; ".pdf"; ".html.gz"] with
                                  | Some dotext => dotext
                                  | None => Py.format_opt (src_ext self')
                                  end))
                   obsolete])
       ∧ (d_type d = Some "new" ∨ d_type d = Some "cross" ∨ d_type d = Some "jref" →
          with_status obsolete files = []).
Proof.
  intros Hinit Hfiles.
  destruct (file_state_of_fresh _ _ _ Hinit) as (_ & Hpt & _ & _ & v & Hv & _ & Hprev).
  exists v. split; [exact Hv|]. cbn zeta.
  rewrite (with_status_obsolete _ _ _ _ _ Hfiles).
  pose proof (get_expected_files_same _ _ _ _ _ Hfiles) as Hsame.
  assert (Hpath : ∀ dotext,
             prev_source_path env self' dotext
             = (ORIG_PREFIX env +:+ archive self +:+ "/papers/"
                +:+ Identifier.yymm (xid self))
               +:+ "/" +:+ Identifier.filename (xid self) +:+ "v"
               +:+ pretty (Z.max 1 (v - 1)) +:+ dotext).
  { intros dotext.
    destruct (same_paper_paths env self self' Hsame) as (_ & <- & _).
    unfold prev_source_path, versioned_parent. rewrite Hprev. reflexivity. }
  assert (Hpt' : publish_type self' = d_type d).
  { destruct Hsame as (_ & _ & _ & <- & _). exact Hpt. }
  unfold obsolete_entries. rewrite Hpt'. split.
  - intros Htype.
    assert (opt_str_in (d_type d) ["rep"; "wdr"] = true) as ->
        by (destruct Htype as [-> | ->]; reflexivity).
    rewrite Hpath. f_equal.
    erewrite find_pointwise by (intros dotext; rewrite Hpath; reflexivity).
    unfold submission_exts.
    destruct (List.find _ _); rewrite Hpath; reflexivity.
  - intros Htype.
    assert (opt_str_in (d_type d) ["rep"; "wdr"] = false) as ->
        by (destruct Htype as [-> | [-> | ->]]; reflexivity).
    reflexivity.
Qed.

Lemma rep_files_are_expected :
  file_state_of (Fixture.env Fixture.unreachable) Fixture.rep_event = Ok Fixture.rep_state
  ∧ get_expected_files (Fixture.env Fixture.unreachable) Fixture.pdf_fs Fixture.rep_state
    = Ok (Fixture.rep_files,
          set_single_source true (set_source_format (Some "pdf") Fixture.rep_state)).
Proof. split; vm_compute; reflexivity. Qed.

Lemma obsolete_entries_of_event_witness :
  with_status obsolete Fixture.rep_files
  = [mkEntry abstract (CitPath "/data/orig/arxiv/papers/1208/1208.9998v1.abs") obsolete;
     mkEntry submission (CitPath "/data/orig/arxiv/papers/1208/1208.9998v1.pdf") obsolete].
Proof.
  destruct (obsolete_entries_of_event
              (Fixture.env Fixture.unreachable) Fixture.pdf_fs Fixture.rep_event
              Fixture.rep_state
              (set_single_source true (set_source_format (Some "pdf") Fixture.rep_state))
              Fixture.rep_files
              (proj1 rep_files_are_expected) (proj2 rep_files_are_expected))
    as (v & Hv & Hrep & _).
  vm_compute in Hv. injection Hv as <-.
  exact (Hrep (or_introl eq_refl)).
Defined.

(** ** HTML submissions *)

Lemma html_is_not_tex (self : SubmissionFilesState) (b : bool) :
  source_format self = Some "html" → is_tex_submission self = Ok b → b = false.
Proof.
  unfold is_tex_submission. intros ->.
  destruct (negb (Py.truthy (src_ext self))); [discriminate|].
  cbn. intros [= <-]. reflexivity.
Qed.

Lemma html_is_html (self : SubmissionFilesState) (b : bool) :
  source_format self = Some "html" → is_html_submission self = Ok b → b = true.
Proof.
  unfold is_html_submission. intros ->.
  destruct (negb (Py.truthy (src_ext self))); [discriminate|].
  cbn. intros [= <-]. reflexivity.
Qed.

(** C2, as the code has it.  For a live submission whose resolved format
    is [html], the one cache entry of the expected set is a current
    [html-cache] entry whose ["cit"] is the method object [html_file], not
    the path that calling it would give; there is no [pdf-cache] entry.
    [path_to_bucket_key] is then applied to the method object, and when it
    rejects it no expected set is returned at all. *)
Theorem html_cache_entry_holds_the_method (env : Env) (fs : FileSystem)
        (self self' : SubmissionFilesState) (entries : list entry) :
  current_entries env fs self = Ok (entries, self') →
  fst (is_removed env fs self) = false →
  is_ignored env fs self = Ok false →
  source_format self' = Some "html" →
  entries
  = [mkEntry abstract (CitPath (source_path env self ".abs")) current;
     mkEntry submission (CitPath (source_path env self (Py.format_opt (src_ext self'))))
             current;
     mkEntry html_cache (CitBoundMethod "html_file") current]
  ∧ (∀ files s, get_expected_files env fs self = Ok (files, s) →
                ∀ f, In f files → fe_type f = html_cache →
                     cit f = CitBoundMethod "html_file"
                     ∧ cit f ≠ CitPath (html_file env s []))
  ∧ (path_to_bucket_key env (CitBoundMethod "html_file") = None →
     get_expected_files env fs self = Raise (External "path_to_bucket_key")).
Proof.
  intros Hcur Hlive Hnot_ignored Hhtml.
  pose proof (current_entries_shape _ _ _ _ _ Hcur) as Hshape.
  assert (Hentries :
            entries
            = [mkEntry abstract (CitPath (source_path env self ".abs")) current;
               mkEntry submission
                       (CitPath (source_path env self (Py.format_opt (src_ext self'))))
                       current;
               mkEntry html_cache (CitBoundMethod "html_file") current]).
  { destruct Hshape as [Hyes _ | _ Hign _ | cache _ _ _ Hcache]; [congruence ..|].
    destruct Hcache as [Htex | Htex Hh | Htex Hh].
    - apply (html_is_not_tex _ _ Hhtml) in Htex. discriminate.
    - reflexivity.
    - apply (html_is_html _ _ Hhtml) in Hh. discriminate. }
  split; [exact Hentries|]. split.
  - intros files s Hfiles f Hin Htype.
    apply get_expected_files_entries in Hfiles as (entries' & Hcur' & Hmap & _).
    rewrite Hcur in Hcur'. injection Hcur' as <- <-.
    assert (Hfe : In (fe_entry f) (entries ++ obsolete_entries env fs self')).
    { rewrite <- Hmap. apply in_map. exact Hin. }
    assert (Hcit : cit f = CitBoundMethod "html_file").
    { apply in_app_or in Hfe as [Hfe | Hfe].
      - rewrite Hentries in Hfe. unfold fe_type, cit in *.
        destruct Hfe as [He | [He | [He | []]]];
          rewrite <- He in Htype |- *; cbn in Htype |- *; congruence.
      - pose proof (obsolete_entries_status env fs self') as Hobs.
        unfold obsolete_entries in Hfe. unfold fe_type in Htype.
        destruct (opt_str_in _ _); [|destruct Hfe].
        destruct Hfe as [He | [He | []]]; rewrite <- He in Htype; [discriminate|].
        destruct (List.find _ _); discriminate. }
    split; [exact Hcit | rewrite Hcit; discriminate].
  - intros Hreject. unfold get_expected_files. rewrite Hcur. cbn.
    rewrite Hentries. cbn.
    destruct (path_to_bucket_key env (CitPath (source_path env self ".abs"))); cbn;
      [|reflexivity].
    destruct (path_to_bucket_key env (CitPath (source_path env self _))); cbn;
      [|reflexivity].
    rewrite Hreject. reflexivity.
Qed.

Lemma html_cache_entry_holds_the_method_witness :
  current_entries (Fixture.env Fixture.unreachable) Fixture.html_fs Fixture.bare_state
  = Ok ([mkEntry abstract (CitPath "/data/ftp/arxiv/papers/1208/1208.9998.abs") current;
         mkEntry submission (CitPath "/data/ftp/arxiv/papers/1208/1208.9998.tar.gz") current;
         mkEntry html_cache (CitBoundMethod "html_file") current],
        set_top_levels ["index.html"]
          (set_source_format (Some "html") (set_src_ext (Some ".tar.gz") Fixture.bare_state)))
  ∧ get_expected_files (Fixture.env Fixture.unreachable) Fixture.html_fs Fixture.bare_state
    = Raise (External "path_to_bucket_key").
Proof.
  assert (Hcur :
            current_entries (Fixture.env Fixture.unreachable) Fixture.html_fs
                            Fixture.bare_state
            = Ok ([mkEntry abstract (CitPath "/data/ftp/arxiv/papers/1208/1208.9998.abs")
                           current;
                   mkEntry submission
                           (CitPath "/data/ftp/arxiv/papers/1208/1208.9998.tar.gz") current;
                   mkEntry html_cache (CitBoundMethod "html_file") current],
                  set_top_levels ["index.html"]
                    (set_source_format (Some "html")
                       (set_src_ext (Some ".tar.gz") Fixture.bare_state))))
    by (vm_compute; reflexivity).
  split; [exact Hcur|].
  refine (proj2 (proj2 (html_cache_entry_holds_the_method
                          (Fixture.env Fixture.unreachable) Fixture.html_fs
                          Fixture.bare_state _ _ Hcur _ _ _)) _).
  - vm_compute. reflexivity.
  - vm_compute. reflexivity.
  - reflexivity.
  - reflexivity.
Defined.

(** ** Ensuring the rendered files *)

Lemma tex_files_are_expected :
  file_state_of (Fixture.env Fixture.unreachable) Fixture.tex_event = Ok Fixture.tex_state
  ∧ get_expected_files (Fixture.env Fixture.unreachable) Fixture.tex_fs Fixture.tex_state
    = Ok (Fixture.tex_files, set_top_levels ["main.tex"] Fixture.tex_state).
Proof. split; vm_compute; reflexivity. Qed.

Lemma ensure_entry_skips (env : Env) (my_tag : Z) (file_state : SubmissionFilesState)
      (f : file_entry) (w : World) :
  fe_type f = abstract ∨ fe_type f = submission →
  ensure_entry env my_tag file_state f w = (Ok tt, w).
Proof.
  intros Htype. unfold ensure_entry, mbind, cmd_bind, cbind.
  destruct (decide (fe_type f = pdf_cache)) as [Heq|_];
    [destruct Htype; congruence|].
  destruct (decide (fe_type f = html_cache)) as [Heq|_];
    [destruct Htype; congruence|].
  reflexivity.
Qed.

Lemma ensure_entries_skip (env : Env) (my_tag : Z) (file_state : SubmissionFilesState)
      (files : list file_entry) (w : World) :
  Forall (fun f => fe_type f = abstract ∨ fe_type f = submission) files →
  ensure_entries env my_tag file_state files w = (Ok tt, w).
Proof.
  induction 1 as [|f files Hf _ IH]; [reflexivity|].
  cbn [ensure_entries]. unfold mbind, cmd_bind, cbind.
  rewrite ensure_entry_skips by exact Hf. exact IH.
Qed.

(** The world after a request for a PDF to [host]. *)
Lemma ensure_entry_pdf (env : Env) (my_tag : Z) (file_state : SubmissionFilesState)
      (f : file_entry) (p host : string) (n_para : nat) (outcome : option string)
      (fs' : FileSystem) (w : World) :
  fe_type f = pdf_cache → cit f = CitPath p →
  fs_exists (w_fs w) p = false →
  select_webnode env my_tag = Some (host, n_para) →
  ensure_pdf env (w_fs w) host (vxid file_state) (protocol_for host) = (outcome, fs') →
  ∃ w', ensure_entry env my_tag file_state f w
        = match outcome with
          | Some err => (Raise (External err), w')
          | None =>
              if fs_exists fs' p then (Ok tt, w') else (Raise MissingGeneratedFile, w')
          end.
Proof.
  intros Htype Hcit Habsent Hhost Hensure.
  assert (Hn : (Z.of_nat (length (CONCURRENCY_PER_WEBNODE env)) =? 0) = false).
  { apply Z.eqb_neq. unfold select_webnode in Hhost.
    apply lookup_lt_Some in Hhost. lia. }
  eexists. unfold ensure_entry, mbind, cmd_bind, cbind, lift, path_exists, reading_fs.
  destruct (decide (fe_type f = pdf_cache)) as [_|]; [|contradiction].
  destruct (decide (fe_type f = html_cache)) as [Heq|_]; [congruence|].
  rewrite Hcit. cbn [as_path]. rewrite Habsent. cbn [negb].
  unfold ask_webnode_for. rewrite Hn, Hhost. cbn [w_fs set_count].
  rewrite Hensure.
  destruct outcome as [err|]; [reflexivity|].
  cbn [w_fs add_request set_fs]. destruct (fs_exists fs' p); reflexivity.
Qed.

(** C1, amended.  When the PDF of the expected set is absent and the
    request to the selected web node raises, the ensure step raises that
    same exception; when the request returns, the second look alone
    decides: [MissingGeneratedFile] if the file is still absent, the file
    state if it is there. *)
Theorem transport_failure_is_raised_again (env : Env) (d : SubmissionData) (w : World)
        (self self' : SubmissionFilesState) (files : list file_entry) (e : file_entry)
        (p host : string) (n_para : nat) (outcome : option string) (fs' : FileSystem) :
  file_state_of env d = Ok self →
  get_expected_files env (w_fs w) self = Ok (files, self') →
  In e files → fe_type e = pdf_cache → cit e = CitPath p →
  fs_exists (w_fs w) p = false →
  select_webnode env (WEBNODE_REQUEST_COUNT w) = Some (host, n_para) →
  ensure_pdf env (w_fs w) host (vxid self') (protocol_for host) = (outcome, fs') →
  fst (submission_message_to_file_state env d true w)
  = match outcome with
    | Some err => Raise (External err)
    | None => if fs_exists fs' p then Ok self' else Raise MissingGeneratedFile
    end.
Proof.
  intros Hinit Hfiles Hin Htype Hcit Habsent Hhost Hensure.
  destruct (get_expected_files_entries _ _ _ _ _ Hfiles) as (entries & Hcur & Hmap & _).
  pose proof (current_entries_shape _ _ _ _ _ Hcur) as Hshape.
  pose proof (obsolete_entries_status env (w_fs w) self') as Hobs.
  assert (Hobs_type :
            Forall (fun x => e_type x = abstract ∨ e_type x = submission)
                   (obsolete_entries env (w_fs w) self')).
  { unfold obsolete_entries. destruct (opt_str_in _ _); [|constructor].
    constructor; [left; reflexivity|]. constructor; [|constructor].
    destruct (List.find _ _); right; reflexivity. }
  assert (Hfe : In (fe_entry e) (entries ++ obsolete_entries env (w_fs w) self'))
    by (rewrite <- Hmap; apply in_map; exact Hin).
  unfold fe_type in Htype.
  (* the expected set is abstract, submission, PDF, and then the obsolete entries *)
  assert (Hsplit : ∃ f1 f2 f3 rest,
             files = f1 :: f2 :: f3 :: rest
             ∧ fe_type f1 = abstract ∧ fe_type f2 = submission
             ∧ fe_type f3 = pdf_cache
             ∧ Forall (fun f => fe_type f = abstract ∨ fe_type f = submission) rest).
  { assert (Hcache : ∃ a b c, entries = [a; b; c] ∧ e_type a = abstract
                              ∧ e_type b = submission ∧ e_type c = pdf_cache).
    { destruct Hshape as [| |cache _ _ _ Hcache].
      - exfalso. apply in_app_or in Hfe as [Hfe|Hfe].
        + destruct Hfe as [He|[He|[]]]; rewrite <- He in Htype; discriminate.
        + rewrite Forall_forall in Hobs_type; apply list_elem_of_In, Hobs_type in Hfe.
          destruct Hfe; congruence.
      - exfalso. apply in_app_or in Hfe as [Hfe|Hfe].
        + destruct Hfe as [He|[He|[]]]; rewrite <- He in Htype; discriminate.
        + rewrite Forall_forall in Hobs_type; apply list_elem_of_In, Hobs_type in Hfe.
          destruct Hfe; congruence.
      - destruct Hcache.
        + do 3 eexists. repeat split.
        + exfalso. apply in_app_or in Hfe as [Hfe|Hfe].
          * destruct Hfe as [He|[He|[He|[]]]]; rewrite <- He in Htype; discriminate.
          * rewrite Forall_forall in Hobs_type; apply list_elem_of_In, Hobs_type in Hfe.
            destruct Hfe; congruence.
        + exfalso. apply in_app_or in Hfe as [Hfe|Hfe].
          * destruct Hfe as [He|[He|[]]]; rewrite <- He in Htype; discriminate.
          * rewrite Forall_forall in Hobs_type; apply list_elem_of_In, Hobs_type in Hfe.
            destruct Hfe; congruence. }
    destruct Hcache as (a & b & c & -> & Ha & Hb & Hc).
    destruct files as [|f1 [|f2 [|f3 rest]]]; try discriminate.
    cbn in Hmap. injection Hmap as <- <- <- Hrest.
    exists f1, f2, f3, rest. repeat split; try assumption.
    rewrite <- Hrest in Hobs_type. rewrite Forall_map in Hobs_type. exact Hobs_type. }
  destruct Hsplit as (f1 & f2 & f3 & rest & -> & H1 & H2 & H3 & Hrest).
  assert (e = f3) as ->.
  { destruct Hin as [<- | [<- | [<- | Hin]]]; unfold fe_type in *; try congruence.
    rewrite Forall_forall in Hrest. apply list_elem_of_In, Hrest in Hin.
    unfold fe_type in Hin. destruct Hin; congruence. }
  unfold submission_message_to_file_state, mbind, cmd_bind, cbind, lift, reading_fs.
  fold (file_state_of env d). rewrite Hinit, Hfiles.
  cbn [ensure_entries]. unfold mbind, cmd_bind, cbind.
  rewrite ensure_entry_skips by (left; exact H1).
  rewrite ensure_entry_skips by (right; exact H2).
  destruct (ensure_entry_pdf env (WEBNODE_REQUEST_COUNT w) self' f3 p host n_para outcome
                             fs' w H3 Hcit Habsent Hhost Hensure) as (w' & ->).
  destruct outcome as [err|]; [reflexivity|].
  destruct (fs_exists fs' p); [|reflexivity].
  rewrite ensure_entries_skip by exact Hrest. reflexivity.
Qed.

Lemma transport_failure_is_raised_again_witness :
  fst (submission_message_to_file_state (Fixture.env Fixture.unreachable) Fixture.tex_event
                                        true (Fixture.world Fixture.tex_fs ∅))
  = Raise (External "ConnectionError").
Proof.
  refine (transport_failure_is_raised_again
            (Fixture.env Fixture.unreachable) Fixture.tex_event
            (Fixture.world Fixture.tex_fs ∅) Fixture.tex_state
            (set_top_levels ["main.tex"] Fixture.tex_state) Fixture.tex_files
            Fixture.tex_pdf_entry "/cache/ps_cache/arxiv/pdf/1208/1208.9998v1.pdf"
            "localhost:8080" 1%nat (Some "ConnectionError") Fixture.tex_fs
            _ _ _ _ _ _ _ _).
  - vm_compute. reflexivity.
  - vm_compute. reflexivity.
  - right. right. left. reflexivity.
  - reflexivity.
  - reflexivity.
  - vm_compute. reflexivity.
  - vm_compute. reflexivity.
  - reflexivity.
Defined.

(** C1, as the specification words it, fails: an unreachable web node makes
    the ensure step raise the connection error, not [MissingGeneratedFile]. *)
Lemma transport_failure_is_not_missing_file : ¬ transport_failure_is_missing_file.
Proof.
  intros Hclaim.
  specialize (Hclaim (Fixture.env Fixture.unreachable) Fixture.tex_event
                     (Fixture.world Fixture.tex_fs ∅) Fixture.tex_state
                     (set_top_levels ["main.tex"] Fixture.tex_state) Fixture.tex_files
                     Fixture.tex_pdf_entry "/cache/ps_cache/arxiv/pdf/1208/1208.9998v1.pdf"
                     "ConnectionError"
                     (proj1 tex_files_are_expected) (proj2 tex_files_are_expected)).
  assert (Hraised :
            fst (submission_message_to_file_state
                   (Fixture.env Fixture.unreachable) Fixture.tex_event true
                   (Fixture.world Fixture.tex_fs ∅))
            = Raise (External "ConnectionError")) by (vm_compute; reflexivity).
  rewrite Hraised in Hclaim.
  assert (Raise (A := SubmissionFilesState) (External "ConnectionError")
          = Raise MissingGeneratedFile) as Habsurd.
  { apply Hclaim.
    - right. right. left. reflexivity.
    - left. reflexivity.
    - reflexivity.
    - vm_compute. reflexivity.
    - intros fs host protocol. reflexivity.
    - intros fs host protocol. reflexivity. }
  discriminate Habsurd.
Qed.

(** ** Lists of keys *)

Lemma list_remove_In (x k : string) (l : list string) :
  NoDup l → In k (Py.list_remove x l) ↔ In k l ∧ k ≠ x.
Proof.
  induction l as [|y l IH]; intros Hnd; cbn.
  - tauto.
  - apply NoDup_cons in Hnd as [Hy Hnd]. rewrite list_elem_of_In in Hy.
    destruct (String.eqb_spec x y) as [->|Hne].
    + split.
      * intros Hk. split; [right; exact Hk|]. intros ->. contradiction.
      * intros [[->|Hk] Hne]; [contradiction | exact Hk].
    + cbn. rewrite IH by exact Hnd. split.
      * intros [->|[Hk Hkx]]; split; auto.
      * intros [[->|Hk] Hkx]; auto.
Qed.

Lemma list_remove_NoDup (x : string) (l : list string) :
  NoDup l → NoDup (Py.list_remove x l).
Proof.
  induction l as [|y l IH]; intros Hnd; cbn; [constructor|].
  pose proof Hnd as Hnd'. apply NoDup_cons in Hnd as [Hy Hnd].
  destruct (String.eqb_spec x y) as [->|Hne]; [exact Hnd|].
  apply NoDup_cons. split; [|apply IH; exact Hnd].
  rewrite list_elem_of_In in *. rewrite list_remove_In by exact Hnd. tauto.
Qed.

Lemma split_nonempty (sep : ascii) (s : string) : Py.split sep s ≠ [].
Proof.
  destruct s as [|c s]; cbn; [discriminate|].
  destruct (Ascii.eqb c sep); [discriminate|].
  destruct (Py.split sep s); discriminate.
Qed.

Lemma join_split (sep : ascii) (s : string) :
  Py.join (String sep EmptyString) (Py.split sep s) = s.
Proof.
  induction s as [|c s IH]; [reflexivity|].
  cbn [Py.split]. pose proof (split_nonempty sep s) as Hne.
  destruct (Ascii.eqb_spec c sep) as [->|_].
  - destruct (Py.split sep s) as [|w ws]; [contradiction|].
    change (Py.join (String sep EmptyString) (EmptyString :: w :: ws))
      with (String sep (Py.join (String sep EmptyString) (w :: ws))).
    rewrite IH. reflexivity.
  - destruct (Py.split sep s) as [|w ws]; [contradiction|].
    destruct ws as [|w' ws].
    + cbn in *. rewrite IH. reflexivity.
    + change (Py.join (String sep EmptyString) (String c w :: w' :: ws))
        with (String c (w +:+ String sep EmptyString
                          +:+ Py.join (String sep EmptyString) (w' :: ws))).
      change (Py.join (String sep EmptyString) (w :: w' :: ws))
        with (w +:+ String sep EmptyString
                +:+ Py.join (String sep EmptyString) (w' :: ws)) in IH.
      rewrite IH. reflexivity.
Qed.

(** The trashed name is the name behind [trash/]. *)
Lemma trashed_blob_prefixed (obj : string) : trashed_blob obj = "trash/" +:+ obj.
Proof.
  unfold trashed_blob. pose proof (split_nonempty "/" obj) as Hne.
  pose proof (join_split "/" obj) as Hjoin.
  destruct (Py.split "/" obj) as [|w ws]; [contradiction|].
  change (Py.join "/" ("trash" :: w :: ws)) with ("trash" +:+ "/" +:+ Py.join "/" (w :: ws)).
  rewrite Hjoin. reflexivity.
Qed.

Lemma trashed_starts_with_trash (obj : string) :
  Py.startswith (trashed_blob obj) "trash/" = true.
Proof. rewrite trashed_blob_prefixed. destruct obj; reflexivity. Qed.

Lemma trashed_blob_inj (a b : string) : trashed_blob a = trashed_blob b → a = b.
Proof. rewrite !trashed_blob_prefixed. intros [= H]. exact H. Qed.

(** ** The bucket under uploads and renames *)

Lemma listed_is_present (bucket : gmap string string) (gcp_path k : string) :
  In k (list_bucket_objects bucket gcp_path) → is_Some (bucket !! k).
Proof.
  unfold list_bucket_objects. rewrite filter_In. intros [Hk _].
  apply in_map_iff in Hk as ([k' v] & <- & Hkv).
  apply list_elem_of_In, elem_of_map_to_list in Hkv. cbn. eauto.
Qed.

Lemma filter_NoDup {A} (f : A → bool) (l : list A) : NoDup l → NoDup (List.filter f l).
Proof.
  induction 1 as [|x l Hx _ IH]; cbn; [constructor|].
  destruct (f x); [|exact IH]. constructor; [|exact IH].
  rewrite list_elem_of_In in *. rewrite filter_In. tauto.
Qed.

Lemma listing_NoDup (bucket : gmap string string) (gcp_path : string) :
  NoDup (list_bucket_objects bucket gcp_path).
Proof.
  unfold list_bucket_objects. apply filter_NoDup.
  apply (NoDup_fst_map_to_list bucket).
Qed.

Lemma upload_frame (env : Env) (localpath key : string) (w w' : World) :
  upload env localpath key w = (Ok tt, w') →
  w_fs w' = w_fs w
  ∧ (∀ k, k ≠ key → w_bucket w' !! k = w_bucket w !! k)
  ∧ (∀ k, is_Some (w_bucket w !! k) → is_Some (w_bucket w' !! k)).
Proof.
  unfold upload. destruct (fs_read_bytes (w_fs w) localpath) as [content|]; [|discriminate].
  assert (Hwrite :
            let w1 := set_bucket (<[key:=content]> (w_bucket w))
                                 (OpUpload key (String.length content)) w in
            w_fs w1 = w_fs w
            ∧ (∀ k, k ≠ key → w_bucket w1 !! k = w_bucket w !! k)
            ∧ (∀ k, is_Some (w_bucket w !! k) → is_Some (w_bucket w1 !! k))).
  { cbn. split; [reflexivity|]. split.
    - intros k Hk. apply lookup_insert_ne. congruence.
    - intros k Hk. destruct (decide (key = k)) as [->|Hne].
      + rewrite lookup_insert_eq. eauto.
      + rewrite lookup_insert_ne by exact Hne. exact Hk. }
  destruct (w_bucket w !! key) as [blob|].
  - destruct (unchanged env content blob); intros [= <-]; [auto | exact Hwrite].
  - intros [= <-]. exact Hwrite.
Qed.

Lemma sync_entries_spec (env : Env) (desired_state : list file_entry) :
  ∀ (bucket_objects : list string) (w : World) (remaining : list string) (w' : World),
    sync_entries env desired_state bucket_objects w = (Ok remaining, w') →
    w_fs w' = w_fs w
    ∧ (∀ k, ¬ In k (map gcp desired_state) → w_bucket w' !! k = w_bucket w !! k)
    ∧ (∀ k, is_Some (w_bucket w !! k) → is_Some (w_bucket w' !! k))
    ∧ (NoDup bucket_objects →
       NoDup remaining
       ∧ ∀ k, In k remaining ↔ In k bucket_objects ∧ ¬ In k (map gcp desired_state)).
Proof.
  induction desired_state as [|e rest IH]; intros objs w remaining w'.
  - cbn. intros [= <- <-]. repeat split; auto; tauto.
  - cbn [sync_entries]. unfold mbind, cmd_bind, cbind, lift.
    destruct (as_path (cit e)) as [localpath|]; [|discriminate].
    destruct (upload env localpath (gcp e) w) as [[[]|] w1] eqn:Hup; [|discriminate].
    apply upload_frame in Hup as (Hfs1 & Hframe1 & Hkeep1).
    intros Hrest. apply IH in Hrest as (Hfs & Hframe & Hkeep & Hobjs).
    split; [congruence|]. split; [|split].
    + intros k Hk. cbn in Hk. rewrite Hframe by tauto. apply Hframe1. intros ->. tauto.
    + intros k Hk. auto.
    + intros Hnd.
      assert (Hstep :
                let objs' := if Py.str_in (gcp e) objs
                             then Py.list_remove (gcp e) objs else objs in
                NoDup objs' ∧ ∀ k, In k objs' ↔ In k objs ∧ k ≠ gcp e).
      { cbn. destruct (Py.str_in (gcp e) objs) eqn:Hin.
        - split; [apply list_remove_NoDup; exact Hnd | intros k; apply list_remove_In; exact Hnd].
        - split; [exact Hnd|]. intros k. split; [|tauto].
          intros Hk. split; [exact Hk|]. intros ->.
          apply str_in_In in Hk. congruence. }
      destruct Hstep as [Hnd' Hmem]. destruct (Hobjs Hnd') as [Hnd'' Hmem'].
      split; [exact Hnd''|]. intros k. rewrite Hmem', Hmem. cbn. intuition congruence.
Qed.

Lemma rename_blob_spec (obj new_name : string) (w w' : World) :
  rename_blob obj new_name w = (Ok tt, w') →
  obj ≠ new_name →
  ∃ content, w_bucket w !! obj = Some content
             ∧ w_bucket w' = delete obj (<[new_name := content]> (w_bucket w)).
Proof.
  unfold rename_blob. destruct (w_bucket w !! obj) as [content|]; [|discriminate].
  intros [= <-] Hne. exists content. split; [reflexivity|]. cbn.
  destruct (String.eqb_spec obj new_name); [contradiction | reflexivity].
Qed.

Lemma trash_bucket_objects_spec (objects : list string) :
  ∀ (w w' : World),
    trash_bucket_objects objects w = (Ok tt, w') →
    NoDup objects →
    Forall (fun k => Py.startswith k "trash/" = false) objects →
    (∀ k, In k objects →
          w_bucket w' !! k = None
          ∧ is_Some (w_bucket w !! k)
          ∧ w_bucket w' !! trashed_blob k = w_bucket w !! k)
    ∧ (∀ k, ¬ In k objects → (∀ j, In j objects → k ≠ trashed_blob j) →
            w_bucket w' !! k = w_bucket w !! k).
Proof.
  induction objects as [|obj rest IH]; intros w w'.
  - cbn. intros [= <-] _ _. split; [intros k []|auto].
  - cbn [trash_bucket_objects]. unfold mbind, cmd_bind, cbind.
    destruct (rename_blob obj (trashed_blob obj) w) as [[[]|] w1] eqn:Hren; [|discriminate].
    intros Hrest Hnd Hfree.
    apply NoDup_cons in Hnd as [Hobj Hnd]. rewrite list_elem_of_In in Hobj.
    apply Forall_cons in Hfree as [Hobj_free Hfree].
    assert (Hne : obj ≠ trashed_blob obj).
    { intros Heq. pose proof (trashed_starts_with_trash obj) as Ht.
      rewrite <- Heq in Ht. congruence. }
    apply rename_blob_spec in Hren as (content & Hcontent & Hbucket1); [|exact Hne].
    destruct (IH _ _ Hrest Hnd Hfree) as [Hin Hout].
    assert (Hrest_free : ∀ j, In j rest → Py.startswith j "trash/" = false).
    { intros j Hj. rewrite Forall_forall in Hfree.
      apply Hfree, list_elem_of_In, Hj. }
    split.
    + intros k [<- | Hk].
      * split; [|split].
        -- rewrite Hout; [rewrite Hbucket1; apply lookup_delete_eq | exact Hobj |].
           intros j Hj Heq. pose proof (trashed_starts_with_trash j) as Ht.
           rewrite <- Heq in Ht. congruence.
        -- rewrite Hcontent. eauto.
        -- rewrite Hout.
           ++ rewrite Hbucket1, lookup_delete_ne by exact Hne.
              rewrite lookup_insert_eq. symmetry. exact Hcontent.
           ++ intros Hin'. apply Hrest_free in Hin'.
              rewrite trashed_starts_with_trash in Hin'. discriminate.
           ++ intros j Hj Heq. apply trashed_blob_inj in Heq. subst j. contradiction.
      * destruct (Hin k Hk) as (Hnone & Hsome & Htrash).
        assert (Hk_obj : k ≠ obj) by (intros ->; contradiction).
        assert (Hk_t : k ≠ trashed_blob obj).
        { intros Heq. pose proof (Hrest_free k Hk) as Hf.
          rewrite Heq, trashed_starts_with_trash in Hf. discriminate. }
        assert (Hsame : w_bucket w1 !! k = w_bucket w !! k).
        { rewrite Hbucket1, lookup_delete_ne by congruence.
          apply lookup_insert_ne. congruence. }
        split; [exact Hnone|]. split; [rewrite <- Hsame; exact Hsome|].
        rewrite Htrash. exact Hsame.
    + intros k Hk Hfresh.
      rewrite Hout.
      * rewrite Hbucket1, lookup_delete_ne by (intros ->; apply Hk; left; reflexivity).
        apply lookup_insert_ne. intros Heq. apply (Hfresh obj); [left; reflexivity|].
        symmetry. exact Heq.
      * intros Hk'. apply Hk. right. exact Hk'.
      * intros j Hj. apply Hfresh. right. exact Hj.
Qed.

(** ** Reconciliation *)

Lemma sync_to_gcp_steps (env : Env) (state state' : SubmissionFilesState) (w : World)
      (desired_state : list file_entry) (root_key : string) :
  get_expected_files env (w_fs w) state = Ok (desired_state, state') →
  path_to_bucket_key env (CitPath (source_path env state EmptyString)) = Some root_key →
  sync_to_gcp env state w
  = match sync_entries env desired_state
                       (list_bucket_objects (w_bucket w) root_key) w with
    | (Ok [], w1) => (Ok tt, w1)
    | (Ok (obj :: rest), w1) => trash_bucket_objects (obj :: rest) w1
    | (Raise e, w1) => (Raise e, w1)
    end.
Proof.
  intros Hfiles Hkey.
  pose proof (get_expected_files_same _ _ _ _ _ Hfiles) as Hsame.
  destruct (same_paper_paths env state state' Hsame) as (Hsp & _).
  unfold sync_to_gcp, mbind, cmd_bind, cbind, lift, reading_fs.
  rewrite Hfiles, <- Hsp, Hkey. cbn [external].
  destruct (sync_entries env desired_state _ w) as [[[|obj rest]|e] w1]; reflexivity.
Qed.

(** C4.  When reconciliation completes, every key listed under the
    paper's prefix and not among the expected keys is gone from its place
    and its content is at [trash/] followed by the key; and every listed
    key is still in the bucket, in place or in the trash.  The listing is
    taken to hold no key of the trash itself. *)
Theorem unexpected_objects_are_trashed (env : Env) (state state' : SubmissionFilesState)
        (w w' : World) (desired_state : list file_entry) (root_key : string) :
  get_expected_files env (w_fs w) state = Ok (desired_state, state') →
  path_to_bucket_key env (CitPath (source_path env state EmptyString)) = Some root_key →
  (∀ k, In k (list_bucket_objects (w_bucket w) root_key) →
        Py.startswith k "trash/" = false) →
  sync_to_gcp env state w = (Ok tt, w') →
  (∀ K, In K (list_bucket_objects (w_bucket w) root_key) →
        ¬ In K (map gcp desired_state) →
        w_bucket w' !! K = None
        ∧ is_Some (w_bucket w !! K)
        ∧ w_bucket w' !! ("trash/" +:+ K) = w_bucket w !! K)
  ∧ (∀ K, In K (list_bucket_objects (w_bucket w) root_key) →
          is_Some (w_bucket w' !! K) ∨ is_Some (w_bucket w' !! ("trash/" +:+ K))).
Proof.
  intros Hfiles Hkey Hfree Hsync.
  rewrite (sync_to_gcp_steps _ _ _ _ _ _ Hfiles Hkey) in Hsync.
  set (listing := list_bucket_objects (w_bucket w) root_key) in *.
  destruct (sync_entries env desired_state listing w) as [[remaining|e] w1] eqn:Hentries;
    [|destruct e; discriminate].
  destruct (sync_entries_spec _ _ _ _ _ _ Hentries) as (_ & Hframe & Hkeep & Hobjs).
  destruct (Hobjs (listing_NoDup _ _)) as [Hnd Hmem].
  assert (Hrem_free : Forall (fun k => Py.startswith k "trash/" = false) remaining).
  { apply Forall_forall. intros k Hk. apply list_elem_of_In, Hmem in Hk as [Hk _]. auto. }
  assert (Htrash :
            (∀ k, In k remaining →
                  w_bucket w' !! k = None
                  ∧ is_Some (w_bucket w1 !! k)
                  ∧ w_bucket w' !! trashed_blob k = w_bucket w1 !! k)
            ∧ (∀ k, ¬ In k remaining → (∀ j, In j remaining → k ≠ trashed_blob j) →
                    w_bucket w' !! k = w_bucket w1 !! k)).
  { destruct remaining as [|obj rest].
    - injection Hsync as <-. split; [intros k []|auto].
    - apply trash_bucket_objects_spec; assumption. }
  destruct Htrash as [Hin Hout].
  assert (Hfirst : ∀ K, In K listing → ¬ In K (map gcp desired_state) →
                        w_bucket w' !! K = None
                        ∧ is_Some (w_bucket w !! K)
                        ∧ w_bucket w' !! ("trash/" +:+ K) = w_bucket w !! K).
  { intros K HK Hunexpected.
    assert (HKrem : In K remaining) by (apply Hmem; auto).
    destruct (Hin K HKrem) as (Hnone & Hsome & Htr).
    rewrite Hframe in Hsome, Htr by exact Hunexpected.
    rewrite trashed_blob_prefixed in Htr. auto. }
  split; [exact Hfirst|].
  intros K HK.
  destruct (in_dec string_dec K (map gcp desired_state)) as [Hexp|Hunexpected].
  - left. rewrite Hout.
    + apply Hkeep. eapply listed_is_present. exact HK.
    + rewrite Hmem. tauto.
    + intros j _ Heq. pose proof (trashed_starts_with_trash j) as Ht.
      rewrite <- Heq, (Hfree K HK) in Ht. discriminate.
  - right. destruct (Hfirst K HK Hunexpected) as (_ & Hsome & ->). exact Hsome.
Qed.

(** ** Idempotence *)

Lemma unchanged_same (env : Env) (content : string) : unchanged env content content = true.
Proof.
  unfold unchanged. rewrite Nat.eqb_refl. cbn.
  destruct (checksum env content); [apply N.eqb_refl | reflexivity].
Qed.

Lemma sync_entries_synced (env : Env) (desired_state : list file_entry) (w : World) :
  (∀ e, In e desired_state →
        ∃ p content, cit e = CitPath p
                     ∧ fs_read_bytes (w_fs w) p = Some content
                     ∧ w_bucket w !! gcp e = Some content) →
  ∀ bucket_objects,
  ∃ remaining, sync_entries env desired_state bucket_objects w = (Ok remaining, w).
Proof.
  induction desired_state as [|e rest IH]; intros Hsynced objs.
  - exists objs. reflexivity.
  - destruct (Hsynced e (or_introl eq_refl)) as (p & content & Hcit & Hread & Hblob).
    cbn [sync_entries]. unfold mbind, cmd_bind, cbind, lift.
    rewrite Hcit. cbn [as_path]. unfold upload. rewrite Hread, Hblob, unchanged_same.
    apply IH. intros e' He'. apply Hsynced. right. exact He'.
Qed.

(** C5.  On a store that is synced to the expected set (every expected key
    holds the content of its legacy file, and every key listed under the
    prefix is expected), reconciliation returns with the world as it was:
    no byte is uploaded and nothing is renamed. *)
Theorem reconcile_is_idempotent (env : Env) (state state' : SubmissionFilesState)
        (w : World) (desired_state : list file_entry) (root_key : string) :
  get_expected_files env (w_fs w) state = Ok (desired_state, state') →
  path_to_bucket_key env (CitPath (source_path env state EmptyString)) = Some root_key →
  (∀ e, In e desired_state →
        ∃ p content, cit e = CitPath p
                     ∧ fs_read_bytes (w_fs w) p = Some content
                     ∧ w_bucket w !! gcp e = Some content) →
  (∀ k, In k (list_bucket_objects (w_bucket w) root_key) → In k (map gcp desired_state)) →
  sync_to_gcp env state w = (Ok tt, w) ∧ w_ops (snd (sync_to_gcp env state w)) = w_ops w.
Proof.
  intros Hfiles Hkey Hsynced Hno_extra.
  rewrite (sync_to_gcp_steps _ _ _ _ _ _ Hfiles Hkey).
  destruct (sync_entries_synced env desired_state w Hsynced
                                (list_bucket_objects (w_bucket w) root_key))
    as (remaining & Hentries).
  rewrite Hentries.
  destruct (sync_entries_spec _ _ _ _ _ _ Hentries) as (_ & _ & _ & Hobjs).
  destruct (Hobjs (listing_NoDup _ _)) as [_ Hmem].
  destruct remaining as [|obj rest]; [split; reflexivity|].
  exfalso. destruct (proj1 (Hmem obj) (or_introl eq_refl)) as [Hlisted Hunexpected].
  apply Hunexpected, Hno_extra, Hlisted.
Qed.


Lemma listing_of_stale_bucket :
  list_bucket_objects (w_bucket (Fixture.world Fixture.pdf_fs Fixture.stale_bucket))
                      "ftp/arxiv/papers/1208/1208.9998"
  = ["ftp/arxiv/papers/1208/1208.9998.tar.gz"].
Proof. vm_compute. reflexivity. Qed.

Lemma unexpected_objects_are_trashed_witness :
  let w := Fixture.world Fixture.pdf_fs Fixture.stale_bucket in
  let w' := snd (sync_to_gcp (Fixture.env Fixture.unreachable) Fixture.rep_state w) in
  let K := "ftp/arxiv/papers/1208/1208.9998.tar.gz" in
  (w_bucket w' !! K = None
   ∧ is_Some (w_bucket w !! K)
   ∧ w_bucket w' !! ("trash/" +:+ K) = w_bucket w !! K)
  ∧ w_bucket w !! K = Some "old source".
Proof.
  intros w w' K. split; [|vm_compute; reflexivity].
  refine (proj1 (unexpected_objects_are_trashed
           (Fixture.env Fixture.unreachable) Fixture.rep_state
           (set_single_source true (set_source_format (Some "pdf") Fixture.rep_state))
           w w' Fixture.rep_files "ftp/arxiv/papers/1208/1208.9998" _ _ _ _) K _ _).
  - (vm_compute; reflexivity).
  - (vm_compute; reflexivity).
  - (intros k Hk; unfold w in Hk; rewrite listing_of_stale_bucket in Hk;
    destruct Hk as [<- | []]; vm_compute; reflexivity).
  - (vm_compute; reflexivity).
  - (unfold w; rewrite listing_of_stale_bucket; left; reflexivity).
  - (intros [H | [H | [H | [H | []]]]]; discriminate H).
Defined.

Lemma reconcile_is_idempotent_witness :
  let env := Fixture.env Fixture.unreachable in
  let synced := snd (sync_to_gcp env Fixture.rep_state
                                 (Fixture.world Fixture.pdf_fs Fixture.stale_bucket)) in
  sync_to_gcp env Fixture.rep_state synced = (Ok tt, synced)
  ∧ w_ops (snd (sync_to_gcp env Fixture.rep_state synced)) = w_ops synced.
Proof.
  intros env synced.
  refine (reconcile_is_idempotent
           env Fixture.rep_state
           (set_single_source true (set_source_format (Some "pdf") Fixture.rep_state))
           synced Fixture.rep_files "ftp/arxiv/papers/1208/1208.9998" _ _ _ _).
  - (vm_compute; reflexivity).
  - (vm_compute; reflexivity).
  - (intros e [<- | [<- | [<- | [<- | []]]]];
    [ exists "/data/ftp/arxiv/papers/1208/1208.9998.abs",
        (Fixture.content_of (Fixture.abs_file EmptyString))
    | exists "/data/ftp/arxiv/papers/1208/1208.9998.pdf", "%PDF-2"
    | exists "/data/orig/arxiv/papers/1208/1208.9998v1.abs",
        (Fixture.content_of (Fixture.abs_file EmptyString))
    | exists "/data/orig/arxiv/papers/1208/1208.9998v1.pdf", "%PDF-1" ];
    (split; [reflexivity | split; vm_compute; reflexivity])).
  - (assert (Hlist : list_bucket_objects (w_bucket synced) "ftp/arxiv/papers/1208/1208.9998"
                    = ["ftp/arxiv/papers/1208/1208.9998.abs";
                       "ftp/arxiv/papers/1208/1208.9998.pdf"])
      by (vm_compute; reflexivity)).
    (intros k Hk; rewrite Hlist in Hk;
    destruct Hk as [<- | [<- | []]]; [left | right; left]; reflexivity).
Defined.

(** ** The callback on an object

    For a payload that decodes to an object the callback replies exactly
    once: [ack] when the ensure step, the expected set and the
    reconciliation all return, [nack] at the first of them that raises. *)

Lemma callback_on_object (env : Env) (message : Message) (d : SubmissionData) (w : World) :
  decode_message env message = Ok (JDict d) →
  submission_callback env message w
  = match submission_message_to_file_state env d true w with
    | (Raise _, w1) => (Ok tt, add_reply Nack w1)
    | (Ok state, w1) =>
        match get_expected_files env (w_fs w1) state with
        | Raise _ | Ok ([], _) => (Ok tt, add_reply Nack w1)
        | Ok (_ :: _, state') =>
            match sync_to_gcp env state' w1 with
            | (Ok _, w2) => (Ok tt, add_reply Ack w2)
            | (Raise _, w2) => (Ok tt, add_reply Nack w2)
            end
        end
    end.
Proof.
  intros Hd. unfold submission_callback.
  unfold mbind, cmd_bind, cbind, lift. rewrite Hd. cbn [data_get].
  unfold ctry, cbind, reading_fs.
  destruct (submission_message_to_file_state env d true w) as [[state|e] w1];
    [|reflexivity].
  destruct (get_expected_files env (w_fs w1) state) as [[[|f files] state']|e];
    [reflexivity | | reflexivity].
  cbn. destruct (sync_to_gcp env state' w1) as [[[]|e] w2]; reflexivity.
Qed.

(** * Further properties of the module *)

(** ** Source flags *)

Lemma char_in_In (c : ascii) (s : string) :
  Py.char_in c s = true ↔ In c (list_ascii_of_string s).
Proof.
  induction s as [|d s IH]; cbn; [split; [discriminate | tauto]|].
  destruct (Ascii.eqb_spec c d) as [->|Hne].
  - split; auto.
  - rewrite IH. split; [auto | intros [Heq|H]; [congruence | exact H]].
Qed.

(** X1.  [cannot_pdf] is true exactly when the code holds [H], [O] or [X]:
    the guard [self.code is not None] binds to [self.html] alone, and that
    changes nothing, since [odf] and [docx] carry the guard themselves.
    With no code every property is false. *)
Theorem cannot_pdf_is_html_odf_or_docx (self : SourceFlag.t) :
  (SourceFlag.cannot_pdf self = true ↔
   ∃ s c, SourceFlag.code self = Some s ∧ In c (list_ascii_of_string s)
          ∧ (c = "H" ∨ c = "O" ∨ c = "X")%char)
  ∧ (SourceFlag.code self = None →
     SourceFlag.cannot_pdf self = false ∧ ∀ c, SourceFlag.flag c self = false).
Proof.
  destruct self as [[s|]]; unfold SourceFlag.cannot_pdf, SourceFlag.html, SourceFlag.odf,
    SourceFlag.docx, SourceFlag.flag, SourceFlag.is_not_none; cbn [SourceFlag.code].
  - split; [|discriminate]. cbn [andb]. rewrite !orb_true_iff, !char_in_In. split.
    + intros [[H|H]|H]; exists s; eauto 7.
    + intros (s' & c & [= <-] & Hin & [-> | [-> | ->]]); auto.
  - split; [|auto]. split; [discriminate|]. intros (s & c & [=] & _).
Qed.

(** ** Trashed names *)

(** X2.  The trashed name of a key is never the key itself, names the key
    behind [trash/], and two keys never share a trashed name: a trashed
    object can be traced back to where it was. *)
Theorem trashed_name_gives_back_the_key (obj other : string) :
  Re.strip_prefix "trash/" (trashed_blob obj) = Some obj
  ∧ trashed_blob obj ≠ obj
  ∧ (trashed_blob obj = trashed_blob other → obj = other).
Proof.
  split; [|split].
  - rewrite trashed_blob_prefixed. reflexivity.
  - intros Heq. apply (f_equal String.length) in Heq.
    rewrite trashed_blob_prefixed in Heq.
    change (String.length ("trash/" +:+ obj)) with (6 + String.length obj)%nat in Heq. lia.
  - apply trashed_blob_inj.
Qed.

(** ** The dates of an abstract *)

(** X3.  Only the header of the abstract is read for dates: the lines up
    to the first blank one.  Of these the stripped lines that start with
    [Date] are kept, in order; nothing after the blank line counts. *)
Theorem dates_stop_at_the_first_blank_line (header body : list string) (blank : string) :
  Py.strip blank = EmptyString →
  Forall (fun line => Py.strip line ≠ EmptyString) header →
  collect_dates (header ++ blank :: body)
  = List.filter (fun sline => Py.startswith sline "Date") (map Py.strip header).
Proof.
  intros Hblank Hheader. induction Hheader as [|line header Hline _ IH]; cbn.
  - rewrite Hblank. reflexivity.
  - destruct (String.eqb_spec (Py.strip line) EmptyString) as [Heq|_]; [contradiction|].
    destruct (Py.startswith (Py.strip line) "Date"); rewrite IH; reflexivity.
Qed.

Lemma dates_stop_at_the_first_blank_line_witness :
  collect_dates (["Date: Fri, 31 Aug 2012 19:17:18 GMT   (10kb)" +:+ String "010" EmptyString;
                  "Title: On dates" +:+ String "010" EmptyString]
                 ++ String "010" EmptyString
                 :: ["Date is a word of this abstract." +:+ String "010" EmptyString])
  = List.filter (fun sline => Py.startswith sline "Date")
                (map Py.strip
                     ["Date: Fri, 31 Aug 2012 19:17:18 GMT   (10kb)" +:+ String "010" EmptyString;
                      "Title: On dates" +:+ String "010" EmptyString]).
Proof.
  apply (dates_stop_at_the_first_blank_line
           ["Date: Fri, 31 Aug 2012 19:17:18 GMT   (10kb)" +:+ String "010" EmptyString;
            "Title: On dates" +:+ String "010" EmptyString]
           ["Date is a word of this abstract." +:+ String "010" EmptyString]
           (String "010" EmptyString)).
  - reflexivity.
  - repeat constructor; vm_compute; discriminate.
Defined.

(** ** The metadata update, step by step *)

Lemma mapped_flag_is_not_special (c : ascii) (fmt : string) :
  flag_lookup c flag_to_source_format = Some fmt → Py.char_in c "SAB" = false.
Proof.
  unfold flag_to_source_format. cbn [flag_lookup].
  destruct (Ascii.eqb_spec c "D") as [->|_]; [reflexivity|].
  destruct (Ascii.eqb_spec c "H") as [->|_]; [reflexivity|].
  destruct (Ascii.eqb_spec c "I") as [->|_]; [reflexivity|].
  destruct (Ascii.eqb_spec c "O") as [->|_]; [reflexivity|].
  destruct (Ascii.eqb_spec c "P") as [->|_]; [reflexivity|].
  destruct (Ascii.eqb_spec c "X") as [->|_]; [reflexivity|].
  discriminate.
Qed.

Lemma set_source_format_same (self : SubmissionFilesState) :
  set_source_format (source_format self) self = self.
Proof. destruct self; reflexivity. Qed.

Lemma plain_code_cons (c : ascii) (code : string) :
  plain_code (String c code) ↔ Py.char_in c "SAB" = false ∧ plain_code code.
Proof.
  unfold plain_code. cbn. split.
  - intros H. split; [apply H; left; reflexivity | intros d Hd; apply H; right; exact Hd].
  - intros [Hc H] d [<-|Hd]; auto.
Qed.

(** The loop over the code either ends with the last mapped format, or
    raises at the first [S], [A] or [B]. *)
Lemma scan_source_type_cases (code : string) :
  ∀ self,
    (plain_code code
     ∧ scan_source_type code self
       = Ok (set_source_format (last_format code (source_format self)) self))
    ∨ (¬ plain_code code ∧ scan_source_type code self = Raise AttributeError).
Proof.
  induction code as [|c code IH]; intros self.
  - left. split; [intros c []|]. cbn. rewrite set_source_format_same. reflexivity.
  - cbn [scan_source_type last_format]. rewrite plain_code_cons.
    destruct (flag_lookup c flag_to_source_format) as [fmt|] eqn:Hfmt.
    + apply mapped_flag_is_not_special in Hfmt.
      destruct (IH (set_source_format (Some fmt) self)) as [[Hplain ->] | [Hnot ->]].
      * left. split; [auto | reflexivity].
      * right. split; [tauto | reflexivity].
    + destruct (Py.char_in c "SAB") eqn:Hsab.
      * right. split; [intros [? _]; discriminate | reflexivity].
      * destruct (IH self) as [[Hplain ->] | [Hnot ->]].
        -- left. split; [auto | reflexivity].
        -- right. split; [tauto | reflexivity].
Qed.

(** The table lookup by extension never raises. *)
Lemma format_from_src_ext_returns (self : SubmissionFilesState) :
  ∃ fmt, format_from_src_ext self
         = Ok (set_source_format
                 fmt (set_single_source (negb (opt_str_eqb (src_ext self) (Some ".tar.gz")))
                                        self))
         ∧ fmt
           = if opt_str_eqb (src_ext self) (Some ".tar.gz") then
               (if Py.truthy (source_format self) then source_format self else Some "tex")
             else
               match dict_get (src_ext self) src_ext_to_source_format with
               | Some (Format f) => Some f
               | Some (FormatBy d) =>
                   match dict_get (source_format self) d with
                   | Some f => Some f
                   | None => Some "tex"
                   end
               | None => source_format self
               end.
Proof.
  unfold format_from_src_ext. cbn zeta. cbn [single_source set_single_source src_ext
                                            source_format].
  destruct (opt_str_eqb (src_ext self) (Some ".tar.gz")) eqn:Htar; cbn [negb].
  - destruct (Py.truthy (source_format self)); cbn [negb]; eexists; split; reflexivity.
  - destruct (src_ext self) as [ext|]; cbn [dict_get src_ext_to_source_format opt_str_eqb].
    + repeat (destruct (String.eqb ext _);
              [try (eexists; split; reflexivity)|]).
      * destruct (source_format self) as [f|]; cbn.
        -- destruct (String.eqb f "pdftex"); eexists; split; reflexivity.
        -- eexists; split; reflexivity.
      * eexists. split; reflexivity.
    + eexists; split; reflexivity.
Qed.

Lemma maybe_update_metadata_steps (env : Env) (fs : FileSystem) (self : SubmissionFilesState) :
  Py.truthy (source_format self) = false →
  maybe_update_metadata env fs self
  = match last_source_type (read_dates fs (source_path env self ".abs")) with
    | Some (Some code) =>
        match scan_source_type code (probe_src_ext env fs self) with
        | Ok scanned => format_from_src_ext scanned
        | Raise e => Raise e
        end
    | Some None => Raise TypeError
    | None => format_from_src_ext (probe_src_ext env fs self)
    end.
Proof.
  intros Habsent. unfold maybe_update_metadata. cbn zeta.
  rewrite probe_src_ext_source_format, Habsent. cbn [negb].
  rewrite probe_src_ext_source_path.
  destruct (last_source_type _) as [[code|]|]; reflexivity.
Qed.

(** The two exceptions of [maybe_update_metadata]. *)
Lemma maybe_update_metadata_exn (env : Env) (fs : FileSystem)
      (self : SubmissionFilesState) (e : exn) :
  maybe_update_metadata env fs self = Raise e → e = TypeError ∨ e = AttributeError.
Proof.
  destruct (Py.truthy (source_format self)) eqn:Hfmt.
  - unfold maybe_update_metadata. cbn zeta.
    rewrite probe_src_ext_source_format, Hfmt. discriminate.
  - rewrite (maybe_update_metadata_steps env fs self Hfmt).
    destruct (last_source_type _) as [[code|]|].
    + destruct (scan_source_type_cases code (probe_src_ext env fs self))
        as [[_ ->] | [_ ->]].
      * destruct (format_from_src_ext_returns
                    (set_source_format
                       (last_format code (source_format (probe_src_ext env fs self)))
                       (probe_src_ext env fs self))) as (fmt & -> & _).
        discriminate.
      * intros [= <-]. auto.
    + intros [= <-]. auto.
    + destruct (format_from_src_ext_returns (probe_src_ext env fs self)) as (fmt & -> & _).
      discriminate.
Qed.

(** X4.  [maybe_update_metadata] raises in two cases only, both with no
    source format given and a last [Date] line that the pattern matches:
    [TypeError] when the line has no size part (the loop runs over
    [None]), [AttributeError] when its code holds [S], [A] or [B].  A
    missing or unreadable abstract, or one without a [Date] line, never
    fails it. *)
Theorem metadata_update_fails_only_on_the_date_line (env : Env) (fs : FileSystem)
        (self : SubmissionFilesState) (e : exn) :
  maybe_update_metadata env fs self = Raise e ↔
  Py.truthy (source_format self) = false
  ∧ ((last_source_type (read_dates fs (source_path env self ".abs")) = Some None
      ∧ e = TypeError)
     ∨ (∃ code, last_source_type (read_dates fs (source_path env self ".abs"))
                = Some (Some code)
                ∧ ¬ plain_code code ∧ e = AttributeError)).
Proof.
  destruct (Py.truthy (source_format self)) eqn:Hfmt.
  - split; [|intros [[=] _]]. unfold maybe_update_metadata. cbn zeta.
    rewrite probe_src_ext_source_format, Hfmt. discriminate.
  - rewrite (maybe_update_metadata_steps env fs self Hfmt).
    destruct (last_source_type _) as [[code|]|].
    + destruct (scan_source_type_cases code (probe_src_ext env fs self))
        as [[Hplain ->] | [Hnot ->]].
      * destruct (format_from_src_ext_returns
                    (set_source_format
                       (last_format code (source_format (probe_src_ext env fs self)))
                       (probe_src_ext env fs self))) as (fmt & -> & _).
        split; [discriminate|].
        intros (_ & [[[=] _] | (code' & [= <-] & Hnot & _)]). contradiction.
      * split.
        -- intros [= <-]. split; [reflexivity|]. right. exists code. auto.
        -- intros (_ & [[[=] _] | (code' & _ & _ & ->)]). reflexivity.
    + split.
      * intros [= <-]. auto.
      * intros (_ & [[_ ->] | (code & [=] & _)]). reflexivity.
    + destruct (format_from_src_ext_returns (probe_src_ext env fs self)) as (fmt & -> & _).
      split; [discriminate|]. intros (_ & [[[=] _] | (code & [=] & _)]).
Qed.

Lemma metadata_update_fails_only_on_the_date_line_witness :
  maybe_update_metadata (Fixture.env Fixture.unreachable) Fixture.sizeless_fs
                        Fixture.bare_state
  = Raise TypeError.
Proof.
  apply (proj2 (metadata_update_fails_only_on_the_date_line
                  (Fixture.env Fixture.unreachable) Fixture.sizeless_fs Fixture.bare_state
                  TypeError)).
  split; [reflexivity|]. left. split; [vm_compute; reflexivity | reflexivity].
Defined.

(** X5.  The source format that [maybe_update_metadata] settles on when
    none was given.  The extensions of [src_ext_to_source_format] decide by
    themselves: [.html.gz], [.ps.gz] and [.pdf] give [html], [ps] and [pdf]
    whatever the abstract says; [.gz] gives [pdftex] if the abstract's last
    mapped flag is [D] and [tex] otherwise; no extension at all gives
    [tex].  A [.tar.gz] takes the format of the abstract's last mapped
    flag, and [tex] when there is none.  Any other extension (a [.docx]
    that the message names) also takes the format of the abstract's last
    mapped flag, and is left without a format when there is none. *)
Theorem resolved_source_format (env : Env) (fs : FileSystem)
        (self self' : SubmissionFilesState) :
  Py.truthy (source_format self) = false →
  maybe_update_metadata env fs self = Ok self' →
  let from_abstract :=
    match last_source_type (read_dates fs (source_path env self ".abs")) with
    | Some (Some code) => last_format code (source_format self)
    | _ => source_format self
    end in
  (src_ext self' = Some ".tar.gz" →
   source_format self' = if Py.truthy from_abstract then from_abstract else Some "tex")
  ∧ (src_ext self' = Some ".gz" →
     source_format self'
     = if opt_str_eqb from_abstract (Some "pdftex") then Some "pdftex" else Some "tex")
  ∧ (src_ext self' = Some ".html.gz" → source_format self' = Some "html")
  ∧ (src_ext self' = Some ".ps.gz" → source_format self' = Some "ps")
  ∧ (src_ext self' = Some ".pdf" → source_format self' = Some "pdf")
  ∧ (src_ext self' = None → source_format self' = Some "tex")
  ∧ (∀ ext, src_ext self' = Some ext →
            ¬ In ext [".tar.gz"; ".gz"; ".html.gz"; ".ps.gz"; ".pdf"] →
            source_format self' = from_abstract)
  ∧ single_source self' = negb (opt_str_eqb (src_ext self') (Some ".tar.gz")).
Proof.
  intros Habsent Hmeta. cbn zeta.
  rewrite (maybe_update_metadata_steps env fs self Habsent) in Hmeta.
  assert (Hscanned :
            ∃ scanned,
              format_from_src_ext scanned = Ok self'
              ∧ source_format scanned
                = match last_source_type (read_dates fs (source_path env self ".abs")) with
                  | Some (Some code) => last_format code (source_format self)
                  | _ => source_format self
                  end).
  { destruct (last_source_type _) as [[code|]|]; [| discriminate |].
    - destruct (scan_source_type_cases code (probe_src_ext env fs self))
        as [[_ Hscan] | [_ Hscan]]; rewrite Hscan in Hmeta; [|discriminate].
      eexists. split; [exact Hmeta|]. cbn. rewrite probe_src_ext_source_format. reflexivity.
    - eexists. split; [exact Hmeta|]. apply probe_src_ext_source_format. }
  destruct Hscanned as (scanned & Hformat & Hfrom). rewrite <- Hfrom. clear Hfrom Hmeta.
  destruct (format_from_src_ext_returns scanned) as (fmt & Hret & Hfmt).
  rewrite Hret in Hformat. injection Hformat as <-.
  cbn [src_ext source_format single_source set_source_format set_single_source].
  repeat split; try (intros Hext; rewrite Hext in Hfmt; cbn in Hfmt; exact Hfmt).
  - intros Hext. rewrite Hext in Hfmt. cbn in Hfmt. rewrite Hfmt.
    destruct (source_format scanned) as [f|]; cbn; [|reflexivity].
    destruct (String.eqb f "pdftex"); reflexivity.
  - intros ext Hext Hother. rewrite Hext in Hfmt. rewrite Hfmt.
    cbn [opt_str_eqb dict_get src_ext_to_source_format].
    repeat match goal with
           | |- context [String.eqb ext ?known] =>
               destruct (String.eqb_spec ext known) as [->|_];
               [exfalso; apply Hother; cbn; tauto|]
           end.
    reflexivity.
Qed.

Example docx_state_is_built :
  file_state_of (Fixture.env Fixture.unreachable) Fixture.docx_event = Ok Fixture.docx_state.
Proof. vm_compute. reflexivity. Qed.

Lemma resolved_source_format_witness :
  (∃ self',
      maybe_update_metadata (Fixture.env Fixture.unreachable) Fixture.pdftex_fs
                            Fixture.bare_state = Ok self'
      ∧ src_ext self' = Some ".gz" ∧ source_format self' = Some "pdftex")
  ∧ (∃ self',
        maybe_update_metadata (Fixture.env Fixture.unreachable) Fixture.docx_fs
                              Fixture.docx_state = Ok self'
        ∧ src_ext self' = Some ".docx" ∧ source_format self' = Some "docx").
Proof.
  split.
  - exists (set_source_format
              (Some "pdftex")
              (set_single_source true (set_src_ext (Some ".gz") Fixture.bare_state))).
    assert (Hmeta :
              maybe_update_metadata (Fixture.env Fixture.unreachable) Fixture.pdftex_fs
                                    Fixture.bare_state
              = Ok (set_source_format
                      (Some "pdftex")
                      (set_single_source true (set_src_ext (Some ".gz") Fixture.bare_state))))
      by (vm_compute; reflexivity).
    split; [exact Hmeta|]. split; [reflexivity|].
    destruct (resolved_source_format
                (Fixture.env Fixture.unreachable) Fixture.pdftex_fs Fixture.bare_state _
                eq_refl Hmeta) as (_ & Hgz & _).
    exact (Hgz eq_refl).
  - exists (set_single_source true (set_source_format (Some "docx") Fixture.docx_state)).
    assert (Hmeta :
              maybe_update_metadata (Fixture.env Fixture.unreachable) Fixture.docx_fs
                                    Fixture.docx_state
              = Ok (set_single_source true
                      (set_source_format (Some "docx") Fixture.docx_state)))
      by (vm_compute; reflexivity).
    split; [exact Hmeta|]. split; [reflexivity|].
    destruct (resolved_source_format
                (Fixture.env Fixture.unreachable) Fixture.docx_fs Fixture.docx_state _
                eq_refl Hmeta) as (_ & _ & _ & _ & _ & _ & Hother & _).
    refine (Hother ".docx" eq_refl _).
    intros [H|[H|[H|[H|[H|[]]]]]]; discriminate H.
Defined.

(** ** The extension of the source *)

Lemma format_from_src_ext_src_ext (self self' : SubmissionFilesState) :
  format_from_src_ext self = Ok self' →
  src_ext self' = src_ext self ∧ ext_candidates self' = ext_candidates self
  ∧ source_flags self' = source_flags self ∧ top_levels self' = top_levels self.
Proof.
  destruct (format_from_src_ext_returns self) as (fmt & -> & _).
  intros [= <-]. repeat split.
Qed.

Lemma scan_source_type_src_ext (code : string) (self self' : SubmissionFilesState) :
  scan_source_type code self = Ok self' →
  src_ext self' = src_ext self ∧ ext_candidates self' = ext_candidates self
  ∧ source_flags self' = source_flags self ∧ top_levels self' = top_levels self.
Proof.
  destruct (scan_source_type_cases code self) as [[_ ->] | [_ ->]]; [|discriminate].
  intros [= <-]. repeat split.
Qed.

Lemma probe_src_ext_keeps (env : Env) (fs : FileSystem) (self : SubmissionFilesState) :
  ext_candidates (probe_src_ext env fs self) = ext_candidates self
  ∧ source_flags (probe_src_ext env fs self) = source_flags self
  ∧ top_levels (probe_src_ext env fs self) = top_levels self.
Proof.
  unfold probe_src_ext. destruct (negb _); [|repeat split].
  destruct (List.find _ _); repeat split.
Qed.

(** What the metadata update leaves of the state it is given. *)
Lemma maybe_update_metadata_keeps (env : Env) (fs : FileSystem)
      (self self' : SubmissionFilesState) :
  maybe_update_metadata env fs self = Ok self' →
  src_ext self' = src_ext (probe_src_ext env fs self)
  ∧ ext_candidates self' = ext_candidates self
  ∧ source_flags self' = source_flags self
  ∧ top_levels self' = top_levels self.
Proof.
  destruct (probe_src_ext_keeps env fs self) as (Hc & Hf & Ht).
  destruct (Py.truthy (source_format self)) eqn:Hfmt.
  - unfold maybe_update_metadata. cbn zeta.
    rewrite probe_src_ext_source_format, Hfmt. intros [= <-]. auto.
  - rewrite (maybe_update_metadata_steps env fs self Hfmt).
    destruct (last_source_type _) as [[code|]|]; [| discriminate |].
    + destruct (scan_source_type code _) as [scanned|] eqn:Hscan; [|discriminate].
      intros Hformat.
      destruct (scan_source_type_src_ext _ _ _ Hscan) as (H1 & H2 & H3 & H4).
      destruct (format_from_src_ext_src_ext _ _ Hformat) as (H5 & H6 & H7 & H8).
      repeat split; congruence.
    + intros Hformat.
      destruct (format_from_src_ext_src_ext _ _ Hformat) as (H5 & H6 & H7 & H8).
      repeat split; congruence.
Qed.

Lemma file_state_of_candidates (env : Env) (d : SubmissionData)
      (self : SubmissionFilesState) :
  file_state_of env d = Ok self →
  src_ext self = d_src_ext d
  ∧ source_flags self = EmptyString
  ∧ (Py.truthy (d_src_ext d) = false → ext_candidates self = submission_exts)
  ∧ (∀ ext, Py.truthy (d_src_ext d) = true → d_src_ext d = Some ext →
            ∃ rest, ext_candidates self = ext :: rest).
Proof.
  unfold file_state_of, SubmissionFilesState_init.
  destruct (try_except _ _) as [[]|]; cbn; [|discriminate].
  destruct (new_Identifier env (d_paper_id d)) as [x|]; cbn; [|discriminate].
  assert (Hcand : ∀ cands : list string,
             cands = match d_src_ext d with
                     | Some ext =>
                         if Py.truthy (d_src_ext d)
                         then ext :: (if Py.str_in ext (tail submission_exts)
                                      then Py.list_remove ext submission_exts
                                      else submission_exts)
                         else submission_exts
                     | None => submission_exts
                     end →
             (Py.truthy (d_src_ext d) = false → cands = submission_exts)
             ∧ (∀ ext, Py.truthy (d_src_ext d) = true → d_src_ext d = Some ext →
                       ∃ rest, cands = ext :: rest)).
  { intros cands ->. split.
    - intros Hf. destruct (d_src_ext d); [rewrite Hf|]; reflexivity.
    - intros ext Ht Hext. rewrite Hext in *. rewrite Ht. eauto. }
  destruct (Identifier.has_version x); cbn.
  - intros [= <-]. cbn. destruct (Hcand _ eq_refl). auto.
  - destruct (new_Identifier env _); cbn; [|discriminate].
    intros [= <-]. cbn. destruct (Hcand _ eq_refl). auto.
Qed.

(** X6.  The extension that a live resolution works with.  A [src_ext]
    given by the message is taken as it is, and the disk is not asked; when
    the message gives none (or an empty one), it is the first of [.tar.gz],
    [.gz], [.pdf], [.html.gz] for which the file exists in the latest
    directory, and it stays absent when none of the four exists. *)
Theorem resolved_src_ext (env : Env) (fs : FileSystem) (d : SubmissionData)
        (self self' : SubmissionFilesState) :
  file_state_of env d = Ok self →
  maybe_update_metadata env fs self = Ok self' →
  src_ext self'
  = if Py.truthy (d_src_ext d) then d_src_ext d
    else match List.find
                 (fun ext =>
                    fs_exists fs ((FTP_PREFIX env +:+ archive self +:+ "/papers/"
                                   +:+ Identifier.yymm (xid self))
                                  +:+ "/" +:+ Identifier.filename (xid self) +:+ ext))
                 [".tar.gz"; ".gz"; ".pdf"; ".html.gz"] with
         | Some ext => Some ext
         | None => d_src_ext d
         end.
Proof.
  intros Hinit Hmeta.
  destruct (file_state_of_candidates _ _ _ Hinit) as (Hext & _ & Hcands & _).
  destruct (maybe_update_metadata_keeps _ _ _ _ Hmeta) as (-> & _).
  unfold probe_src_ext. rewrite Hext.
  destruct (Py.truthy (d_src_ext d)) eqn:Hgiven; cbn [negb]; [exact Hext|].
  rewrite (Hcands eq_refl). unfold submission_exts, source_path, latest_dir.
  destruct (List.find _ _); [reflexivity | exact Hext].
Qed.

Lemma resolved_src_ext_witness :
  src_ext (set_source_format
             (Some "pdftex")
             (set_single_source true (set_src_ext (Some ".gz") Fixture.bare_state)))
  = Some ".gz".
Proof.
  refine (resolved_src_ext (Fixture.env Fixture.unreachable) Fixture.pdftex_fs
                           Fixture.bare_event Fixture.bare_state _ _ _).
  - vm_compute. reflexivity.
  - vm_compute. reflexivity.
Defined.

(** ** A live submission with no source *)

Lemma is_removed_keeps (env : Env) (fs : FileSystem) (self : SubmissionFilesState) :
  src_ext (snd (is_removed env fs self)) = src_ext self
  ∧ source_format (snd (is_removed env fs self)) = source_format self
  ∧ ext_candidates (snd (is_removed env fs self)) = ext_candidates self
  ∧ source_flags (snd (is_removed env fs self)) = source_flags self.
Proof.
  unfold is_removed, get_tgz_top_levels.
  destruct (top_levels self); [|repeat split].
  destruct (fs_exists fs _); [|repeat split].
  destruct (fs_tar_getnames fs _); repeat split.
Qed.

(** X7.  A submission that is neither removed nor ignored, for which the
    message names no [src_ext] and the latest directory holds no source
    file under any candidate extension, never gets an expected set:
    [get_expected_files] raises, [AssertionError] from
    [assert(self.src_ext)] unless reading the abstract raised before. *)
Theorem live_submission_without_source_raises (env : Env) (fs : FileSystem)
        (self : SubmissionFilesState) :
  fst (is_removed env fs self) = false →
  is_ignored env fs self = Ok false →
  Py.truthy (src_ext self) = false →
  (∀ ext, In ext (ext_candidates self) → fs_exists fs (source_path env self ext) = false) →
  ∃ e, get_expected_files env fs self = Raise e
       ∧ (e = AssertionError ∨ e = TypeError ∨ e = AttributeError).
Proof.
  intros Hlive Hnot_ignored Hno_ext Hno_file.
  pose proof (is_removed_same env fs self) as Hsame.
  destruct (is_removed_keeps env fs self) as (Hext1 & _ & Hcands1 & _).
  unfold get_expected_files, current_entries. cbn zeta.
  destruct (is_removed env fs self) as [removed self1]. cbn [fst snd] in *. subst removed.
  rewrite <- (is_ignored_same_paper env fs self self1 Hsame), Hnot_ignored. cbn.
  destruct (maybe_update_metadata env fs self1) as [self2|e] eqn:Hmeta; cbn.
  - exists AssertionError. split; [|auto].
    destruct (maybe_update_metadata_keeps _ _ _ _ Hmeta) as (Hext2 & _).
    assert (Hprobe : probe_src_ext env fs self1 = self1).
    { unfold probe_src_ext. rewrite Hext1, Hno_ext. cbn [negb].
      rewrite Hcands1.
      destruct (List.find _ _) as [ext|] eqn:Hfind; [|reflexivity].
      apply List.find_some in Hfind as [Hin Hex].
      destruct (same_paper_paths env self self1 Hsame) as (Hsp & _).
      rewrite <- Hsp, (Hno_file ext Hin) in Hex. discriminate. }
    rewrite Hprobe, Hext1 in Hext2.
    unfold is_tex_submission. rewrite Hext2, Hno_ext. reflexivity.
  - exists e. split; [reflexivity|].
    destruct (maybe_update_metadata_exn _ _ _ _ Hmeta) as [-> | ->]; auto.
Qed.

Lemma live_submission_without_source_raises_witness :
  ∃ e, get_expected_files (Fixture.env Fixture.unreachable) Fixture.abs_only_fs
                          Fixture.bare_state = Raise e
       ∧ (e = AssertionError ∨ e = TypeError ∨ e = AttributeError).
Proof.
  apply (live_submission_without_source_raises
           (Fixture.env Fixture.unreachable) Fixture.abs_only_fs Fixture.bare_state).
  - reflexivity.
  - reflexivity.
  - reflexivity.
  - intros ext Hin. cbn in Hin.
    destruct Hin as [<- | [<- | [<- | [<- | []]]]]; reflexivity.
Defined.

(** ** The layout of the expected set *)

Lemma cache_entries_cases (env : Env) (self : SubmissionFilesState) (cache : list entry) :
  cache_entries env self cache →
  cache = [mkEntry pdf_cache (CitPath (ps_cache_pdf_file env self)) current]
  ∨ cache = [mkEntry html_cache (CitBoundMethod "html_file") current]
  ∨ cache = [].
Proof. intros []; auto. Qed.

(** X8.  Every expected set has the same layout: first the current
    abstract, then one current submission, then at most one cache entry,
    then the obsolete entries, none or two; so it has between two and five
    entries, exactly one current abstract and exactly one current
    submission, and each entry's key is [path_to_bucket_key] of its
    ["cit"]. *)
Theorem expected_set_layout (env : Env) (fs : FileSystem)
        (self self' : SubmissionFilesState) (files : list file_entry) :
  get_expected_files env fs self = Ok (files, self') →
  (∃ p cache,
      map fe_entry files
      = mkEntry abstract (CitPath (source_path env self ".abs")) current
        :: mkEntry submission (CitPath p) current
        :: cache ++ with_status obsolete files
      ∧ (length cache ≤ 1)%nat
      ∧ Forall (fun e => e_status e = current
                         ∧ (e_type e = pdf_cache ∨ e_type e = html_cache)) cache
      ∧ entries_of submission current files = [mkEntry submission (CitPath p) current])
  ∧ entries_of abstract current files
    = [mkEntry abstract (CitPath (source_path env self ".abs")) current]
  ∧ (length (with_status obsolete files) = 0 ∨ length (with_status obsolete files) = 2)%nat
  ∧ (2 ≤ length files ≤ 5)%nat
  ∧ Forall (fun f => path_to_bucket_key env (cit f) = Some (gcp f)) files.
Proof.
  intros Hfiles.
  rewrite (with_status_obsolete _ _ _ _ _ Hfiles).
  destruct (get_expected_files_entries _ _ _ _ _ Hfiles) as (entries & Hcur & Hmap & Hkeys).
  rewrite !(entries_of_current _ _ _ _ _ _ _ Hfiles Hcur).
  assert (Hobs : (length (obsolete_entries env fs self') = 0
                  ∨ length (obsolete_entries env fs self') = 2)%nat).
  { unfold obsolete_entries. destruct (opt_str_in _ _); auto. }
  assert (Hlen : length files
                 = (length entries + length (obsolete_entries env fs self'))%nat).
  { rewrite <- (length_map fe_entry files), Hmap. apply length_app. }
  rewrite Hmap. apply current_entries_shape in Hcur.
  assert (Hrest : ∀ p cache,
             entries = mkEntry abstract (CitPath (source_path env self ".abs")) current
                       :: mkEntry submission (CitPath p) current :: cache →
             (length cache ≤ 1)%nat →
             Forall (fun e => e_status e = current
                              ∧ (e_type e = pdf_cache ∨ e_type e = html_cache)) cache →
             (∃ p cache,
                 entries ++ obsolete_entries env fs self'
                 = mkEntry abstract (CitPath (source_path env self ".abs")) current
                   :: mkEntry submission (CitPath p) current
                   :: cache ++ obsolete_entries env fs self'
                 ∧ (length cache ≤ 1)%nat
                 ∧ Forall (fun e => e_status e = current
                                    ∧ (e_type e = pdf_cache ∨ e_type e = html_cache)) cache
                 ∧ List.filter
                     (fun e => bool_decide (e_type e = submission ∧ e_status e = current))
                     entries
                   = [mkEntry submission (CitPath p) current])
             ∧ List.filter
                 (fun e => bool_decide (e_type e = abstract ∧ e_status e = current))
                 entries
               = [mkEntry abstract (CitPath (source_path env self ".abs")) current]
             ∧ (length (obsolete_entries env fs self') = 0
                ∨ length (obsolete_entries env fs self') = 2)%nat
             ∧ (2 ≤ length files ≤ 5)%nat
             ∧ Forall (fun f => path_to_bucket_key env (cit f) = Some (gcp f)) files).
  { intros p cache -> Hshort Hcache.
    assert (Hnone : ∀ t, t = abstract ∨ t = submission →
                         List.filter
                           (fun e => bool_decide (e_type e = t ∧ e_status e = current))
                           cache = []).
    { intros t Ht. apply filter_none. eapply Forall_impl; [exact Hcache|].
      intros e [_ He]. apply bool_decide_eq_false. intros [Hty _].
      destruct Ht, He; congruence. }
    cbn [length] in Hlen.
    split; [|split; [|split; [exact Hobs | split; [lia | exact Hkeys]]]].
    - exists p, cache. split; [reflexivity|]. split; [exact Hshort|].
      split; [exact Hcache|].
      cbn. rewrite (Hnone submission) by auto. reflexivity.
    - cbn. rewrite (Hnone abstract) by auto. reflexivity. }
  destruct Hcur as [_ _ | _ _ _ | cache _ _ _ Hcache].
  - eapply (Hrest _ []); [reflexivity | cbn; lia | constructor].
  - eapply (Hrest _ []); [reflexivity | cbn; lia | constructor].
  - apply cache_entries_cases in Hcache as [-> | [-> | ->]].
    + eapply (Hrest _ [_]); [reflexivity | cbn; lia |].
      apply Forall_cons. split; [cbn; auto | constructor].
    + eapply (Hrest _ [_]); [reflexivity | cbn; lia |].
      apply Forall_cons. split; [cbn; auto | constructor].
    + eapply (Hrest _ []); [reflexivity | cbn; lia | constructor].
Qed.

Lemma expected_set_layout_witness :
  entries_of abstract current Fixture.rep_files
  = [mkEntry abstract (CitPath "/data/ftp/arxiv/papers/1208/1208.9998.abs") current]
  ∧ (2 ≤ length Fixture.rep_files ≤ 5)%nat.
Proof.
  destruct (expected_set_layout
              (Fixture.env Fixture.unreachable) Fixture.pdf_fs Fixture.rep_state _ _
              (proj2 rep_files_are_expected)) as (_ & Habs & _ & Hlen & _).
  split; [exact Habs | exact Hlen].
Defined.

(** ** The cache entries *)

(** X9.  A live submission whose resolved format is [tex] or [pdftex] has
    exactly one cache entry, the current [pdf-cache] entry at the rendered
    PDF of the versioned id under the ps-cache prefix, and no [html-cache]
    entry; a removed or an ignored submission has no cache entry of either
    kind. *)
Theorem pdf_cache_entry_of_tex_submission (env : Env) (fs : FileSystem)
        (self self' : SubmissionFilesState) (files : list file_entry) :
  get_expected_files env fs self = Ok (files, self') →
  (fst (is_removed env fs self) = false → is_ignored env fs self = Ok false →
   source_format self' = Some "tex" ∨ source_format self' = Some "pdftex" →
   entries_of pdf_cache current files
   = [mkEntry pdf_cache
              (CitPath (PS_CACHE_PREFIX env +:+ archive self +:+ "/pdf/"
                        +:+ Identifier.yymm (xid self) +:+ "/"
                        +:+ Identifier.idv (vxid self) +:+ ".pdf"))
              current]
   ∧ entries_of html_cache current files = [])
  ∧ (fst (is_removed env fs self) = true ∨ is_ignored env fs self = Ok true →
     entries_of pdf_cache current files = []
     ∧ entries_of html_cache current files = []).
Proof.
  intros Hfiles.
  destruct (get_expected_files_entries _ _ _ _ _ Hfiles) as (entries & Hcur & _).
  rewrite !(entries_of_current _ _ _ _ _ _ _ Hfiles Hcur).
  pose proof (current_entries_same _ _ _ _ _ Hcur) as Hsame.
  destruct (same_paper_paths env self self' Hsame) as (_ & _ & _ & _ & Hpdf).
  apply current_entries_shape in Hcur. split.
  - intros Hlive Hnot_ignored Htex.
    destruct Hcur as [Hyes _ | _ Hign _ | cache _ _ _ Hcache]; [congruence ..|].
    destruct Hcache as [_ | Hnot Hhtml | Hnot _].
    + rewrite <- Hpdf. split; reflexivity.
    + exfalso. unfold is_tex_submission in Hnot.
      destruct (negb (Py.truthy (src_ext self'))); [discriminate|].
      destruct (negb (Py.truthy (source_format self'))); [discriminate|].
      destruct Htex as [Hf | Hf]; rewrite Hf in Hnot; discriminate.
    + exfalso. unfold is_tex_submission in Hnot.
      destruct (negb (Py.truthy (src_ext self'))); [discriminate|].
      destruct (negb (Py.truthy (source_format self'))); [discriminate|].
      destruct Htex as [Hf | Hf]; rewrite Hf in Hnot; discriminate.
  - intros Hgone.
    destruct Hcur as [_ _ | _ _ _ | cache Hlive Hnot_ignored _ _].
    + split; reflexivity.
    + split; reflexivity.
    + destruct Hgone; congruence.
Qed.

Lemma pdf_cache_entry_of_tex_submission_witness :
  entries_of pdf_cache current Fixture.tex_files
  = [mkEntry pdf_cache (CitPath "/cache/ps_cache/arxiv/pdf/1208/1208.9998v1.pdf") current]
  ∧ entries_of html_cache current Fixture.tex_files = [].
Proof.
  refine (proj1 (pdf_cache_entry_of_tex_submission
                   (Fixture.env Fixture.unreachable) Fixture.tex_fs Fixture.tex_state _ _
                   (proj2 tex_files_are_expected)) _ _ _).
  - reflexivity.
  - reflexivity.
  - left. reflexivity.
Defined.

(** ** Payloads *)

(** [to_payloads] returns, in the order of the expected set, each
    entry's ["cit"] with the key that [path_to_bucket_key] gives for it,
    and it raises exactly when [get_expected_files] does. *)
Theorem to_payloads_pairs (env : Env) (fs : FileSystem) (self : SubmissionFilesState) :
  match to_payloads env fs self with
  | Ok (pairs, self') =>
      ∃ files, get_expected_files env fs self = Ok (files, self')
               ∧ map fst pairs = map cit files
               ∧ Forall (fun p => path_to_bucket_key env (fst p) = Some (snd p)) pairs
  | Raise e => get_expected_files env fs self = Raise e
  end.
Proof.
  unfold to_payloads.
  destruct (get_expected_files env fs self) as [[files self']|e] eqn:Hfiles; cbn;
    [|reflexivity].
  exists files. split; [reflexivity|].
  apply get_expected_files_entries in Hfiles as (_ & _ & _ & Hkeys).
  split.
  - rewrite map_map. reflexivity.
  - apply Forall_map. exact Hkeys.
Qed.

(** ** Asking for the expected set again *)

Lemma set_top_levels_same (self : SubmissionFilesState) :
  set_top_levels (top_levels self) self = self.
Proof. destruct self; reflexivity. Qed.

(** The tarball check gives the same answer on a state that carries the
    names it has read. *)
Lemma is_removed_again (env : Env) (fs : FileSystem) (self again : SubmissionFilesState) :
  same_paper (snd (is_removed env fs self)) again →
  top_levels again = top_levels (snd (is_removed env fs self)) →
  is_removed env fs again = (fst (is_removed env fs self), again).
Proof.
  pose proof (is_removed_same env fs self) as Hsame1.
  intros Hsame Htop.
  destruct (same_paper_paths env self again (same_paper_trans _ _ _ Hsame1 Hsame))
    as (_ & _ & Htgz & _).
  revert Hsame Htop. clear Hsame1.
  unfold is_removed, get_tgz_top_levels. rewrite <- Htgz.
  destruct (top_levels self) as [|n ns] eqn:Hself.
  - destruct (fs_exists fs (tgz_source env self)) eqn:Hex.
    + destruct (fs_tar_getnames fs (tgz_source env self)) as [names|] eqn:Hnames;
        cbn [fst snd top_levels set_top_levels]; intros _ Htop; rewrite Htop.
      * destruct names as [|m ms]; [|reflexivity].
        f_equal. rewrite <- Htop. apply set_top_levels_same.
      * rewrite Hself. rewrite ?Htop, ?Hself. reflexivity.
    + cbn [fst snd]. intros _ Htop. rewrite Htop, Hself. rewrite ?Htop, ?Hself.
      reflexivity.
  - cbn [fst snd]. intros _ Htop. rewrite Htop, Hself. rewrite ?Htop, ?Hself. reflexivity.
Qed.

Lemma maybe_update_metadata_resolved (env : Env) (fs : FileSystem)
      (self : SubmissionFilesState) :
  Py.truthy (src_ext self) = true → Py.truthy (source_format self) = true →
  maybe_update_metadata env fs self = Ok self.
Proof.
  intros Hext Hfmt. unfold maybe_update_metadata, probe_src_ext. cbn zeta.
  rewrite Hext. cbn [negb]. rewrite Hfmt. reflexivity.
Qed.

Lemma is_tex_submission_resolved (self : SubmissionFilesState) (b : bool) :
  is_tex_submission self = Ok b →
  Py.truthy (src_ext self) = true ∧ Py.truthy (source_format self) = true.
Proof.
  unfold is_tex_submission.
  destruct (Py.truthy (src_ext self)); [|discriminate].
  destruct (Py.truthy (source_format self)); [|discriminate]. auto.
Qed.

(** The converse of [current_entries_shape]. *)
Lemma current_shape_entries (env : Env) (fs : FileSystem) (self self' : SubmissionFilesState)
      (entries : list entry) :
  current_shape env fs self self' entries →
  current_entries env fs self = Ok (entries, self').
Proof.
  intros Hshape. unfold current_entries. cbn zeta.
  pose proof (is_removed_same env fs self) as Hsame.
  destruct (is_removed env fs self) as [removed self1] eqn:Hrem. cbn [fst snd] in *.
  destruct (same_paper_paths env self self1 Hsame) as (Hsp & _ & Htgz & Hgz & _).
  rewrite <- (is_ignored_same_paper env fs self self1 Hsame).
  destruct Hshape as [Hyes Heq | Hno Hign Heq | cache Hno Hign Hmeta Hcache];
    rewrite Hrem in *; cbn [fst snd] in *; subst.
  - rewrite <- Htgz. reflexivity.
  - rewrite Hign. cbn. rewrite <- Hgz. reflexivity.
  - rewrite Hign. cbn. rewrite Hmeta. cbn.
    pose proof (maybe_update_metadata_same _ _ _ _ Hmeta) as Hsame2.
    destruct (same_paper_paths env self self' (same_paper_trans _ _ _ Hsame Hsame2))
      as (Hsp2 & _).
    rewrite <- Hsp2.
    destruct Hcache as [Htex | Htex Hhtml | Htex Hhtml]; rewrite Htex; cbn;
      rewrite ?Hhtml; reflexivity.
Qed.

Lemma get_expected_files_again (env : Env) (fs : FileSystem)
      (self self' : SubmissionFilesState) (files : list file_entry) :
  get_expected_files env fs self = Ok (files, self') →
  get_expected_files env fs self' = Ok (files, self').
Proof.
  unfold get_expected_files.
  destruct (current_entries env fs self) as [[entries self1]|] eqn:Hcur; cbn;
    [|discriminate].
  destruct (assign_gcp env _) as [files1|] eqn:Hgcp; cbn; [|discriminate].
  intros [= <- <-].
  assert (Hagain : current_entries env fs self1 = Ok (entries, self1)).
  { pose proof (current_entries_same _ _ _ _ _ Hcur) as Hsame.
    destruct (same_paper_paths env self self1 Hsame) as (Hsp & _ & Htgz & Hgz & _).
    pose proof (is_ignored_same_paper env fs self self1 Hsame) as Hign_same.
    apply current_entries_shape in Hcur. apply current_shape_entries.
    destruct Hcur as [Hyes Heq | Hno Hign Heq | cache Hno Hign Hmeta Hcache].
    - assert (Hrem : is_removed env fs self1 = (true, self1)).
      { rewrite <- Hyes. apply is_removed_again; rewrite <- Heq;
          [apply same_paper_refl | reflexivity]. }
      rewrite Hsp, Htgz. apply shape_removed; rewrite Hrem; reflexivity.
    - assert (Hrem : is_removed env fs self1 = (false, self1)).
      { rewrite <- Hno. apply is_removed_again; rewrite <- Heq;
          [apply same_paper_refl | reflexivity]. }
      rewrite Hsp, Hgz. apply shape_ignored; rewrite ?Hrem, <- ?Hign_same; auto.
    - assert (Hrem : is_removed env fs self1 = (false, self1)).
      { rewrite <- Hno. apply is_removed_again.
        - eapply maybe_update_metadata_same. exact Hmeta.
        - apply (maybe_update_metadata_keeps _ _ _ _ Hmeta). }
      assert (Hresolved : Py.truthy (src_ext self1) = true
                          ∧ Py.truthy (source_format self1) = true).
      { destruct Hcache as [Htex | Htex _ | Htex _];
          exact (is_tex_submission_resolved _ _ Htex). }
      rewrite !Hsp. apply shape_live; rewrite ?Hrem, <- ?Hign_same; cbn [fst snd]; auto.
      apply maybe_update_metadata_resolved; apply Hresolved. }
  rewrite Hagain. cbn. rewrite Hgcp. reflexivity.
Qed.

(** X10.  Asking a file state for its expected set a second time, on the
    same filesystem, gives the same set and leaves the state as the first
    call left it.  So [sync_to_gcp], which asks again, reconciles the set
    that its caller was given, as long as the filesystem is the same: on
    the state that the first call left it does what it does on the state
    before.  (Nothing is said across a change of the filesystem, such as
    the one a request to a web node makes between the ensure step's call
    and the callback's.) *)
Theorem expected_files_again (env : Env) (fs : FileSystem)
        (self self' : SubmissionFilesState) (files : list file_entry) :
  get_expected_files env fs self = Ok (files, self') →
  get_expected_files env fs self' = Ok (files, self')
  ∧ ∀ w, w_fs w = fs → sync_to_gcp env self' w = sync_to_gcp env self w.
Proof.
  intros Hfiles. pose proof (get_expected_files_again _ _ _ _ _ Hfiles) as Hagain.
  split; [exact Hagain|]. intros w <-.
  unfold sync_to_gcp, mbind, cmd_bind, cbind, lift, reading_fs.
  rewrite Hfiles, Hagain. reflexivity.
Qed.

Lemma expected_files_again_witness :
  get_expected_files (Fixture.env Fixture.unreachable) Fixture.tex_fs
                     (set_top_levels ["main.tex"] Fixture.tex_state)
  = Ok (Fixture.tex_files, set_top_levels ["main.tex"] Fixture.tex_state).
Proof.
  exact (proj1 (expected_files_again (Fixture.env Fixture.unreachable) Fixture.tex_fs
                                     Fixture.tex_state _ _
                                     (proj2 tex_files_are_expected))).
Defined.

(** ** What a resolution leaves alone *)

(** X11.  A resolution that returns changes the extension, the format,
    the single-source mark and the cached tarball names, and nothing
    else.  In particular [source_flags] is empty in every state that a
    resolution of a message returns: the flags [S], [A] and [B] of an
    abstract are never recorded. *)
Theorem resolution_keeps_the_rest (env : Env) (fs : FileSystem) (d : SubmissionData)
        (self self' : SubmissionFilesState) (files : list file_entry) :
  file_state_of env d = Ok self →
  get_expected_files env fs self = Ok (files, self') →
  source_flags self' = EmptyString
  ∧ ext_candidates self' = ext_candidates self
  ∧ xid self' = xid self ∧ vxid self' = vxid self ∧ archive self' = archive self
  ∧ publish_type self' = d_type d ∧ version self' = version self
  ∧ prev_version self' = prev_version self.
Proof.
  intros Hinit Hfiles.
  destruct (file_state_of_candidates _ _ _ Hinit) as (_ & Hflags & _).
  destruct (file_state_of_fresh _ _ _ Hinit) as (_ & Hpt & _).
  pose proof (get_expected_files_same _ _ _ _ _ Hfiles) as (Hx & Hv & Ha & Hp & Hver & Hprev).
  destruct (get_expected_files_entries _ _ _ _ _ Hfiles) as (entries & Hcur & _).
  destruct (is_removed_keeps env fs self) as (_ & _ & Hcands1 & Hflags1).
  assert (Hkept : source_flags self' = source_flags self
                  ∧ ext_candidates self' = ext_candidates self).
  { apply current_entries_shape in Hcur.
    destruct Hcur as [_ -> | _ _ -> | cache _ _ Hmeta _]; [auto | auto |].
    destruct (maybe_update_metadata_keeps _ _ _ _ Hmeta) as (_ & Hc & Hf & _).
    split; congruence. }
  destruct Hkept as [Hf Hc].
  repeat split; congruence.
Qed.

Lemma resolution_keeps_the_rest_witness :
  source_flags (set_single_source true (set_source_format (Some "pdf") Fixture.rep_state))
  = EmptyString.
Proof.
  exact (proj1 (resolution_keeps_the_rest
                  (Fixture.env Fixture.unreachable) Fixture.pdf_fs Fixture.rep_event
                  Fixture.rep_state _ _
                  (proj1 rep_files_are_expected) (proj2 rep_files_are_expected))).
Defined.

(** ** The ensure step and the web nodes *)

(** The expected set as a list: abstract, submission, at most one cache
    entry (the PDF as a path, the HTML as the method object), then entries
    that are abstracts and submissions. *)
Lemma expected_files_split (env : Env) (fs : FileSystem)
      (self self' : SubmissionFilesState) (files : list file_entry) :
  get_expected_files env fs self = Ok (files, self') →
  ∃ f1 f2 fcache frest,
    files = f1 :: f2 :: fcache ++ frest
    ∧ fe_type f1 = abstract ∧ fe_type f2 = submission
    ∧ Forall (fun f => fe_type f = abstract ∨ fe_type f = submission) frest
    ∧ (fcache = []
       ∨ ∃ f, fcache = [f]
              ∧ ((fe_type f = pdf_cache ∧ cit f = CitPath (ps_cache_pdf_file env self'))
                 ∨ (fe_type f = html_cache ∧ cit f = CitBoundMethod "html_file"))).
Proof.
  intros Hfiles.
  destruct (get_expected_files_entries _ _ _ _ _ Hfiles) as (entries & Hcur & Hmap & _).
  assert (Hobs : Forall (fun x => e_type x = abstract ∨ e_type x = submission)
                        (obsolete_entries env fs self')).
  { unfold obsolete_entries. destruct (opt_str_in _ _); [|constructor].
    constructor; [left; reflexivity|]. constructor; [|constructor].
    destruct (List.find _ _); right; reflexivity. }
  assert (Hshape : ∃ a b cache,
             entries = a :: b :: cache
             ∧ e_type a = abstract ∧ e_type b = submission
             ∧ (cache = []
                ∨ cache = [mkEntry pdf_cache (CitPath (ps_cache_pdf_file env self')) current]
                ∨ cache = [mkEntry html_cache (CitBoundMethod "html_file") current])).
  { apply current_entries_shape in Hcur.
    destruct Hcur as [| |cache _ _ _ Hcache].
    - do 3 eexists. repeat split. auto.
    - do 3 eexists. repeat split. auto.
    - apply cache_entries_cases in Hcache.
      do 3 eexists. split; [reflexivity|]. repeat split. tauto. }
  destruct Hshape as (a & b & cache & -> & Ha & Hb & Hcache).
  destruct files as [|f1 [|f2 files]]; try discriminate.
  cbn in Hmap. injection Hmap as <- <- Hmap.
  apply map_eq_app in Hmap as (fcache & frest & -> & Hfc & Hfr).
  exists f1, f2, fcache, frest. split; [reflexivity|]. split; [exact Ha|].
  split; [exact Hb|]. split.
  - rewrite <- Hfr in Hobs. rewrite Forall_map in Hobs. exact Hobs.
  - destruct Hcache as [-> | [-> | ->]].
    + left. destruct fcache; [reflexivity | discriminate].
    + right. destruct fcache as [|f [|]]; try discriminate.
      injection Hfc as Hf. exists f. split; [reflexivity|]. left.
      unfold fe_type, cit. rewrite Hf. auto.
    + right. destruct fcache as [|f [|]]; try discriminate.
      injection Hfc as Hf. exists f. split; [reflexivity|]. right.
      unfold fe_type, cit. rewrite Hf. auto.
Qed.

Lemma select_webnode_some (env : Env) (my_tag : Z) :
  CONCURRENCY_PER_WEBNODE env ≠ [] →
  ∃ host n_para, select_webnode env my_tag = Some (host, n_para).
Proof.
  intros Hne. unfold select_webnode.
  destruct (CONCURRENCY_PER_WEBNODE env
              !! Z.to_nat (Z.min (Z.of_nat (length (CONCURRENCY_PER_WEBNODE env)) - 1)
                                 (Z.max 0 my_tag))) as [[host n_para]|] eqn:Hlook.
  - eauto.
  - exfalso. apply lookup_ge_None in Hlook.
    destruct (CONCURRENCY_PER_WEBNODE env); [contradiction|]. cbn [length] in Hlook. lia.
Qed.

(** What one cache entry of the expected set does to the world. *)
Lemma ensure_cache_entry (env : Env) (my_tag : Z) (file_state : SubmissionFilesState)
      (f : file_entry) (w : World) :
  (fe_type f = pdf_cache ∧ ∃ p, cit f = CitPath p)
  ∨ (fe_type f = html_cache ∧ cit f = CitBoundMethod "html_file") →
  let '(r, w') := ensure_entry env my_tag file_state f w in
  w_bucket w' = w_bucket w ∧ w_ops w' = w_ops w ∧ w_replies w' = w_replies w
  ∧ ((w' = w
      ∧ (r = Ok tt → ∃ p, cit f = CitPath p ∧ fs_exists (w_fs w) p = true))
     ∨ (∃ host n_para,
           select_webnode env my_tag = Some (host, n_para)
           ∧ w_requests w' = ("pdf", host) :: w_requests w
           ∧ WEBNODE_REQUEST_COUNT w'
             = (WEBNODE_REQUEST_COUNT w + 1)
                 mod Z.of_nat (length (CONCURRENCY_PER_WEBNODE env)))).
Proof.
  intros [[Htype (p & Hcit)] | [Htype Hcit]];
    unfold ensure_entry, mbind, cmd_bind, cbind, lift, path_exists, reading_fs;
    rewrite Htype, Hcit; cbn [as_path].
  - destruct (decide (pdf_cache = pdf_cache)) as [_|]; [|contradiction].
    destruct (decide (pdf_cache = html_cache)) as [|_]; [discriminate|].
    destruct (fs_exists (w_fs w) p) eqn:Hpresent; cbn [negb].
    + cbn. rewrite Hpresent. cbn. repeat split. left. split; [reflexivity|]. eauto.
    + unfold ask_webnode_for.
      destruct (Z.of_nat (length (CONCURRENCY_PER_WEBNODE env)) =? 0) eqn:Hn.
      * repeat split. left. split; [reflexivity | discriminate].
      * destruct (select_webnode_some env my_tag) as (host & n_para & Hhost).
        { intros Hnil. rewrite Hnil in Hn. discriminate. }
        rewrite Hhost.
        destruct (ensure_pdf env _ host (vxid file_state) (protocol_for host))
          as [[err|] fs'] eqn:Hensure.
        -- repeat split. right. exists host, n_para. repeat split.
        -- cbn [w_fs add_request set_fs].
           destruct (fs_exists fs' p); cbn; repeat split; right; exists host, n_para;
             repeat split.
  - destruct (decide (html_cache = pdf_cache)) as [|_]; [discriminate|].
    destruct (decide (html_cache = html_cache)) as [_|]; [|contradiction].
    repeat split. left. split; [reflexivity | discriminate].
Qed.

Lemma ensure_entry_present (env : Env) (my_tag : Z) (file_state : SubmissionFilesState)
      (f : file_entry) (p : string) (w : World) :
  fe_type f = pdf_cache → cit f = CitPath p → fs_exists (w_fs w) p = true →
  ensure_entry env my_tag file_state f w = (Ok tt, w).
Proof.
  intros Htype Hcit Hpresent.
  unfold ensure_entry, mbind, cmd_bind, cbind, lift, path_exists, reading_fs.
  rewrite Htype, Hcit. cbn [as_path].
  destruct (decide (pdf_cache = pdf_cache)) as [_|]; [|contradiction].
  destruct (decide (pdf_cache = html_cache)) as [|_]; [discriminate|].
  rewrite Hpresent. cbn. rewrite Hpresent. reflexivity.
Qed.

(** X12.  The common case costs nothing: when the expected set has no
    cache entry, or its PDF is already in the cache, the ensure step
    returns the file state without a request to a web node: the world is
    as it was. *)
Theorem ensure_step_with_the_file_present (env : Env) (d : SubmissionData) (w : World)
        (self self' : SubmissionFilesState) (files : list file_entry) :
  file_state_of env d = Ok self →
  get_expected_files env (w_fs w) self = Ok (files, self') →
  (∀ f, In f files → fe_type f = pdf_cache ∨ fe_type f = html_cache →
        ∃ p, cit f = CitPath p ∧ fs_exists (w_fs w) p = true) →
  submission_message_to_file_state env d true w = (Ok self', w).
Proof.
  intros Hinit Hfiles Hpresent.
  destruct (expected_files_split _ _ _ _ _ Hfiles)
    as (f1 & f2 & fcache & frest & -> & H1 & H2 & Hrest & Hcache).
  unfold submission_message_to_file_state, mbind, cmd_bind, cbind, lift, reading_fs.
  fold (file_state_of env d). rewrite Hinit, Hfiles.
  cbn [ensure_entries]. unfold mbind, cmd_bind, cbind.
  rewrite ensure_entry_skips by (left; exact H1).
  rewrite ensure_entry_skips by (right; exact H2).
  destruct Hcache as [-> | (f & -> & Hf)].
  - cbn [app]. rewrite ensure_entries_skip by exact Hrest. reflexivity.
  - cbn [app ensure_entries]. unfold mbind, cmd_bind, cbind.
    destruct (Hpresent f) as (p & Hcit & Hex).
    { right. right. left. reflexivity. }
    { destruct Hf as [[Ht _] | [Ht _]]; auto. }
    destruct Hf as [[Ht _] | [_ Hmethod]]; [|congruence].
    rewrite (ensure_entry_present _ _ _ _ _ _ Ht Hcit Hex).
    rewrite ensure_entries_skip by exact Hrest. reflexivity.
Qed.

Lemma rendered_files_are_expected :
  get_expected_files (Fixture.env Fixture.unreachable) Fixture.rendered_fs Fixture.tex_state
  = Ok (Fixture.tex_files, set_top_levels ["main.tex"] Fixture.tex_state).
Proof. vm_compute. reflexivity. Qed.

Lemma ensure_step_with_the_file_present_witness :
  submission_message_to_file_state (Fixture.env Fixture.unreachable) Fixture.tex_event true
                                   (Fixture.world Fixture.rendered_fs ∅)
  = (Ok (set_top_levels ["main.tex"] Fixture.tex_state),
     Fixture.world Fixture.rendered_fs ∅).
Proof.
  apply (ensure_step_with_the_file_present
           (Fixture.env Fixture.unreachable) Fixture.tex_event
           (Fixture.world Fixture.rendered_fs ∅) Fixture.tex_state _ Fixture.tex_files).
  - vm_compute. reflexivity.
  - exact rendered_files_are_expected.
  - intros f [<- | [<- | [<- | []]]] [Ht | Ht]; try discriminate Ht.
    exists "/cache/ps_cache/arxiv/pdf/1208/1208.9998v1.pdf". split; reflexivity.
Defined.

(** What the ensure step does to the world, whatever it returns. *)
Lemma ensure_step_effect (env : Env) (d : SubmissionData) (w : World) :
  let '(r, w') := submission_message_to_file_state env d true w in
  w_bucket w' = w_bucket w ∧ w_ops w' = w_ops w ∧ w_replies w' = w_replies w
  ∧ (w' = w
     ∨ ∃ host n_para,
         select_webnode env (WEBNODE_REQUEST_COUNT w) = Some (host, n_para)
         ∧ w_requests w' = ("pdf", host) :: w_requests w
         ∧ WEBNODE_REQUEST_COUNT w'
           = (WEBNODE_REQUEST_COUNT w + 1)
               mod Z.of_nat (length (CONCURRENCY_PER_WEBNODE env))).
Proof.
  unfold submission_message_to_file_state, mbind, cmd_bind, cbind, lift, reading_fs.
  destruct (SubmissionFilesState_init env _ _ _ _ _) as [self|e]; [|cbv beta iota; repeat split; auto].
  destruct (get_expected_files env (w_fs w) self) as [[files self']|e] eqn:Hfiles;
    [|cbv beta iota; repeat split; auto].
  destruct (expected_files_split _ _ _ _ _ Hfiles)
    as (f1 & f2 & fcache & frest & -> & H1 & H2 & Hrest & Hcache).
  cbn [ensure_entries]. unfold mbind, cmd_bind, cbind.
  rewrite ensure_entry_skips by (left; exact H1).
  rewrite ensure_entry_skips by (right; exact H2).
  destruct Hcache as [-> | (f & -> & Hf)].
  - cbn [app]. rewrite ensure_entries_skip by exact Hrest.
    cbv beta iota. repeat split; auto.
  - cbn [app ensure_entries]. unfold mbind, cmd_bind, cbind.
    pose proof (ensure_cache_entry env (WEBNODE_REQUEST_COUNT w) self' f w) as Hentry.
    destruct (ensure_entry env (WEBNODE_REQUEST_COUNT w) self' f w) as [[[]|e] w1].
    + rewrite ensure_entries_skip by exact Hrest.
      destruct Hentry as (Hb & Ho & Hr & Hreq).
      { destruct Hf as [[Ht Hc] | [Ht Hc]]; eauto. }
      repeat split; try assumption. destruct Hreq as [[-> _] | Hreq]; auto.
    + destruct Hentry as (Hb & Ho & Hr & Hreq).
      { destruct Hf as [[Ht Hc] | [Ht Hc]]; eauto. }
      repeat split; try assumption. destruct Hreq as [[-> _] | Hreq]; auto.
Qed.

(** X13.  The ensure step asks the web nodes at most once per message, and
    only for a PDF: [ensure_html] is never called, since the ["cit"] of an
    [html-cache] entry is no path.  A request goes to the host that the
    counter selected when the step began and moves the counter one on,
    modulo the number of hosts.  The step never touches the bucket and
    never replies to the message. *)
Theorem ensure_step_asks_at_most_once (env : Env) (d : SubmissionData) (w : World) :
  let '(r, w') := submission_message_to_file_state env d true w in
  w_bucket w' = w_bucket w ∧ w_ops w' = w_ops w ∧ w_replies w' = w_replies w
  ∧ (w' = w
     ∨ ∃ host n_para,
         select_webnode env (WEBNODE_REQUEST_COUNT w) = Some (host, n_para)
         ∧ w_requests w' = ("pdf", host) :: w_requests w
         ∧ WEBNODE_REQUEST_COUNT w'
           = (WEBNODE_REQUEST_COUNT w + 1)
               mod Z.of_nat (length (CONCURRENCY_PER_WEBNODE env))).
Proof. apply ensure_step_effect. Qed.

(** X14.  With no web node configured, a PDF that is absent makes the
    ensure step raise [ZeroDivisionError], from the counter's modulus, and
    not [MissingGeneratedFile]; nothing is asked and the world is as it
    was. *)
Theorem ensure_step_without_webnodes (env : Env) (d : SubmissionData) (w : World)
        (self self' : SubmissionFilesState) (files : list file_entry) (f : file_entry)
        (p : string) :
  CONCURRENCY_PER_WEBNODE env = [] →
  file_state_of env d = Ok self →
  get_expected_files env (w_fs w) self = Ok (files, self') →
  In f files → fe_type f = pdf_cache → cit f = CitPath p →
  fs_exists (w_fs w) p = false →
  submission_message_to_file_state env d true w = (Raise ZeroDivisionError, w).
Proof.
  intros Hnone Hinit Hfiles Hin Htype Hcit Habsent.
  destruct (expected_files_split _ _ _ _ _ Hfiles)
    as (f1 & f2 & fcache & frest & -> & H1 & H2 & Hrest & Hcache).
  assert (Hf : fcache = [f]).
  { destruct Hin as [<- | [<- | Hin]]; [congruence | congruence |].
    apply in_app_or in Hin as [Hin | Hin].
    - destruct Hcache as [-> | (f' & -> & _)]; [destruct Hin|].
      destruct Hin as [<- | []]. reflexivity.
    - rewrite Forall_forall in Hrest. apply list_elem_of_In, Hrest in Hin.
      destruct Hin; congruence. }
  subst fcache.
  unfold submission_message_to_file_state, mbind, cmd_bind, cbind, lift, reading_fs.
  fold (file_state_of env d). rewrite Hinit, Hfiles.
  cbn [app ensure_entries]. unfold mbind, cmd_bind, cbind.
  rewrite ensure_entry_skips by (left; exact H1).
  rewrite ensure_entry_skips by (right; exact H2).
  unfold ensure_entry, mbind, cmd_bind, cbind, lift, path_exists, reading_fs.
  rewrite Htype, Hcit. cbn [as_path].
  destruct (decide (pdf_cache = pdf_cache)) as [_|]; [|contradiction].
  rewrite Habsent. cbn [negb]. unfold ask_webnode_for. rewrite Hnone. reflexivity.
Qed.

Lemma ensure_step_without_webnodes_witness :
  submission_message_to_file_state Fixture.env_without_webnodes Fixture.tex_event true
                                   (Fixture.world Fixture.tex_fs ∅)
  = (Raise ZeroDivisionError, Fixture.world Fixture.tex_fs ∅).
Proof.
  apply (ensure_step_without_webnodes
           Fixture.env_without_webnodes Fixture.tex_event (Fixture.world Fixture.tex_fs ∅)
           Fixture.tex_state (set_top_levels ["main.tex"] Fixture.tex_state)
           Fixture.tex_files Fixture.tex_pdf_entry
           "/cache/ps_cache/arxiv/pdf/1208/1208.9998v1.pdf").
  - reflexivity.
  - vm_compute. reflexivity.
  - vm_compute. reflexivity.
  - right. right. left. reflexivity.
  - reflexivity.
  - reflexivity.
  - reflexivity.
Defined.

(** X15.  The host index is clamped into the list: with at least one web
    node configured a host is selected for every value of the counter, the
    first for a negative one, the last for one past the end, and the host
    at the counter's own position otherwise; no [IndexError] arises. *)
Theorem select_webnode_clamps (env : Env) (my_tag : Z) :
  CONCURRENCY_PER_WEBNODE env ≠ [] →
  let n := Z.of_nat (length (CONCURRENCY_PER_WEBNODE env)) in
  is_Some (select_webnode env my_tag)
  ∧ (my_tag < 0 → select_webnode env my_tag = CONCURRENCY_PER_WEBNODE env !! 0%nat)
  ∧ (0 ≤ my_tag < n →
     select_webnode env my_tag = CONCURRENCY_PER_WEBNODE env !! Z.to_nat my_tag)
  ∧ (n ≤ my_tag →
     select_webnode env my_tag = last (CONCURRENCY_PER_WEBNODE env)).
Proof.
  intros Hne. cbn zeta. split; [|split; [|split]].
  - destruct (select_webnode_some env my_tag Hne) as (host & n_para & ->). eauto.
  - intros Hneg. unfold select_webnode. f_equal. lia.
  - intros Hin. unfold select_webnode. f_equal. lia.
  - unfold select_webnode. rewrite last_lookup.
    destruct (CONCURRENCY_PER_WEBNODE env) as [|node nodes]; [contradiction|].
    intros Hpast. f_equal. cbn [length] in *. lia.
Qed.

Lemma select_webnode_clamps_witness :
  select_webnode (Fixture.env Fixture.unreachable) 7 = Some ("web2.example.org", 2%nat).
Proof.
  destruct (select_webnode_clamps (Fixture.env Fixture.unreachable) 7) as (_ & _ & _ & Hlast).
  - discriminate.
  - apply Hlast. cbn. lia.
Defined.

(** ** What reconciliation does to the bucket *)

Lemma same_outside_bucket_refl (w : World) : same_outside_bucket w w.
Proof. repeat split. Qed.

Lemma same_outside_bucket_trans (a b c : World) :
  same_outside_bucket a b → same_outside_bucket b c → same_outside_bucket a c.
Proof. intros (?&?&?&?) (?&?&?&?). repeat split; congruence. Qed.

Lemma upload_effect (env : Env) (localpath key : string) (w w' : World) (r : result unit) :
  upload env localpath key w = (r, w') →
  same_outside_bucket w w'
  ∧ (w' = w
     ∨ ∃ content, w_ops w' = OpUpload key (String.length content) :: w_ops w
                  ∧ w_bucket w' = <[key := content]> (w_bucket w)).
Proof.
  unfold upload. destruct (fs_read_bytes (w_fs w) localpath) as [content|].
  - destruct (w_bucket w !! key) as [blob|]; [destruct (unchanged env content blob)|];
      intros [= <- <-]; (split; [repeat split|]); eauto.
  - intros [= <- <-]. split; [repeat split | auto].
Qed.

Lemma upload_present (env : Env) (localpath key : string) (w w' : World) :
  upload env localpath key w = (Ok tt, w') → is_Some (w_bucket w' !! key).
Proof.
  unfold upload. destruct (fs_read_bytes (w_fs w) localpath) as [content|]; [|discriminate].
  destruct (w_bucket w !! key) as [blob|] eqn:Hblob.
  - destruct (unchanged env content blob); intros [= <-]; cbn.
    + rewrite Hblob. eauto.
    + rewrite lookup_insert_eq. eauto.
  - intros [= <-]. cbn. rewrite lookup_insert_eq. eauto.
Qed.

(** Whatever the loop over the expected set returns, it has only written
    expected keys. *)
Lemma sync_entries_effect (env : Env) (desired_state : list file_entry) :
  ∀ (bucket_objects : list string) (w w' : World) (r : result (list string)),
    sync_entries env desired_state bucket_objects w = (r, w') →
    same_outside_bucket w w'
    ∧ (∀ k, ¬ In k (map gcp desired_state) → w_bucket w' !! k = w_bucket w !! k)
    ∧ ∃ new_ops, w_ops w' = new_ops ++ w_ops w
                 ∧ Forall (fun op => ∃ key n, op = OpUpload key n
                                              ∧ In key (map gcp desired_state)) new_ops.
Proof.
  induction desired_state as [|e rest IH]; intros objs w w' r.
  - cbn. intros [= <- <-]. split; [apply same_outside_bucket_refl|].
    split; [auto|]. exists []. split; [reflexivity | constructor].
  - cbn [sync_entries]. unfold mbind, cmd_bind, cbind, lift.
    destruct (as_path (cit e)) as [localpath|err].
    + destruct (upload env localpath (gcp e) w) as [[[]|err] w1] eqn:Hup.
      * apply upload_effect in Hup as (Hsame1 & Hup).
        intros Hrest. apply IH in Hrest as (Hsame & Hframe & new_ops & Hops & Hall).
        split; [eapply same_outside_bucket_trans; eassumption|]. split.
        -- intros k Hk. cbn in Hk. rewrite Hframe by tauto.
           destruct Hup as [-> | (content & _ & ->)]; [reflexivity|].
           apply lookup_insert_ne. intros <-. tauto.
        -- assert (Hall' : Forall (fun op => ∃ key n, op = OpUpload key n
                                                      ∧ In key (map gcp (e :: rest)))
                                  new_ops).
           { eapply Forall_impl; [exact Hall|].
             intros op (key & n & -> & Hin). exists key, n. split; [reflexivity|].
             right. exact Hin. }
           destruct Hup as [-> | (content & Hop & _)].
           ++ exists new_ops. auto.
           ++ exists (new_ops ++ [OpUpload (gcp e) (String.length content)]).
              rewrite Hops, Hop, <- app_assoc. split; [reflexivity|].
              apply Forall_app. split; [exact Hall'|].
              constructor; [|constructor]. exists (gcp e), (String.length content).
              split; [reflexivity | left; reflexivity].
      * apply upload_effect in Hup as (Hsame1 & Hup). intros [= <- <-].
        split; [exact Hsame1|]. split.
        -- intros k Hk. destruct Hup as [-> | (content & _ & ->)]; [reflexivity|].
           apply lookup_insert_ne. intros <-. apply Hk. left. reflexivity.
        -- destruct Hup as [-> | (content & Hop & _)].
           ++ exists []. split; [reflexivity | constructor].
           ++ exists [OpUpload (gcp e) (String.length content)]. split; [exact Hop|].
              constructor; [|constructor]. exists (gcp e), (String.length content).
              split; [reflexivity | left; reflexivity].
    + intros [= <- <-]. split; [apply same_outside_bucket_refl|]. split; [auto|].
      exists []. split; [reflexivity | constructor].
Qed.

(** Whatever the trashing returns, it has only renamed listed objects to
    their trashed names, and it has left every other key alone. *)
Lemma trash_bucket_objects_effect (objects : list string) :
  ∀ (w w' : World) (r : result unit),
    trash_bucket_objects objects w = (r, w') →
    same_outside_bucket w w'
    ∧ (∀ k, ¬ In k objects → (∀ j, In j objects → k ≠ trashed_blob j) →
            w_bucket w' !! k = w_bucket w !! k)
    ∧ (∀ k, ¬ In k objects → is_Some (w_bucket w !! k) → is_Some (w_bucket w' !! k))
    ∧ ∃ new_ops, w_ops w' = new_ops ++ w_ops w
                 ∧ Forall (fun op => ∃ src, op = OpRename src (trashed_blob src)
                                            ∧ In src objects) new_ops.
Proof.
  induction objects as [|obj rest IH]; intros w w' r.
  - cbn. intros [= <- <-]. split; [apply same_outside_bucket_refl|].
    split; [auto|]. split; [auto|]. exists []. split; [reflexivity | constructor].
  - cbn [trash_bucket_objects]. unfold mbind, cmd_bind, cbind.
    unfold rename_blob at 1.
    destruct (w_bucket w !! obj) as [content|].
    + intros Hrest. apply IH in Hrest as (Hsame & Hframe & Hkeep & new_ops & Hops & Hall).
      cbn [w_bucket w_ops set_bucket] in *.
      split; [destruct Hsame as (?&?&?&?); repeat split; assumption|].
      assert (Hrenamed :
                ∀ k, k ≠ obj →
                     (if String.eqb obj (trashed_blob obj)
                      then <[trashed_blob obj := content]> (w_bucket w)
                      else delete obj (<[trashed_blob obj := content]> (w_bucket w))) !! k
                     = <[trashed_blob obj := content]> (w_bucket w) !! k).
      { intros k Hk. destruct (String.eqb obj (trashed_blob obj)); [reflexivity|].
        apply lookup_delete_ne. congruence. }
      split; [|split].
      * intros k Hk Hfresh. rewrite Hframe.
        -- rewrite Hrenamed by (intros ->; apply Hk; left; reflexivity).
           apply lookup_insert_ne. intros Heq. apply (Hfresh obj); [left; reflexivity|].
           symmetry. exact Heq.
        -- intros Hin. apply Hk. right. exact Hin.
        -- intros j Hj. apply Hfresh. right. exact Hj.
      * intros k Hk Hsome. apply Hkeep; [intros Hin; apply Hk; right; exact Hin|].
        rewrite Hrenamed by (intros ->; apply Hk; left; reflexivity).
        destruct (decide (trashed_blob obj = k)) as [->|Hne].
        -- rewrite lookup_insert_eq. eauto.
        -- rewrite lookup_insert_ne by exact Hne. exact Hsome.
      * exists (new_ops ++ [OpRename obj (trashed_blob obj)]).
        rewrite Hops, <- app_assoc. split; [reflexivity|].
        apply Forall_app. split.
        -- eapply Forall_impl; [exact Hall|]. intros op (src & -> & Hin).
           exists src. split; [reflexivity | right; exact Hin].
        -- constructor; [|constructor]. exists obj. split; [reflexivity | left; reflexivity].
    + intros [= <- <-]. split; [apply same_outside_bucket_refl|].
      split; [auto|]. split; [auto|]. exists []. split; [reflexivity | constructor].
Qed.

Lemma sync_entries_present (env : Env) (desired_state : list file_entry) :
  ∀ (bucket_objects : list string) (w w' : World) (remaining : list string),
    sync_entries env desired_state bucket_objects w = (Ok remaining, w') →
    ∀ e, In e desired_state → is_Some (w_bucket w' !! gcp e).
Proof.
  induction desired_state as [|e rest IH]; intros objs w w' remaining; [intros _ e []|].
  cbn [sync_entries]. unfold mbind, cmd_bind, cbind, lift.
  destruct (as_path (cit e)) as [localpath|]; [|discriminate].
  destruct (upload env localpath (gcp e) w) as [[[]|] w1] eqn:Hup; [|discriminate].
  apply upload_present in Hup. intros Hrest e' [<- | Hin].
  - apply sync_entries_spec in Hrest as (_ & _ & Hkeep & _). auto.
  - eapply IH; eassumption.
Qed.

Lemma uploads_are_reconciling (desired_state : list file_entry) (listing : list string)
      (new_ops : list bucket_op) :
  Forall (fun op => ∃ key n, op = OpUpload key n ∧ In key (map gcp desired_state)) new_ops →
  Forall (reconciling_op desired_state listing) new_ops.
Proof.
  intros H. eapply Forall_impl; [exact H|]. intros op (key & n & -> & Hin). exact Hin.
Qed.

(** X16.  Whatever [sync_to_gcp] returns, and also when it raises half
    way, all it has done is write expected keys and move objects that were
    listed under the paper's prefix and are not expected to [trash/]
    followed by their key: it deletes nothing, it renames no expected
    object, and it touches neither the filesystem nor the counter nor the
    message. *)
Theorem reconciliation_only_uploads_and_trashes (env : Env)
        (state state' : SubmissionFilesState) (w w' : World)
        (desired_state : list file_entry) (root_key : string) (r : result unit) :
  get_expected_files env (w_fs w) state = Ok (desired_state, state') →
  path_to_bucket_key env (CitPath (source_path env state EmptyString)) = Some root_key →
  sync_to_gcp env state w = (r, w') →
  same_outside_bucket w w'
  ∧ ∃ new_ops,
      w_ops w' = new_ops ++ w_ops w
      ∧ Forall (reconciling_op desired_state (list_bucket_objects (w_bucket w) root_key))
               new_ops.
Proof.
  intros Hfiles Hkey Hsync.
  rewrite (sync_to_gcp_steps _ _ _ _ _ _ Hfiles Hkey) in Hsync.
  set (listing := list_bucket_objects (w_bucket w) root_key) in *.
  destruct (sync_entries env desired_state listing w) as [[remaining|e] w1] eqn:Hentries.
  - destruct (sync_entries_effect _ _ _ _ _ _ Hentries) as (Hsame & _ & ups & Hups & Hall).
    apply (uploads_are_reconciling _ listing) in Hall.
    destruct (sync_entries_spec _ _ _ _ _ _ Hentries) as (_ & _ & _ & Hobjs).
    destruct (Hobjs (listing_NoDup _ _)) as [_ Hmem].
    destruct remaining as [|obj rest].
    + injection Hsync as <- <-. split; [exact Hsame|]. exists ups. auto.
    + apply trash_bucket_objects_effect in Hsync
        as (Hsame2 & _ & _ & renames & Hren & Hall2).
      split; [eapply same_outside_bucket_trans; eassumption|].
      exists (renames ++ ups). rewrite Hren, Hups, app_assoc. split; [reflexivity|].
      apply Forall_app. split; [|exact Hall].
      eapply Forall_impl; [exact Hall2|]. intros op (src & -> & Hin).
      apply Hmem in Hin as [Hlisted Hunexpected].
      rewrite trashed_blob_prefixed. unfold reconciling_op. auto.
  - injection Hsync as <- <-.
    destruct (sync_entries_effect _ _ _ _ _ _ Hentries) as (Hsame & _ & ups & Hups & Hall).
    split; [exact Hsame|]. exists ups. split; [exact Hups|].
    apply uploads_are_reconciling. exact Hall.
Qed.

Lemma reconciliation_only_uploads_and_trashes_witness :
  let w := Fixture.world Fixture.pdf_fs Fixture.stale_bucket in
  let w' := snd (sync_to_gcp (Fixture.env Fixture.unreachable) Fixture.rep_state w) in
  same_outside_bucket w w'
  ∧ ∃ new_ops,
      w_ops w' = new_ops ++ w_ops w
      ∧ Forall (reconciling_op Fixture.rep_files
                               (list_bucket_objects (w_bucket w)
                                                    "ftp/arxiv/papers/1208/1208.9998"))
               new_ops.
Proof.
  intros w w'.
  refine (reconciliation_only_uploads_and_trashes
            (Fixture.env Fixture.unreachable) Fixture.rep_state
            (set_single_source true (set_source_format (Some "pdf") Fixture.rep_state))
            w w' Fixture.rep_files "ftp/arxiv/papers/1208/1208.9998" (Ok tt) _ _ _).
  - vm_compute. reflexivity.
  - vm_compute. reflexivity.
  - vm_compute. reflexivity.
Defined.

(** X17.  After a reconciliation that completes, every key of the
    expected set is in the bucket. *)
Theorem expected_keys_are_present (env : Env) (state state' : SubmissionFilesState)
        (w w' : World) (desired_state : list file_entry) (root_key : string) :
  get_expected_files env (w_fs w) state = Ok (desired_state, state') →
  path_to_bucket_key env (CitPath (source_path env state EmptyString)) = Some root_key →
  sync_to_gcp env state w = (Ok tt, w') →
  ∀ e, In e desired_state → is_Some (w_bucket w' !! gcp e).
Proof.
  intros Hfiles Hkey Hsync e He.
  rewrite (sync_to_gcp_steps _ _ _ _ _ _ Hfiles Hkey) in Hsync.
  set (listing := list_bucket_objects (w_bucket w) root_key) in *.
  destruct (sync_entries env desired_state listing w) as [[remaining|err] w1] eqn:Hentries;
    [|discriminate].
  pose proof (sync_entries_present _ _ _ _ _ _ Hentries e He) as Hpresent.
  destruct (sync_entries_spec _ _ _ _ _ _ Hentries) as (_ & _ & _ & Hobjs).
  destruct (Hobjs (listing_NoDup _ _)) as [_ Hmem].
  destruct remaining as [|obj rest].
  - injection Hsync as <-. exact Hpresent.
  - apply trash_bucket_objects_effect in Hsync as (_ & _ & Hkeep & _).
    apply Hkeep; [|exact Hpresent].
    intros Hin. apply Hmem in Hin as [_ Hunexpected].
    apply Hunexpected, in_map, He.
Qed.

Lemma expected_keys_are_present_witness :
  let w := Fixture.world Fixture.pdf_fs Fixture.stale_bucket in
  let w' := snd (sync_to_gcp (Fixture.env Fixture.unreachable) Fixture.rep_state w) in
  is_Some (w_bucket w' !! "ftp/arxiv/papers/1208/1208.9998.pdf").
Proof.
  intros w w'.
  refine (expected_keys_are_present
            (Fixture.env Fixture.unreachable) Fixture.rep_state
            (set_single_source true (set_source_format (Some "pdf") Fixture.rep_state))
            w w' Fixture.rep_files "ftp/arxiv/papers/1208/1208.9998" _ _ _
            (mkFileEntry
               (mkEntry submission (CitPath "/data/ftp/arxiv/papers/1208/1208.9998.pdf")
                        current)
               "ftp/arxiv/papers/1208/1208.9998.pdf") _).
  - vm_compute. reflexivity.
  - vm_compute. reflexivity.
  - vm_compute. reflexivity.
  - right. left. reflexivity.
Defined.

(** X18.  Reconciling one paper leaves the rest of the bucket alone:
    whatever [sync_to_gcp] returns, a key that is not expected, is not
    listed under the paper's prefix and is not the trashed name of a listed
    key holds what it held before. *)
Theorem reconciliation_leaves_other_keys_alone (env : Env)
        (state state' : SubmissionFilesState) (w w' : World)
        (desired_state : list file_entry) (root_key : string) (r : result unit)
        (k : string) :
  get_expected_files env (w_fs w) state = Ok (desired_state, state') →
  path_to_bucket_key env (CitPath (source_path env state EmptyString)) = Some root_key →
  sync_to_gcp env state w = (r, w') →
  ¬ In k (map gcp desired_state) →
  ¬ In k (list_bucket_objects (w_bucket w) root_key) →
  (∀ j, In j (list_bucket_objects (w_bucket w) root_key) → k ≠ "trash/" +:+ j) →
  w_bucket w' !! k = w_bucket w !! k.
Proof.
  intros Hfiles Hkey Hsync Hunexpected Hunlisted Hnot_trashed.
  rewrite (sync_to_gcp_steps _ _ _ _ _ _ Hfiles Hkey) in Hsync.
  set (listing := list_bucket_objects (w_bucket w) root_key) in *.
  destruct (sync_entries env desired_state listing w) as [[remaining|e] w1] eqn:Hentries.
  - destruct (sync_entries_effect _ _ _ _ _ _ Hentries) as (_ & Hframe & _).
    destruct (sync_entries_spec _ _ _ _ _ _ Hentries) as (_ & _ & _ & Hobjs).
    destruct (Hobjs (listing_NoDup _ _)) as [_ Hmem].
    destruct remaining as [|obj rest].
    + injection Hsync as <- <-. auto.
    + apply trash_bucket_objects_effect in Hsync as (_ & Hframe2 & _).
      rewrite Hframe2; [auto | |].
      * intros Hin. apply Hmem in Hin as [Hlisted _]. contradiction.
      * intros j Hj. rewrite trashed_blob_prefixed. apply Hnot_trashed.
        apply Hmem in Hj as [Hlisted _]. exact Hlisted.
  - injection Hsync as <- <-.
    destruct (sync_entries_effect _ _ _ _ _ _ Hentries) as (_ & Hframe & _). auto.
Qed.

Lemma other_paper_bucket_is :
  list_bucket_objects
    (<["ftp/arxiv/papers/1209/1209.0001.pdf" := "another paper"]> Fixture.stale_bucket)
    "ftp/arxiv/papers/1208/1208.9998"
  = ["ftp/arxiv/papers/1208/1208.9998.tar.gz"].
Proof. vm_compute. reflexivity. Qed.

Lemma reconciliation_leaves_other_keys_alone_witness :
  let bucket :=
    <["ftp/arxiv/papers/1209/1209.0001.pdf" := "another paper"]> Fixture.stale_bucket in
  let w := Fixture.world Fixture.pdf_fs bucket in
  let w' := snd (sync_to_gcp (Fixture.env Fixture.unreachable) Fixture.rep_state w) in
  w_bucket w' !! "ftp/arxiv/papers/1209/1209.0001.pdf"
  = w_bucket w !! "ftp/arxiv/papers/1209/1209.0001.pdf".
Proof.
  intros bucket w w'.
  refine (reconciliation_leaves_other_keys_alone
            (Fixture.env Fixture.unreachable) Fixture.rep_state
            (set_single_source true (set_source_format (Some "pdf") Fixture.rep_state))
            w w' Fixture.rep_files "ftp/arxiv/papers/1208/1208.9998" (Ok tt)
            "ftp/arxiv/papers/1209/1209.0001.pdf" _ _ _ _ _ _).
  - vm_compute. reflexivity.
  - vm_compute. reflexivity.
  - vm_compute. reflexivity.
  - intros [H | [H | [H | [H | []]]]]; discriminate H.
  - unfold w, bucket. cbn [w_bucket Fixture.world]. rewrite other_paper_bucket_is.
    intros [H | []]. discriminate H.
  - unfold w, bucket. cbn [w_bucket Fixture.world]. rewrite other_paper_bucket_is.
    intros j [<- | []]. discriminate.
Defined.

(** ** The replies of the callbacks *)

(** Whatever [sync_to_gcp] returns, it has touched the bucket only. *)
Lemma sync_to_gcp_frame (env : Env) (state : SubmissionFilesState) (w w' : World)
      (r : result unit) :
  sync_to_gcp env state w = (r, w') → same_outside_bucket w w'.
Proof.
  destruct (get_expected_files env (w_fs w) state) as [[desired_state state']|e] eqn:Hfiles.
  - destruct (path_to_bucket_key env (CitPath (source_path env state EmptyString)))
      as [root_key|] eqn:Hkey.
    + rewrite (sync_to_gcp_steps _ _ _ _ _ _ Hfiles Hkey).
      destruct (sync_entries env desired_state _ w) as [[remaining|err] w1] eqn:Hentries;
        destruct (sync_entries_effect _ _ _ _ _ _ Hentries) as (Hsame & _).
      * destruct remaining as [|obj rest]; [intros [= <- <-]; exact Hsame|].
        intros Htrash. apply trash_bucket_objects_effect in Htrash as (Hsame2 & _).
        eapply same_outside_bucket_trans; eassumption.
      * intros [= <- <-]. exact Hsame.
    + pose proof (get_expected_files_same _ _ _ _ _ Hfiles) as Hsame.
      destruct (same_paper_paths env state state' Hsame) as (Hsp & _).
      unfold sync_to_gcp, mbind, cmd_bind, cbind, lift, reading_fs.
      rewrite Hfiles, <- Hsp, Hkey. intros [= <- <-]. apply same_outside_bucket_refl.
  - unfold sync_to_gcp, mbind, cmd_bind, cbind, lift, reading_fs.
    rewrite Hfiles. intros [= <- <-]. apply same_outside_bucket_refl.
Qed.

(** X19.  On a payload that decodes to an object the callback never
    raises and replies exactly once: the replies after it are those before
    and one more.  That reply is [ack] if and only if the ensure step
    returned a file state, its expected set is not empty, and the
    reconciliation of it completed; it is [nack] otherwise. *)
Theorem callback_acks_once (env : Env) (message : Message) (d : SubmissionData)
        (w : World) :
  decode_message env message = Ok (JDict d) →
  ∃ r w', submission_callback env message w = (Ok tt, add_reply r w')
          ∧ w_replies w' = w_replies w
          ∧ w_replies (snd (submission_callback env message w)) = r :: w_replies w
          ∧ (r = Ack ↔
             ∃ state w1 f files state',
               submission_message_to_file_state env d true w = (Ok state, w1)
               ∧ get_expected_files env (w_fs w1) state = Ok (f :: files, state')
               ∧ sync_to_gcp env state' w1 = (Ok tt, w')).
Proof.
  intros Hd. rewrite (callback_on_object _ _ _ _ Hd).
  pose proof (ensure_step_effect env d w) as Hensure.
  destruct (submission_message_to_file_state env d true w) as [[state|e] w1];
    destruct Hensure as (_ & _ & Hreplies & _).
  - destruct (get_expected_files env (w_fs w1) state) as [[[|f files] state']|e] eqn:Hfiles.
    + exists Nack, w1. split; [reflexivity|]. split; [exact Hreplies|].
      split; [cbn; congruence|]. split; [discriminate|].
      intros (? & ? & ? & ? & ? & [= <- <-] & H & _). congruence.
    + destruct (sync_to_gcp env state' w1) as [[[]|e] w2] eqn:Hsync;
        destruct (sync_to_gcp_frame _ _ _ _ _ Hsync) as (_ & _ & _ & Hreplies2).
      * exists Ack, w2. split; [reflexivity|]. split; [congruence|].
        split; [cbn; congruence|]. split; [|reflexivity].
        intros _. exists state, w1, f, files, state'. auto.
      * exists Nack, w2. split; [reflexivity|]. split; [congruence|].
        split; [cbn; congruence|]. split; [discriminate|].
        intros (? & ? & ? & ? & ? & [= <- <-] & H & Hs).
        rewrite Hfiles in H. injection H as <- <- <-. congruence.
    + exists Nack, w1. split; [reflexivity|]. split; [exact Hreplies|].
      split; [cbn; congruence|]. split; [discriminate|].
      intros (? & ? & ? & ? & ? & [= <- <-] & H & _). congruence.
  - exists Nack, w1. split; [reflexivity|]. split; [exact Hreplies|].
    split; [cbn; congruence|]. split; [discriminate|].
    intros (? & ? & ? & ? & ? & [=] & _).
Qed.

Lemma callback_acks_once_witness :
  ∃ r w',
    submission_callback (Fixture.env Fixture.unreachable) (Fixture.message "{rep}")
                        (Fixture.world Fixture.pdf_fs Fixture.stale_bucket)
    = (Ok tt, add_reply r w')
    ∧ w_replies w' = w_replies (Fixture.world Fixture.pdf_fs Fixture.stale_bucket)
    ∧ w_replies (snd (submission_callback
                        (Fixture.env Fixture.unreachable) (Fixture.message "{rep}")
                        (Fixture.world Fixture.pdf_fs Fixture.stale_bucket)))
      = r :: w_replies (Fixture.world Fixture.pdf_fs Fixture.stale_bucket)
    ∧ (r = Ack ↔
       ∃ state w1 f files state',
         submission_message_to_file_state (Fixture.env Fixture.unreachable)
                                          Fixture.rep_event true
                                          (Fixture.world Fixture.pdf_fs Fixture.stale_bucket)
         = (Ok state, w1)
         ∧ get_expected_files (Fixture.env Fixture.unreachable) (w_fs w1) state
           = Ok (f :: files, state')
         ∧ sync_to_gcp (Fixture.env Fixture.unreachable) state' w1 = (Ok tt, w')).
Proof.
  apply (callback_acks_once (Fixture.env Fixture.unreachable) (Fixture.message "{rep}")
                            Fixture.rep_event).
  vm_compute. reflexivity.
Defined.

(** X20.  When the resolution or the ensure step raises, for whatever
    reason, the callback nacks without having touched the bucket: no
    object is written or moved for a message that is not resolved. *)
Theorem callback_nacks_before_touching_the_bucket (env : Env) (message : Message)
        (d : SubmissionData) (w : World) (e : exn) :
  decode_message env message = Ok (JDict d) →
  fst (submission_message_to_file_state env d true w) = Raise e →
  ∃ w1, submission_callback env message w = (Ok tt, add_reply Nack w1)
        ∧ w_bucket w1 = w_bucket w ∧ w_ops w1 = w_ops w ∧ w_replies w1 = w_replies w.
Proof.
  intros Hd Hraise. rewrite (callback_on_object _ _ _ _ Hd).
  pose proof (ensure_step_effect env d w) as Heffect.
  destruct (submission_message_to_file_state env d true w) as [[state|e'] w1];
    [discriminate|].
  exists w1. destruct Heffect as (Hb & Ho & Hr & _). auto.
Qed.

Lemma callback_nacks_before_touching_the_bucket_witness :
  ∃ w1,
    submission_callback Fixture.env_more (Fixture.message "{tex}")
                        (Fixture.world Fixture.tex_fs Fixture.stale_bucket)
    = (Ok tt, add_reply Nack w1)
    ∧ w_bucket w1 = Fixture.stale_bucket ∧ w_ops w1 = [] ∧ w_replies w1 = [].
Proof.
  apply (callback_nacks_before_touching_the_bucket
           Fixture.env_more (Fixture.message "{tex}") Fixture.tex_event
           (Fixture.world Fixture.tex_fs Fixture.stale_bucket)
           (External "ConnectionError")).
  - vm_compute. reflexivity.
  - vm_compute. reflexivity.
Defined.

(** X21.  The stand-in callback of [--test] never acks and never touches
    the bucket: it replies with at most one [nack], and it returns
    normally only for a payload that does not decode (or decodes to
    [null]); in every other case it ends by raising, [SystemExit] after
    its [nack] when the expected set was computed. *)
Theorem test_callback_never_acks (env : Env) (message : Message) (w : World) :
  let '(r, w') := test_callback env message w in
  w_bucket w' = w_bucket w ∧ w_ops w' = w_ops w
  ∧ (w_replies w' = w_replies w ∨ w_replies w' = Nack :: w_replies w)
  ∧ (r = Ok tt ↔ decode_message env message = Ok JNone).
Proof.
  unfold test_callback, mbind, cmd_bind, cbind, lift.
  rewrite decode_message_returns.
  destruct (decoded env message) as [|d|].
  - cbn. repeat split; auto.
  - cbn [data_get].
    pose proof (ensure_step_effect env d w) as Heffect.
    destruct (submission_message_to_file_state env d true w) as [[state|e] w1];
      destruct Heffect as (Hb & Ho & Hr & _).
    + unfold reading_fs.
      destruct (get_expected_files env (w_fs w1) state) as [[files state']|e]; cbn.
      * split; [exact Hb|]. split; [exact Ho|]. split; [right; congruence|].
        split; discriminate.
      * split; [exact Hb|]. split; [exact Ho|]. split; [left; exact Hr|].
        split; discriminate.
    + split; [exact Hb|]. split; [exact Ho|]. split; [left; exact Hr|].
      split; discriminate.
  - cbn. repeat split; auto; discriminate.
Qed.

(** ** Sources that cannot be read *)

(** X22.  The two marker checks treat a file that cannot be read
    differently.  A tarball that is there and cannot be opened is logged
    and counts as not removed.  A [.gz] that is there and whose read
    raises makes [get_expected_files] raise the same exception, for a
    submission that is not removed; in particular it raises
    [UnicodeDecodeError] whenever the first chunk of the decompressed data
    holds a byte that is not ASCII, whatever the data begin with. *)
Theorem broken_sources (env : Env) (fs : FileSystem) (self : SubmissionFilesState) :
  (top_levels self = [] → fs_tar_getnames fs (tgz_source env self) = None →
   is_removed env fs self = (false, self))
  ∧ (∀ e, fst (is_removed env fs self) = false →
          fs_exists fs (gz_source env self) = true →
          fs_gzip_read fs (gz_source env self) (String.length needle) = Raise e →
          get_expected_files env fs self = Raise e)
  ∧ (∀ c chunk rest,
        fst (is_removed env fs self) = false →
        fs_exists fs (gz_source env self) = true →
        fs_gunzip fs (gz_source env self) = Some (Py.GzChunk (String c chunk) rest) →
        Py.is_ascii (String c chunk) = false →
        get_expected_files env fs self = Raise UnicodeDecodeError).
Proof.
  assert (Hraises :
            ∀ e, fst (is_removed env fs self) = false →
                 fs_exists fs (gz_source env self) = true →
                 fs_gzip_read fs (gz_source env self) (String.length needle) = Raise e →
                 get_expected_files env fs self = Raise e).
  { intros e Hlive Hex Hbad.
    pose proof (is_removed_same env fs self) as Hsame.
    unfold get_expected_files, current_entries. cbn zeta.
    destruct (is_removed env fs self) as [removed self1]. cbn [fst snd] in *. subst removed.
    rewrite <- (is_ignored_same_paper env fs self self1 Hsame).
    unfold is_ignored. rewrite Hex, Hbad. reflexivity. }
  split; [|split; [exact Hraises|]].
  - intros Hfresh Hbad. unfold is_removed, get_tgz_top_levels.
    destruct (top_levels self); [|discriminate]. rewrite Hbad.
    destruct (fs_exists fs (tgz_source env self)); reflexivity.
  - intros c chunk rest Hlive Hex Hopen Hbyte. apply Hraises; [exact Hlive | exact Hex |].
    unfold fs_gzip_read. rewrite Hopen. unfold Py.read_text.
    cbn [needle String.length Nat.eqb Py.read_chunks]. rewrite Hbyte. reflexivity.
Qed.

Lemma broken_sources_witness :
  get_expected_files (Fixture.env Fixture.unreachable) Fixture.corrupt_gz_fs
                     Fixture.bare_state
  = Raise (External "gzip")
  ∧ get_expected_files (Fixture.env Fixture.unreachable) Fixture.marked_latin1_fs
                       Fixture.bare_state
    = Raise UnicodeDecodeError.
Proof.
  split.
  - apply (proj1 (proj2 (broken_sources (Fixture.env Fixture.unreachable)
                                        Fixture.corrupt_gz_fs Fixture.bare_state)));
      reflexivity.
  - apply (proj2 (proj2 (broken_sources (Fixture.env Fixture.unreachable)
                                        Fixture.marked_latin1_fs Fixture.bare_state))
                 "%"%char
                 ("auto-ignore" +:+ String "010" (String "233" EmptyString))
                 Py.GzEnd);
      reflexivity.
Defined.

(** ** Failures of the reconciliation *)

Lemma sync_entries_raises (env : Env) (desired_state : list file_entry) :
  ∀ (bucket_objects : list string) (w w' : World) (e : exn),
    sync_entries env desired_state bucket_objects w = (Raise e, w') →
    e = TypeError ∨ e = External "upload".
Proof.
  induction desired_state as [|f rest IH]; intros objs w w' e; [discriminate|].
  cbn [sync_entries]. unfold mbind, cmd_bind, cbind, lift.
  destruct (cit f) as [p|name]; cbn [as_path].
  - destruct (upload env p (gcp f) w) as [[[]|err] w1] eqn:Hup.
    + apply IH.
    + intros [= <- <-]. right. unfold upload in Hup.
      destruct (fs_read_bytes (w_fs w) p) as [content|]; [|congruence].
      destruct (w_bucket w !! gcp f) as [blob|];
        [destruct (unchanged env content blob)|]; discriminate.
  - intros [= <- <-]. left. reflexivity.
Qed.

(** Objects that are all in the bucket, each once, are trashed without an
    error. *)
Lemma trash_bucket_objects_returns (objects : list string) :
  ∀ w, NoDup objects →
       (∀ obj, In obj objects → is_Some (w_bucket w !! obj)) →
       ∃ w', trash_bucket_objects objects w = (Ok tt, w').
Proof.
  induction objects as [|obj rest IH]; intros w Hnd Hpresent; [eexists; reflexivity|].
  apply NoDup_cons in Hnd as [Hobj Hnd]. rewrite list_elem_of_In in Hobj.
  cbn [trash_bucket_objects]. unfold mbind, cmd_bind, cbind, rename_blob.
  destruct (Hpresent obj (or_introl eq_refl)) as [content Hcontent]. rewrite Hcontent.
  apply IH; [exact Hnd|].
  intros other Hother. cbn [w_bucket set_bucket].
  assert (Hne : other ≠ obj) by (intros ->; contradiction).
  assert (Hcopied : is_Some (<[trashed_blob obj := content]> (w_bucket w) !! other)).
  { destruct (decide (trashed_blob obj = other)) as [->|Hne'].
    - rewrite lookup_insert_eq. eauto.
    - rewrite lookup_insert_ne by exact Hne'. apply Hpresent. right. exact Hother. }
  destruct (String.eqb obj (trashed_blob obj)); [exact Hcopied|].
  rewrite lookup_delete_ne by congruence. exact Hcopied.
Qed.

(** X23.  Trashing comes last, and a move finds its object, which was
    listed and is not removed by an upload or by another move: when
    [sync_to_gcp] raises, it is an upload that raised (a legacy file that
    cannot be read, or a ["cit"] that is no path), and nothing has been
    moved to the trash; what was done to the bucket before are uploads
    only.  (Failures of the store itself are not part of the model.) *)
Theorem reconciliation_fails_only_in_uploads (env : Env)
        (state state' : SubmissionFilesState) (w w' : World)
        (desired_state : list file_entry) (root_key : string) (e : exn) :
  get_expected_files env (w_fs w) state = Ok (desired_state, state') →
  path_to_bucket_key env (CitPath (source_path env state EmptyString)) = Some root_key →
  sync_to_gcp env state w = (Raise e, w') →
  (e = TypeError ∨ e = External "upload")
  ∧ ∃ new_ops, w_ops w' = new_ops ++ w_ops w
               ∧ Forall (fun op => ∃ key n, op = OpUpload key n) new_ops.
Proof.
  intros Hfiles Hkey Hsync.
  rewrite (sync_to_gcp_steps _ _ _ _ _ _ Hfiles Hkey) in Hsync.
  set (listing := list_bucket_objects (w_bucket w) root_key) in *.
  destruct (sync_entries env desired_state listing w) as [[remaining|err] w1] eqn:Hentries.
  - exfalso.
    destruct (sync_entries_spec _ _ _ _ _ _ Hentries) as (_ & _ & Hkeep & Hobjs).
    destruct (Hobjs (listing_NoDup _ _)) as [Hnd Hmem].
    destruct remaining as [|obj rest]; [discriminate|].
    destruct (trash_bucket_objects_returns (obj :: rest) w1 Hnd) as (w2 & Hok).
    + intros other Hother. apply Hkeep. apply Hmem in Hother as [Hlisted _].
      eapply listed_is_present. exact Hlisted.
    + rewrite Hok in Hsync. discriminate.
  - injection Hsync as <- <-. split; [eapply sync_entries_raises; exact Hentries|].
    destruct (sync_entries_effect _ _ _ _ _ _ Hentries) as (_ & _ & ups & Hups & Hall).
    exists ups. split; [exact Hups|].
    eapply Forall_impl; [exact Hall|]. intros op (key & n & -> & _). eauto.
Qed.

Lemma unpublished_files_are_expected :
  get_expected_files (Fixture.env Fixture.unreachable) Fixture.unpublished_fs
                     Fixture.rep_state
  = Ok (Fixture.rep_files,
        set_single_source true (set_source_format (Some "pdf") Fixture.rep_state)).
Proof. vm_compute. reflexivity. Qed.

Lemma reconciliation_fails_only_in_uploads_witness :
  let w := Fixture.world Fixture.unpublished_fs Fixture.stale_bucket in
  let w' := snd (sync_to_gcp (Fixture.env Fixture.unreachable) Fixture.rep_state w) in
  (External "upload" = TypeError ∨ External "upload" = External "upload")
  ∧ ∃ new_ops, w_ops w' = new_ops ++ w_ops w
               ∧ Forall (fun op => ∃ key n, op = OpUpload key n) new_ops.
Proof.
  intros w w'.
  refine (reconciliation_fails_only_in_uploads
            (Fixture.env Fixture.unreachable) Fixture.rep_state
            (set_single_source true (set_source_format (Some "pdf") Fixture.rep_state))
            w w' Fixture.rep_files "ftp/arxiv/papers/1208/1208.9998" (External "upload")
            unpublished_files_are_expected _ _).
  - vm_compute. reflexivity.
  - vm_compute. reflexivity.
Defined.
